(** * SpendTracker: budget status, record store and spending analytics

    A shallow embedding of the computational core of the application:

    - [components/ExpensesContext.tsx]: the provider holding the expense
      records, the budget, the storage mirror, and the operations
      [loadStoredData], [getBudgetStatus], [addExpense], [updateExpense],
      [deleteExpense], [setBudget], [clearAllExpenses], and the debounced
      [saveToStorage];
    - [app/(tabs)/two.tsx]: the analytics functions [filterExpenses],
      [getChartData], [getCategoryData], [getTotalSpent],
      [getMoneySavingTip], and the date range picked through
      [handleDateSelect];
    - [app/(tabs)/index.tsx]: the form handlers [handleAmountChange] and
      [handleSubmit] in front of the store;
    - [components/BudgetManager.tsx]: the settings form, [handleSave] and
      the editing of its rows.

    Modelling conventions.

    - A finite JavaScript [number] holding money is the rational it
      stands for ([Q]), and equalities between amounts are stated with
      [==].  In the provider ([getBudgetStatus] and the warnings of
      [addExpense] and [updateExpense]) every sum and difference is rounded
      to a double ([fl]), and so is every quotient and product of the
      analytics screen (the percentages of the breakdown, the averages of
      the tip).  The sums of the analytics screen, the rounding to
      hundredths [round2] and the width of the progress bar are computed
      on the rationals: amounts are read there as the decimal numbers they
      are written as.  Statements that rest on such sums and are about
      what the doubles give are made for whole amounts of ordinary size,
      which the doubles add up exactly.
    - An instant is an integer count of milliseconds since the epoch ([Z]);
      a [Date] that may be invalid (NaN) is an [option Z], and a time value
      outside the range of [Date] makes an invalid one ([JSDate.TimeClip]).
    - Local time is UTC shifted by a fixed offset [tz] (no daylight saving
      transitions).
    - Plain objects used as dictionaries are [gmap string _].  A name under
      which every object has an inherited member ([inheritedName]) does
      not read as absent from an object without an entry for it; the
      statements about category totals are made for the other names
      ([ownName]).
    - What [JSON.parse] returns is read at the types the interfaces
      declare for it.
    - Each asynchronous operation runs to completion as one transition of
      the provider state; what the environment decides (the clock, the
      user's answer to a prompt, whether a storage call rejects) is passed
      in explicitly. *)

From Stdlib Require Import ZArith QArith Qround Qminmax Qabs Qpower Lia Lqa List Bool String Ascii.
From stdpp Require Import gmap strings list fin_maps pretty.
Import ListNotations.

#[local] Set Default Proof Using "Type*".

Local Open Scope Z_scope.

(** ** Dates

    The [Date] built-in, after ECMA-262 (Day, TimeWithinDay, MakeDay,
    MakeDate, LocalTime, UTC), with the proleptic Gregorian calendar
    computed era by era (400 years, 146097 days). *)

Module JSDate.

Definition msPerDay : Z := 86400000.

Definition Day (t : Z) : Z := t / msPerDay.
Definition TimeWithinDay (t : Z) : Z := t mod msPerDay.
Definition MakeDate (day time : Z) : Z := day * msPerDay + time.

  (** [TimeClip]: a time value further than 100 000 000 days from the
      epoch is no instant ([NaN], here [None]). *)
Definition maxTime : Z := 8640000000000000.
Definition TimeClip (t : Z) : option Z :=
    if Z.abs t <=? maxTime then Some t else None.

  (** Days before year [yoe] of an era, the era starting on 1 March. *)
Definition yearStart (yoe : Z) : Z := 365 * yoe + yoe / 4 - yoe / 100.
Definition yearOfEra (doe : Z) : Z :=
    (doe - doe / 1460 + doe / 36524 - doe / 146096) / 365.
  (** Days before month [mp] of a year that starts in March ([mp = 0]). *)
Definition monthStart (mp : Z) : Z := (153 * mp + 2) / 5.
Definition monthOfDoy (doy : Z) : Z := (5 * doy + 2) / 153.

  (** Year, month (1..12) and day of month of day number [z]
      (day 0 is 1 January 1970). *)
Definition civil_from_days (z : Z) : Z * Z * Z :=
    let era := (z + 719468) / 146097 in
    let doe := (z + 719468) mod 146097 in
    let yoe := yearOfEra doe in
    let doy := doe - yearStart yoe in
    let mp := monthOfDoy doy in
    let d := doy - monthStart mp + 1 in
    let m := if mp <? 10 then mp + 3 else mp - 9 in
    (if m <=? 2 then yoe + era * 400 + 1 else yoe + era * 400, m, d).

  (** Day number of the civil date [y]-[m]-[d], [m] in 1..12. *)
Definition days_from_civil (y m d : Z) : Z :=
    let y' := if m <=? 2 then y - 1 else y in
    let era := y' / 400 in
    let yoe := y' mod 400 in
    let mp := if m <=? 2 then m + 9 else m - 3 in
    era * 146097 + (yearStart yoe + monthStart mp + d - 1) - 719468.

Definition YearFromTime (t : Z) : Z := fst (fst (civil_from_days (Day t))).
  (** Months are numbered from 0, as [getMonth] does. *)
Definition MonthFromTime (t : Z) : Z := snd (fst (civil_from_days (Day t))) - 1.
Definition DateFromTime (t : Z) : Z := snd (civil_from_days (Day t)).
  (** 0 is Sunday; 1 January 1970 was a Thursday. *)
Definition WeekDay (t : Z) : Z := (Day t + 4) mod 7.

  (** [MakeDay(year, month, date)]: the month may lie outside 0..11 and the
      date outside the month; both carry over. *)
Definition MakeDay (year month dt : Z) : Z :=
    days_from_civil (year + month / 12) (month mod 12 + 1) 1 + dt - 1.

Section Local.
    (** Offset of local time from UTC, in milliseconds. *)
Variable tz : Z.

Definition LocalTime (t : Z) : Z := t + tz.
Definition UTC (t : Z) : Z := t - tz.

Definition getFullYear (t : Z) : Z := YearFromTime (LocalTime t).
Definition getMonth (t : Z) : Z := MonthFromTime (LocalTime t).
Definition getDate (t : Z) : Z := DateFromTime (LocalTime t).
Definition getDay (t : Z) : Z := WeekDay (LocalTime t).

    (** [d.setHours(0, 0, 0, 0)] *)
Definition setHours0 (t : Z) : Z :=
      UTC (MakeDate (Day (LocalTime t)) 0).
    (** [d.setHours(23, 59, 59, 999)] *)
Definition setHoursEnd (t : Z) : Z :=
      UTC (MakeDate (Day (LocalTime t)) (msPerDay - 1)).
    (** [d.setDate(dt)] *)
Definition setDate (t dt : Z) : Z :=
      let lt := LocalTime t in
      UTC (MakeDate (MakeDay (YearFromTime lt) (MonthFromTime lt) dt)
                    (TimeWithinDay lt)).
    (** [d.setMonth(mo)] *)
Definition setMonth (t mo : Z) : Z :=
      let lt := LocalTime t in
      UTC (MakeDate (MakeDay (YearFromTime lt) mo (DateFromTime lt))
                    (TimeWithinDay lt)).
    (** The fields [toDateString] prints: weekday, month, day, year. *)
Definition toDateString (t : Z) : Z * Z * Z * Z :=
      (getDay t, getMonth t, getDate t, getFullYear t).
End Local.

End JSDate.

(** ** Numbers *)

Local Open Scope Q_scope.

(** *** Doubles

    A finite [number] is the rational it stands for.  [fl q] is [q]
    rounded to 53 significant bits, a tie going to the even significand:
    the double nearest to [q], for a [q] within the range of the normal
    doubles.  The range itself is not modelled: a result beyond [2^1024],
    which the platform turns into an infinity, and a quotient below
    [2^-1022], which it rounds to a multiple of [2^-1074], are outside the
    model.  (Sums and differences of doubles are never below that range
    without being exact.) *)

Definition pow2 (e : Z) : Q := 2 ^ e.

(** The [e] with [2^e <= q < 2^(e+1)], for a positive [q]. *)
Definition binade (q : Q) : Z :=
  let e := (Z.log2 (Qnum q) - Z.log2 (Zpos (Qden q)))%Z in
  if Qle_bool (pow2 e) q then e else (e - 1)%Z.

(** The distance between the doubles next to a positive [q]. *)
Definition spacing (q : Q) : Q := pow2 (binade q - 52).

(** The nearest integer, a tie going to the even one. *)
Definition nearestEven (x : Q) : Z :=
  let f := Qfloor x in
  match Qcompare (x - inject_Z f) (1 # 2) with
  | Lt => f
  | Gt => (f + 1)%Z
  | Eq => if Z.even f then f else (f + 1)%Z
  end.

Definition roundPositive (q : Q) : Q :=
  inject_Z (nearestEven (q / spacing q)) * spacing q.

Definition fl (q : Q) : Q :=
  let r := Qred q in
  match Qnum r with
  | Z0 => 0
  | Zpos _ => Qred (roundPositive r)
  | Zneg _ => Qred (- roundPositive (- r))
  end.

(** *** Operations *)

(** [Math.round(x)]: the nearest integer, ties towards +infinity. *)
Definition Math_round (x : Q) : Z := Qfloor (x + (1 # 2)).
(** [Math.round(x * 100) / 100] *)
Definition round2 (x : Q) : Q := inject_Z (Math_round (x * 100)) / 100.
(** [a > b] on numbers. *)
Definition Qgtb (a b : Q) : bool := negb (Qle_bool a b).
(** [Math.max(0, x)] *)
Definition Math_max0 (x : Q) : Q := if Qle_bool x 0 then 0 else x.
(** [x || 0] where [x] is a number or [undefined]. *)
Definition orZero (x : option Q) : Q :=
  match x with
  | Some v => if Qeq_bool v 0 then 0 else v
  | None => 0
  end.
(** The names of the members an object inherits from [Object.prototype].
    Read from an object that has no entry of its own under such a name,
    they give the inherited member, where any other name gives
    [undefined]. *)
Definition inheritedName (c : string) : bool :=
  existsb (String.eqb c)
    ["constructor"; "hasOwnProperty"; "isPrototypeOf"; "propertyIsEnumerable";
     "toLocaleString"; "toString"; "valueOf"; "__proto__";
     "__defineGetter__"; "__defineSetter__"; "__lookupGetter__"; "__lookupSetter__"]%string.
(** Truthiness of a number and of a string. *)
Definition truthyQ (x : Q) : bool := negb (Qeq_bool x 0).
Definition truthyZ (x : Z) : bool := negb (x =? 0)%Z.
Definition truthyS (s : string) : bool := negb (String.eqb s "").

(** A number that a division by zero may have sent to an infinity. *)
Inductive xnum := Fin (z : Z) | PosInf | NegInf.

Definition xnum_gtb (x : xnum) (k : Z) : bool :=
  match x with
  | Fin z => (k <? z)%Z
  | PosInf => true
  | NegInf => false
  end.

(** [Math.round((x / s) * 100)] for [x] nonzero: the quotient and the
    product are each rounded to a double. *)
Definition percentOf (x s : Q) : xnum :=
  if Qeq_bool s 0 then (if Qle_bool x 0 then NegInf else PosInf)
  else Fin (Math_round (fl (fl (x / s) * 100))).

(** [s.trim()], over the ASCII white space and line terminators. *)
Definition isSpace (c : ascii) : bool :=
  let n := nat_of_ascii c in
  ((9 <=? n) && (n <=? 13))%nat || (n =? 32)%nat.
Fixpoint trimStart (s : string) : string :=
  match s with
  | String c r => if isSpace c then trimStart r else s
  | EmptyString => EmptyString
  end.
Fixpoint trimEnd (s : string) : string :=
  match s with
  | String c r =>
      match trimEnd r with
      | EmptyString => if isSpace c then EmptyString else String c EmptyString
      | r' => String c r'
      end
  | EmptyString => EmptyString
  end.
Definition trim (s : string) : string := trimEnd (trimStart s).

(** ** Data model ([ExpensesContext.tsx], lines 5-18) *)

Inductive Period := daily | weekly | monthly.

Module Budget.
Record t := mk {
    amount : Q;
    period : Period;
    categoryLimits : option (gmap string Q)
  }.
End Budget.

Module Expense.
Record t := mk {
    id : string;
    description : string;
    amount : Q;
    date : string;
    category : string;
    (** A whole number of milliseconds; [None] is an absent (or NaN)
        timestamp. *)
    timestamp : option Z
  }.
End Expense.

(** [Omit<Expense, 'id' | 'timestamp'>] *)
Module Input.
Record t := mk {
    description : string;
    amount : Q;
    date : string;
    category : string
  }.
End Input.

Module BudgetStatus.
Record t := mk {
    total : Q;
    remaining : Q;
    categoryTotals : gmap string Q;
    isOverBudget : bool
  }.
End BudgetStatus.

(** ** The provider ([ExpensesContext.tsx]) *)

Definition STORAGE_KEY : string := "@spendtracker_expenses".
Definition BUDGET_STORAGE_KEY : string := "@spendtracker_budget".

(** A value thrown or a rejection reason: an [Error] with its message, or
    something that is not an [Error]. *)
Inductive Thrown := JsError (message : string) | NonError.

(** How an asynchronous operation settles. *)
Inductive Outcome := Resolved | Rejected (reason : Thrown).

(** [error instanceof Error ? error.message : fallback] *)
Definition messageOr (fallback : string) (e : Thrown) : string :=
  match e with
  | JsError m => m
  | NonError => fallback
  end.

(** Calls to the key-value storage service; the environment decides which
    of them reject, and with what. *)
Inductive StorageOp :=
| getItem (key : string)
| setItem (key : string)
| removeItem (key : string).

(** The budget warning prompt: which cap the mutation would exceed, and by
    how much (the message text is built from these). *)
Inductive Warning :=
| OverPeriod (p : Period) (excess : Q)
| OverCategory (c : string) (excess : Q).

(** Dialogs shown through [Alert.alert]. *)
Inductive Alert :=
| BudgetWarning (w : Warning)
| ErrorAlert (message : string).

(** The [description] of an element of the parsed expenses array, which
    load tests for truth and then trims: absent or falsy other than a
    string ([undefined], [null], [0], [false]); a string; or a value that
    is truthy and not a string, which has no [trim]. *)
Inductive StoredText := NoText | Text (s : string) | NotText.

(** One element of the parsed expenses array.  [s_amount] is [None] when
    the amount is absent or not of type number (a number written too
    large for a double parses to an infinity, and has no reading here).
    [s_id], [s_date],
    [s_category] and [s_timestamp] are read at the types the [Expense]
    interface declares, [None] standing for an absent or falsy value of
    another type; an element with a truthy value of another type there
    loads as a record that is no [Expense], and has no reading here. *)
Record StoredExpense := mkStored {
  s_id : option string;
  s_description : StoredText;
  s_amount : option Q;
  s_date : option string;
  s_category : option string;
  s_timestamp : option Z
}.

(** What [JSON.parse] made of the expenses payload: some value that is not
    an array, or an array whose elements are objects or [null] ([None]). *)
Inductive ParsedExpenses :=
| NotAnArray
| ArrayOf (elems : list (option StoredExpense)).

(** The parsed budget payload, likewise. *)
Record StoredBudget := mkStoredBudget {
  sb_amount : option Q;
  sb_period : option string;
  sb_categoryLimits : option (gmap string Q)
}.

(** The state the provider holds: its React state, the [shouldSaveRef]
    flag, the contents of the durable storage, and the dialogs shown so
    far (latest last). *)
Record State := mkState {
  expenses : list Expense.t;
  budget : option Budget.t;
  loading : bool;
  error : option string;
  shouldSaveRef : bool;
  storage : gmap string string;
  alerts : list Alert
}.

Definition setExpenses (l : list Expense.t) (st : State) : State :=
  mkState l (budget st) (loading st) (error st) (shouldSaveRef st) (storage st) (alerts st).
Definition setBudgetState (b : Budget.t) (st : State) : State :=
  mkState (expenses st) (Some b) (loading st) (error st) (shouldSaveRef st) (storage st) (alerts st).
Definition setLoading (b : bool) (st : State) : State :=
  mkState (expenses st) (budget st) b (error st) (shouldSaveRef st) (storage st) (alerts st).
Definition setError (e : option string) (st : State) : State :=
  mkState (expenses st) (budget st) (loading st) e (shouldSaveRef st) (storage st) (alerts st).
Definition setStorage (m : gmap string string) (st : State) : State :=
  mkState (expenses st) (budget st) (loading st) (error st) (shouldSaveRef st) m (alerts st).
Definition showAlert (a : Alert) (st : State) : State :=
  mkState (expenses st) (budget st) (loading st) (error st) (shouldSaveRef st) (storage st)
          (alerts st ++ [a]).

(** The state of a freshly mounted provider over a given storage. *)
Definition initialState (disk : gmap string string) : State :=
  mkState [] None true None false disk [].

(** ** Analytics data ([app/(tabs)/two.tsx]) *)

Record Category := mkCategory { cat_id : string; cat_name : string; cat_color : string }.

Definition categories : list Category :=
  [ mkCategory "food" "Food" "#FF6384";
    mkCategory "transport" "Transport" "#36A2EB";
    mkCategory "shopping" "Shopping" "#FFCE56";
    mkCategory "bills" "Bills" "#4BC0C0";
    mkCategory "entertainment" "Entertainment" "#9966FF";
    mkCategory "other" "Other" "#FF9F40" ].

(** The values the [dateFilter] state takes. *)
Inductive DateFilter := f_all | f_today | f_week | f_month | f_custom.

(** One entry of the category breakdown (the legend styling, two
    constants, is left out). *)
Module CategoryDatum.
Record t := mk {
  name : string;
  amount : Q;
  color : string;
  percentage : xnum
}.
End CategoryDatum.

(** The six advisory messages; the two that print a number carry it. *)
Inductive Tip :=
| StartTracking
| Concentrated (name : string) (percentage : xnum)
| HighDailyAverage (rounded : Z)
| RecentlyHigher
| FewCategories
| WellBalanced.

(** ** The expense form ([app/(tabs)/index.tsx]) *)

Record Form := mkForm {
  f_description : string;
  f_amount : string;
  f_selectedCategory : string;
  f_editingExpense : option Expense.t
}.

(** What [handleSubmit] ends with: one of the two field errors, the form
    reset after a save, or the failure dialog. *)
Inductive Submitted :=
| DescriptionRequired
| InvalidAmount
| Saved
| SaveFailed.

(** ** Sample data

    A concrete platform and a few records, for the worked examples at the
    end: Indian Standard Time, Wednesday 25 November 2026, 10:00. *)

Definition IST : Z := 19800000%Z.
Definition oneDay : Z := 86400000%Z.
Definition nov25 : Z := (20782 * oneDay + 36000000 - IST)%Z.

(** The dates of the samples are written day/month/year, with a day past
    12: they do not parse. *)
Definition noDate (s : string) : option Z := None.

Definition dq : string := String (ascii_of_nat 34) EmptyString.
Definition quoted (s : string) : string := (dq ++ s ++ dq)%string.

(** Three payloads: a JSON string, text that is no JSON, and an array
    with one record whose amount is negative. *)
Definition payloadText : string := quoted "not an array".
Definition payloadBroken : string := "[{".
Definition payloadRefund : string :=
  ("[{" ++ quoted "id" ++ ":" ++ quoted "7" ++ ","
        ++ quoted "description" ++ ":" ++ quoted "refund" ++ ","
        ++ quoted "amount" ++ ":-5,"
        ++ quoted "date" ++ ":" ++ quoted "25/11/2026" ++ "}]")%string.
Definition storedRefund : StoredExpense :=
  mkStored (Some "7") (Text "refund") (Some (-5)) (Some "25/11/2026") None None.

(** [JSON.parse] on these payloads. *)
Definition parseSample (s : string) : option ParsedExpenses :=
  if String.eqb s payloadText then Some NotAnArray
  else if String.eqb s payloadRefund then Some (ArrayOf [Some storedRefund])
  else if String.eqb s "[]" then Some (ArrayOf [])
  else None.
Definition parseNoBudget (s : string) : option (option StoredBudget) := None.

(** A payload of two elements, the second with the number 5 for
    description. *)
Definition parseTwo (s : string) : option ParsedExpenses :=
  if String.eqb s "[2]"
  then Some (ArrayOf
               [Some (mkStored (Some "1") (Text "tea") (Some 10) (Some "25/11/2026")
                               (Some "food") None);
                Some (mkStored (Some "2") NotText (Some 20) (Some "25/11/2026")
                               (Some "food") None)])
  else None.

(** A stand-in for [JSON.stringify]: the ids, in order. *)
Definition idsOf (l : list Expense.t) : string :=
  ("[" ++ String.concat "," (map Expense.id l) ++ "]")%string.

(** [parseFloat] on a few inputs of the amount field. *)
Definition parseAmount (s : string) : option Q :=
  if String.eqb s "12.50" then Some (25 # 2)
  else if String.eqb s "0" then Some 0
  else if String.eqb s "100" then Some 100
  else if String.eqb s "0.001" then Some (1 # 1000)
  else None.
Definition printDate (t : Z) : string := "25/11/2026".

(** A storage that never fails, and one whose writes fail. *)
Definition storageOk (op : StorageOp) : option Thrown := None.
Definition writesFail (op : StorageOp) : option Thrown :=
  match op with
  | setItem _ => Some (JsError "disk full")
  | _ => None
  end.

Definition spent (id : string) (amount : Q) (category : string) (at_ : Z) : Expense.t :=
  Expense.mk id "spent" amount "25/11/2026" category (Some at_).

(** Food 50 an hour ago, under a daily budget of 1000 that limits
    transport to 40. *)
Definition groceries : Expense.t := spent "1" 50 "food" (nov25 - 3600000)%Z.
Definition transportCap : Budget.t :=
  Budget.mk 1000 daily (Some {[ "transport" := (40 : Q) ]}).
Definition oneMeal : State :=
  mkState [groceries] (Some transportCap) false None false ∅ [].
Definition taxi : Input.t := Input.mk "taxi" 50 "25/11/2026" "transport".
Definition taxi45 : Input.t := Input.mk "taxi" 45 "25/11/2026" "transport".
Definition taxi60 : Input.t := Input.mk "taxi" 60 "25/11/2026" "transport".

(** 4500 spent this month under a monthly budget of 5000, as in the
    example of the specification. *)
Definition monthlyCap : Budget.t := Budget.mk 5000 monthly None.
Definition rent : Expense.t := spent "2" 4500 "bills" (nov25 - 3600000)%Z.
Definition nearTheCap : State :=
  mkState [rent] (Some monthlyCap) false None false ∅ [].
Definition sixHundred : Input.t := Input.mk "phone" 600 "25/11/2026" "shopping".

(** A record stamped one millisecond past the last instant a [Date]
    holds. *)
Definition farFuture : Expense.t := spent "3" 50 "food" (JSDate.maxTime + 1)%Z.

(** The doubles written 0.1, 0.2 and 0.3, spent on food under a daily
    budget of 0.3. *)
Definition tenths : list Expense.t :=
  [spent "1" (fl (1 # 10)) "food" nov25; spent "2" (fl (2 # 10)) "food" nov25].
Definition threeTenthsCap : Budget.t := Budget.mk (fl (3 # 10)) daily None.

(** Records one, three, seven and ten days back. *)
Definition daysBack (n : Z) (id : string) (amount : Q) : Expense.t :=
  spent id amount "food" (nov25 - n * oneDay)%Z.
Definition gym : Expense.t := spent "9" 100 "gym" nov25.
Definition mostlyFood : list Expense.t :=
  [spent "1" 800 "food" nov25; spent "2" 200 "transport" nov25].
Definition evenSplit : list Expense.t :=
  [spent "1" 50 "food" nov25; spent "2" 50 "transport" nov25].


(** ** The budget settings form ([components/BudgetManager.tsx]) *)

(** One row of the category limits editor: both fields are text. *)
Record CategoryLimit := mkLimit { cl_category : string; cl_limit : string }.

Inductive LimitField := field_category | field_limit.

(** The component's state: the amount field, the period, the switch and
    the rows. *)
Module BudgetForm.
Record t := mk {
  amount : string;
  period : Period;
  showCategoryLimits : bool;
  categoryLimits : list CategoryLimit
}.
End BudgetForm.

(** What [handleSave] ends with, each with its dialog: "Invalid Amount",
    "Success", or "Error". *)
Inductive BudgetSaved :=
| InvalidBudgetAmount
| BudgetSettingsSaved
| BudgetSaveFailed.

(** ** The date range of the analytics screen ([app/(tabs)/two.tsx]) *)

(** [Platform.OS], as far as the screen tells its values apart. *)
Inductive OS := ios | android | otherOS.

Inductive PickerMode := pickStart | pickEnd.

(** Lines 211-215: the filter, the two bounds, and the picker. *)
Module Screen.
Record t := mk {
  dateFilter : DateFilter;
  startDate : option Z;
  endDate : option Z;
  showDatePicker : bool;
  datePickerMode : PickerMode
}.
End Screen.

(** The filter buttons and the date range label. *)
Inductive Press :=
| pressAll | pressToday | pressWeek | pressMonth | pressCustom | pressRange.

(** What the screen can be sent: a press, a choice made in (or a
    dismissal of) the date picker, under a platform and at a reading of
    the clock, and the firing of the timer that reopens the picker. *)
Inductive ScreenEvent :=
| Pressed (p : Press)
| DateSelected (os : OS) (date : option Z) (now : Z)
| ReopenTimer.

(** ** The debounced save ([ExpensesContext.tsx], lines 134-171) *)

(** The provider with its one live timer: [pendingSaveRef] holds the
    list the timer will write when it fires, or nothing when no timer is
    running. *)
Record Saver := mkSaver {
  provider : State;
  pendingSaveRef : option (list Expense.t)
}.

(** ** The expense screen ([app/(tabs)/index.tsx]) *)

Record FormCategory := mkFormCategory {
  fc_id : string;
  fc_name : string;
  fc_icon : string
}.

Definition defaultCategories : list FormCategory :=
  [ mkFormCategory "food" "Food" "cutlery";
    mkFormCategory "transport" "Transport" "car";
    mkFormCategory "shopping" "Shopping" "shopping-bag";
    mkFormCategory "bills" "Bills" "file-text";
    mkFormCategory "entertainment" "Entertainment" "film";
    mkFormCategory "other" "Other" "ellipsis-h" ].

(** Lines 416-425, without the two error texts. *)
Module ExpensesScreen.
Record t := mk {
  description : string;
  amount : string;
  categories : list FormCategory;
  selectedCategory : FormCategory;
  showNewCategoryModal : bool;
  newCategoryName : string;
  selectedIcon : string;
  editingExpense : option Expense.t
}.
End ExpensesScreen.

(** What the user does on the screen, short of submitting: typing into
    the two fields, pressing the category at a position of the list,
    opening, filling, closing and saving the new category dialog, and
    pressing the edit button of a record. *)
Inductive FormEvent :=
| DescriptionTyped (text : string)
| AmountTyped (text : string)
| CategoryPressed (index : nat)
| AddCategoryPressed
| NameTyped (text : string)
| IconPressed (icon : string)
| ModalClosed
| SaveCategoryPressed
| EditPressed (expense : Expense.t).

(** ** More sample data *)

(** A stand-in for [JSON.stringify] on budgets, and [JSON.parse] on the
    one text it gives. *)
Definition budgetText (b : Budget.t) : string := "{5000 a month}".
Definition parseBudgetSample (s : string) : option (option StoredBudget) :=
  if String.eqb s "{5000 a month}"
  then Some (Some (mkStoredBudget (Some 5000) (Some "monthly") None))
  else None.

(** The meal and a ride of 45 added at the sample instant, as a list and
    as [JSON.parse] reads them back from the text of their ids. *)
Definition ride45 : Expense.t :=
  Expense.mk (pretty nov25) "taxi" 45 "25/11/2026" "transport" (Some nov25).
Definition parseMealAndRide (s : string) : option ParsedExpenses :=
  if String.eqb s (idsOf [groceries; ride45])
  then Some (ArrayOf
               [Some (mkStored (Some "1") (Text "spent") (Some 50) (Some "25/11/2026")
                               (Some "food") (Some (nov25 - 3600000)%Z));
                Some (mkStored (Some (pretty nov25)) (Text "taxi") (Some 45)
                               (Some "25/11/2026") (Some "transport") (Some nov25))])
  else None.

(** Monday 23 and Wednesday 25 November 2026, at midnight. *)
Definition nov23_0h : Z := (20780 * oneDay - IST)%Z.
Definition nov25_0h : Z := (20782 * oneDay - IST)%Z.

(** A settings form for 5000 a month with three rows, two of them for
    food, and one whose limit is no number. *)
Definition settings : BudgetForm.t :=
  BudgetForm.mk "5000" monthly true
    [mkLimit "food" "300"; mkLimit "bills" ""; mkLimit "food" "250"].
Definition parseSettings (s : string) : option Q :=
  if String.eqb s "5000" then Some 5000
  else if String.eqb s "300" then Some 300
  else if String.eqb s "250" then Some 250
  else None.

(** Stand-ins for [toString] on the numbers of the samples and for
    [toLowerCase] on one name. *)
Definition printNumber (q : Q) : string :=
  if Qeq_bool q 5000 then "5000" else if Qeq_bool q 250 then "250" else "100".
Definition lowerSample (s : string) : string :=
  if String.eqb s "Pet  Care" then "pet  care" else s.
Definition foodCap : Budget.t := Budget.mk 5000 monthly (Some {[ "food" := (250 : Q) ]}).
Section App.

(** *** The platform

    Services the application calls and does not define. *)

(** Offset of local time from UTC, in milliseconds. *)
Variable tz : Z.
(** [new Date(s).getTime()]; [None] is NaN (an invalid date). *)
Variable Date_parse : string -> option Z.
(** [JSON.parse] on the two payloads; [None] is a [SyntaxError].  For the
    budget, [Some None] is the value [null]. *)
Variable JSON_parse_expenses : string -> option ParsedExpenses.
Variable JSON_parse_budget : string -> option (option StoredBudget).
Variable JSON_stringify : list Expense.t -> string.
(** [parseFloat]; [None] is NaN. *)
Variable parseFloat : string -> option Q.
(** [d.toLocaleDateString('en-IN', ...)] *)
Variable toLocaleDateString : Z -> string.

(** [new Date(expense.timestamp || new Date(expense.date).getTime())];
    [None] is an invalid date: the time value is NaN, or beyond the range
    of [Date]. *)
Definition expenseDate (e : Expense.t) : option Z :=
  match Expense.timestamp e with
  | Some t =>
      if truthyZ t then JSDate.TimeClip t
      else Date_parse (Expense.date e) ≫= JSDate.TimeClip
  | None => Date_parse (Expense.date e) ≫= JSDate.TimeClip
  end.

(** [d >= b] and [d <= b] for a possibly invalid date [d]: a comparison
    with NaN is false. *)
Definition dateGeb (d : option Z) (b : Z) : bool :=
  match d with Some x => (b <=? x)%Z | None => false end.
Definition dateLeb (d : option Z) (b : Z) : bool :=
  match d with Some x => (x <=? b)%Z | None => false end.

(** *** getBudgetStatus (lines 186-240)

    The two [new Date()] of the source are one reading [now] of the
    clock. *)

Definition startOfPeriod (p : Period) (now : Z) : Z :=
  match p with
  | daily => JSDate.setHours0 tz now
  | weekly =>
      JSDate.setHours0 tz
        (JSDate.setDate tz now (JSDate.getDate tz now - JSDate.getDay tz now))
  | monthly => JSDate.setHours0 tz (JSDate.setDate tz now 1)
  end.

(** One step of the [reduce]: the category's entry and the running sum,
    each the double nearest to the sum.  The entry read for a category not
    yet met is [undefined], as it is in the source for every name but
    those of the members of [Object.prototype] (see [inheritedName]). *)
Definition tally (acc : gmap string Q * Q) (e : Expense.t) : gmap string Q * Q :=
  (<[Expense.category e :=
       fl (orZero (fst acc !! Expense.category e) + Expense.amount e)]> (fst acc),
   fl (snd acc + Expense.amount e)).

(** [Object.entries(limits).some(([c, limit]) => (totals[c] || 0) > limit)] *)
Definition overCategoryLimit (totals limits : gmap string Q) : bool :=
  existsb (fun cl => Qgtb (orZero (totals !! fst cl)) (snd cl)) (map_to_list limits).

Definition inPeriod (start : Z) (e : Expense.t) : bool :=
  dateGeb (expenseDate e) start.

Definition getBudgetStatus (budget : option Budget.t) (expenses : list Expense.t)
    (now : Z) : BudgetStatus.t :=
  match budget with
  | None => BudgetStatus.mk 0 0 ∅ false
  | Some b =>
      let periodExpenses := List.filter (inPeriod (startOfPeriod (Budget.period b) now)) expenses in
      let acc := fold_left tally periodExpenses (∅, 0) in
      let categoryTotals := fst acc in
      let total := snd acc in
      let isOverBudget := Qgtb total (Budget.amount b) in
      let isOverBudget :=
        match Budget.categoryLimits b with
        | Some limits =>
            if isOverBudget then isOverBudget
            else overCategoryLimit categoryTotals limits
        | None => isOverBudget
        end in
      BudgetStatus.mk total (Math_max0 (fl (Budget.amount b - total))) categoryTotals isOverBudget
  end.

(** *** addExpense (lines 242-300) *)

(** [budget.categoryLimits?.[c]] *)
Definition limitOf (b : Budget.t) (c : string) : option Q :=
  match Budget.categoryLimits b with
  | Some limits => limits !! c
  | None => None
  end.

(** The second branch of both warning computations, on the projected
    category total. *)
Definition categoryWarning (b : Budget.t) (c : string) (categoryTotal : Q) : option Warning :=
  match limitOf b c with
  | Some limit =>
      if truthyQ limit && Qgtb categoryTotal limit
      then Some (OverCategory c (fl (categoryTotal - limit)))
      else None
  | None => None
  end.

(** Lines 253-265: the warning, if any, for a record about to be added. *)
Definition addWarning (budget : option Budget.t) (budgetStatus : BudgetStatus.t)
    (expense : Input.t) : option Warning :=
  let newTotal := fl (BudgetStatus.total budgetStatus + Input.amount expense) in
  let categoryTotal :=
    fl (orZero (BudgetStatus.categoryTotals budgetStatus !! Input.category expense)
        + Input.amount expense) in
  match budget with
  | Some b =>
      if Qgtb newTotal (Budget.amount b)
      then Some (OverPeriod (Budget.period b) (fl (newTotal - Budget.amount b)))
      else categoryWarning b (Input.category expense) categoryTotal
  | None => None
  end.

(** [await AsyncStorage.setItem(STORAGE_KEY, JSON.stringify(data))] *)
Definition writeExpenses (io : StorageOp -> option Thrown) (data : list Expense.t)
    (st : State) : Thrown + State :=
  match io (setItem STORAGE_KEY) with
  | Some e => inl e
  | None => inr (setStorage (<[STORAGE_KEY := JSON_stringify data]> (storage st)) st)
  end.

(** Lines 288-290, common to add and update: write, then set the state. *)
Definition commit (io : StorageOp -> option Thrown) (updatedExpenses : list Expense.t)
    (st : State) : State * option Thrown :=
  match writeExpenses io updatedExpenses st with
  | inl e => (st, Some e)
  | inr st' => (setExpenses updatedExpenses st', None)
  end.

(** The [catch] of add and update: a cancellation is thrown on as it is;
    anything else sets the error state and shows the failure dialog first. *)
Definition isCancellation (text : string) (e : Thrown) : bool :=
  match e with
  | JsError m => String.eqb m text
  | NonError => false
  end.

Definition settle (cancelText fallback failure : string)
    (r : State * option Thrown) : Outcome * State :=
  match snd r with
  | None => (Resolved, fst r)
  | Some e =>
      if isCancellation cancelText e then (Rejected e, fst r)
      else (Rejected e,
            showAlert (ErrorAlert failure)
              (setError (Some (messageOr fallback e)) (fst r)))
  end.

(** The prompt of lines 267-286: shown when there is a warning; [answer]
    is the user's choice ([true] for "Add Anyway" / "Update Anyway"). *)
Definition confirmThen (w : option Warning) (answer : bool) (cancelText : string)
    (k : State -> State * option Thrown) (st : State) : State * option Thrown :=
  match w with
  | Some w =>
      let st' := showAlert (BudgetWarning w) st in
      if answer then k st' else (st', Some (JsError cancelText))
  | None => k st
  end.

Definition addExpense (st : State) (expense : Input.t) (now : Z) (answer : bool)
    (io : StorageOp -> option Thrown) : Outcome * State :=
  let timestamp := now in
  let newExpense :=
    Expense.mk (pretty timestamp) (Input.description expense) (Input.amount expense)
               (Input.date expense) (Input.category expense) (Some timestamp) in
  let budgetStatus := getBudgetStatus (budget st) (expenses st) now in
  settle "Expense cancelled" "Error adding expense" "Failed to add expense. Please try again."
    (confirmThen (addWarning (budget st) budgetStatus expense) answer "Expense cancelled"
       (commit io (expenses st ++ [newExpense]))
       (setError None st)).

(** *** updateExpense (lines 303-371) *)

(** Lines 317-336: the warning, if any, for a record about to supersede
    [oldExpense]. *)
Definition updateWarning (budget : option Budget.t) (budgetStatus : BudgetStatus.t)
    (oldExpense : Expense.t) (expense : Input.t) : option Warning :=
  let amountDiff := fl (Input.amount expense - Expense.amount oldExpense) in
  let newTotal := fl (BudgetStatus.total budgetStatus + amountDiff) in
  let categoryTotal :=
    orZero (BudgetStatus.categoryTotals budgetStatus !! Input.category expense) in
  let categoryTotal :=
    if String.eqb (Input.category expense) (Expense.category oldExpense)
    then fl (categoryTotal + amountDiff)
    else fl (categoryTotal + Input.amount expense) in
  match budget with
  | Some b =>
      if Qgtb amountDiff 0 then
        if Qgtb newTotal (Budget.amount b)
        then Some (OverPeriod (Budget.period b) (fl (newTotal - Budget.amount b)))
        else categoryWarning b (Input.category expense) categoryTotal
      else None
  | None => None
  end.

Definition hasId (id : string) (e : Expense.t) : bool := String.eqb (Expense.id e) id.

Definition updateExpense (st : State) (id : string) (expense : Input.t) (now : Z)
    (answer : bool) (io : StorageOp -> option Thrown) : Outcome * State :=
  let timestamp := now in
  let updatedExpense :=
    Expense.mk id (Input.description expense) (Input.amount expense)
               (Input.date expense) (Input.category expense) (Some timestamp) in
  settle "Update cancelled" "Error updating expense" "Failed to update expense. Please try again."
    (match find (hasId id) (expenses st) with
     | None => (setError None st, Some (JsError "Expense not found"))
     | Some oldExpense =>
         let budgetStatus := getBudgetStatus (budget st) (expenses st) now in
         confirmThen (updateWarning (budget st) budgetStatus oldExpense expense) answer
           "Update cancelled"
           (commit io (map (fun e => if hasId id e then updatedExpense else e) (expenses st)))
           (setError None st)
     end).

(** *** deleteExpense (lines 372-401) *)

(** Lines 377-384, up to the first [await]: the record is looked up and the
    list without it becomes the state at once. *)
Definition deleteExpense_optimistic (st : State) (id : string) : Thrown + State :=
  match find (hasId id) (expenses st) with
  | None => inl (JsError "Expense not found")
  | Some _ =>
      inr (setExpenses (List.filter (fun e => negb (hasId id e)) (expenses st))
             (setError None st))
  end.

Definition deleteFailed (e : Thrown) (st : State) : Outcome * State :=
  (Rejected e,
   showAlert (ErrorAlert "Failed to delete expense. Please try again.")
     (setError (Some (messageOr "Error deleting expense" e)) st)).

Definition deleteExpense (st : State) (id : string)
    (io : StorageOp -> option Thrown) : Outcome * State :=
  match deleteExpense_optimistic st id with
  | inl e => deleteFailed e (setError None st)
  | inr st1 =>
      match writeExpenses io (expenses st1) st1 with
      | inr st2 => (Resolved, st2)
      | inl _ =>
          (* the storage write failed: the state goes back to the list
             the callback started from *)
          deleteFailed (JsError "Failed to save changes") (setExpenses (expenses st) st1)
      end
  end.

(** *** loadStoredData (lines 69-126) *)

Definition truthyO (s : option string) : bool :=
  match s with Some s => truthyS s | None => false end.

(** Truthiness of a [description]. *)
Definition truthyText (d : StoredText) : bool :=
  match d with
  | NoText => false
  | Text s => truthyS s
  | NotText => true
  end.

(** The predicate of the [filter], lines 84-87. *)
Definition keepStored (x : StoredExpense) : bool :=
  truthyO (s_id x) && truthyText (s_description x)
  && bool_decide (is_Some (s_amount x)) && truthyO (s_date x).

(** The function of the [map], lines 89-96.  [None]: the description is
    not a string, and calling its [trim] throws a [TypeError]. *)
Definition normalise (x : StoredExpense) : option Expense.t :=
  let date := default "" (s_date x) in
  match s_description x with
  | Text description =>
      Some (Expense.mk
              (default "" (s_id x))
              (trim description)
              (round2 (default 0 (s_amount x)))
              date
              (if truthyO (s_category x) then default "" (s_category x) else "other")
              (match s_timestamp x with
               | Some t => if truthyZ t then Some t else Date_parse date
               | None => Date_parse date
               end))
  | NoText | NotText => None
  end.

(** Lines 82-96.  [None]: an element is [null], and reading its [id]
    throws a [TypeError]; or the description of an element that passed the
    filter is not a string. *)
Definition validateStored (elems : list (option StoredExpense)) : option (list Expense.t) :=
  match mapM (fun x : option StoredExpense => x) elems with
  | Some objects => mapM normalise (List.filter keepStored objects)
  | None => None
  end.

(** The [catch] of lines 100-104 (and 114-117 for the budget). *)
Definition dropKey (io : StorageOp -> option Thrown) (key : string) (st : State)
    : State * option Thrown :=
  match io (removeItem key) with
  | Some e => (st, Some e)
  | None => (setStorage (delete key (storage st)) st, None)
  end.

(** Lines 78-105. *)
Definition loadExpenses (io : StorageOp -> option Thrown) (storedExpenses : option string)
    (st : State) : State * option Thrown :=
  match storedExpenses with
  | Some text =>
      if truthyS text then
        match JSON_parse_expenses text with
        | Some (ArrayOf elems) =>
            match validateStored elems with
            | Some validated => (setExpenses validated st, None)
            | None =>
                match dropKey io STORAGE_KEY st with
                | (st', None) => (setExpenses [] st', None)
                | failed => failed
                end
            end
        | Some NotAnArray => (st, None)
        | None =>
            match dropKey io STORAGE_KEY st with
            | (st', None) => (setExpenses [] st', None)
            | failed => failed
            end
        end
      else (st, None)
  | None => (st, None)
  end.

Definition periodOfString (s : string) : option Period :=
  if String.eqb s "daily" then Some daily
  else if String.eqb s "weekly" then Some weekly
  else if String.eqb s "monthly" then Some monthly
  else None.

(** Lines 107-118. *)
Definition loadBudget (io : StorageOp -> option Thrown) (storedBudget : option string)
    (st : State) : State * option Thrown :=
  match storedBudget with
  | Some text =>
      if truthyS text then
        match JSON_parse_budget text with
        | Some (Some parsedBudget) =>
            match sb_amount parsedBudget, sb_period parsedBudget ≫= periodOfString with
            | Some a, Some p =>
                (setBudgetState (Budget.mk a p (sb_categoryLimits parsedBudget)) st, None)
            | _, _ => (st, None)
            end
        | Some None | None => dropKey io BUDGET_STORAGE_KEY st
        end
      else (st, None)
  | None => (st, None)
  end.

(** [Promise.all] of the two reads rejects with the first rejection. *)
Definition readBoth (io : StorageOp -> option Thrown) : option Thrown :=
  match io (getItem STORAGE_KEY) with
  | Some e => Some e
  | None => io (getItem BUDGET_STORAGE_KEY)
  end.

Definition loadStoredData (st : State) (io : StorageOp -> option Thrown) : State :=
  if shouldSaveRef st then st
  else
    let st0 := setError None st in
    let r :=
      match readBoth io with
      | Some e => (st0, Some e)
      | None =>
          match loadExpenses io (storage st !! STORAGE_KEY) st0 with
          | (st1, None) => loadBudget io (storage st !! BUDGET_STORAGE_KEY) st1
          | failed => failed
          end
      end in
    match snd r with
    | Some e => setLoading false (setError (Some (messageOr "Error loading data" e)) (fst r))
    | None => setLoading false (fst r)
    end.

(** ** Analytics ([app/(tabs)/two.tsx]) *)

(** *** filterExpenses (lines 264-299) *)

Definition selects (dateFilter : DateFilter) (startDate endDate : option Z) (today : Z)
    (expense : Expense.t) : bool :=
  let expenseDate := JSDate.setHours0 tz <$> expenseDate expense in
  match dateFilter with
  | f_today =>
      match expenseDate with
      | Some d => bool_decide (JSDate.toDateString tz d = JSDate.toDateString tz today)
      | None => false
      end
  | f_week =>
      let weekAgo := JSDate.setDate tz today (JSDate.getDate tz today - 7) in
      dateGeb expenseDate weekAgo && dateLeb expenseDate today
  | f_month =>
      let monthAgo := JSDate.setMonth tz today (JSDate.getMonth tz today - 1) in
      dateGeb expenseDate monthAgo && dateLeb expenseDate today
  | f_custom =>
      match startDate, endDate with
      | Some s, Some e => dateGeb expenseDate s && dateLeb expenseDate e
      | _, _ => true
      end
  | f_all => true
  end.

Definition filterExpenses (dateFilter : DateFilter) (startDate endDate : option Z)
    (now : Z) (allExpenses : list Expense.t) : list Expense.t :=
  match allExpenses with
  | [] => allExpenses
  | _ => List.filter (selects dateFilter startDate endDate (JSDate.setHours0 tz now)) allExpenses
  end.

(** *** getChartData (lines 18-104) *)

(** [Array.from({ length }, (_, i) => { date = new Date(from);
    date.setDate(from.getDate() + i); return date })] *)
Definition daysFrom (from : Z) (length : nat) : list Z :=
  map (fun i => JSDate.setDate tz from (JSDate.getDate tz from + Z.of_nat i)) (seq 0 length).

Definition chartDays (dateFilter : DateFilter) (startDate endDate : option Z) (today : Z)
    : list Z :=
  match dateFilter with
  | f_today => [today]
  | f_week => daysFrom (JSDate.setDate tz today (JSDate.getDate tz today - 6)) 7
  | f_month => daysFrom (JSDate.setDate tz today (JSDate.getDate tz today - 29)) 30
  | f_custom =>
      match startDate, endDate with
      | Some s, Some e =>
          let dayCount :=
            (Qceiling (inject_Z (e - s) / inject_Z JSDate.msPerDay) + 1)%Z in
          daysFrom s (Z.to_nat dayCount)
      | _, _ => [today]
      end
  | f_all => daysFrom (JSDate.setDate tz today (JSDate.getDate tz today - 29)) 30
  end.

(** Lines 78-93: the rounded sum of what was spent on [day]. *)
Definition dayTotal (expenses : list Expense.t) (day : Z) : Q :=
  let dayStart := JSDate.setHours0 tz day in
  let dayEnd := JSDate.setHoursEnd tz day in
  round2
    (fold_left
       (fun sum expense =>
          if dateGeb (expenseDate expense) dayStart && dateLeb (expenseDate expense) dayEnd
          then sum + Expense.amount expense
          else sum)
       expenses 0).

(** The [data] of the result; the [labels] are the same days, printed. *)
Definition getChartData (expenses : list Expense.t) (dateFilter : DateFilter)
    (startDate endDate : option Z) (now : Z) : list Q :=
  map (dayTotal expenses) (chartDays dateFilter startDate endDate (JSDate.setHours0 tz now)).

(** *** getCategoryData (lines 106-125) *)

(** [expense.category || 'other'] *)
Definition categoryOrOther (e : Expense.t) : string :=
  if truthyS (Expense.category e) then Expense.category e else "other".

(** One step of the [reduce].  As in [tally], the entry read for a
    category not yet met is [undefined]: category names are not those of
    members of [Object.prototype].  The sums of this screen, here and in
    [sumValues], [getTotalSpent] and [dayTotal], are the sums of the
    amounts themselves: what the doubles give as well when the amounts are
    whole numbers of ordinary size. *)
Definition tallyCategory (acc : gmap string Q) (expense : Expense.t) : gmap string Q :=
  let category := categoryOrOther expense in
  <[category := orZero (acc !! category) + Expense.amount expense]> acc.

(** [Object.values(totals).reduce((a, b) => a + b, 0)] *)
Definition sumValues (totals : gmap string Q) : Q :=
  map_fold (fun _ b a => a + b) 0 totals.

Definition getCategoryData (expenses : list Expense.t) : list CategoryDatum.t :=
  let categoryTotals := fold_left tallyCategory expenses ∅ in
  map (fun cat =>
         CategoryDatum.mk (cat_name cat)
                 (round2 (orZero (categoryTotals !! cat_id cat)))
                 (cat_color cat)
                 (match categoryTotals !! cat_id cat with
                  | Some v =>
                      if truthyQ v then percentOf v (sumValues categoryTotals) else Fin 0
                  | None => Fin 0
                  end))
      categories.

(** *** getTotalSpent (lines 127-129) *)

Definition getTotalSpent (expenses : list Expense.t) : Q :=
  round2 (fold_left (fun sum e => sum + Expense.amount e) expenses 0).

(** *** getMoneySavingTip (lines 131-207) *)

(** Lines 138-156; [None] is NaN, from an invalid date. *)
Definition totalDays (expenses : list Expense.t) (dateFilter : DateFilter) : option Z :=
  match dateFilter with
  | f_today => Some 1%Z
  | f_week => Some 7%Z
  | f_month => Some 30%Z
  | f_custom =>
      if (2 <=? length expenses)%nat then
        match last expenses ≫= expenseDate, head expenses ≫= expenseDate with
        | Some latest, Some earliest =>
            Some (Z.max 1 (Qceiling (fl (fl (inject_Z (latest - earliest))
                                         / inject_Z JSDate.msPerDay))))
        | _, _ => None
        end
      else Some 1%Z
  | f_all => Some 30%Z
  end.

(** [l.sort((a, b) => b.amount - a.amount)]: descending by amount, equal
    amounts keeping their order (the sort is stable).  [insertDesc x l] puts
    [x], which came before all of [l], in front of the first entry that is
    not greater. *)
Fixpoint insertDesc (x : CategoryDatum.t) (l : list CategoryDatum.t) : list CategoryDatum.t :=
  match l with
  | [] => [x]
  | y :: r =>
      if Qgtb (CategoryDatum.amount y) (CategoryDatum.amount x)
      then y :: insertDesc x r
      else x :: l
  end.
Definition sortDesc (l : list CategoryDatum.t) : list CategoryDatum.t :=
  fold_right insertDesc [] l.

(** [l.slice(-3)] *)
Definition lastThree {A} (l : list A) : list A := skipn (length l - 3) l.

(** [x > y] where [y] may be NaN. *)
Definition gtNaN (x : Q) (y : option Q) : bool :=
  match y with Some y => Qgtb x y | None => false end.

(** The constants the function computes on its way (lines 158-195); a
    quotient or a product is the double nearest to it. *)
Definition dailyAverage (expenses : list Expense.t) (dateFilter : DateFilter) : option Q :=
  (fun days => fl (getTotalSpent expenses / inject_Z days)) <$> totalDays expenses dateFilter.

Definition highestSpendingCategory (categoryData : list CategoryDatum.t)
    : option CategoryDatum.t :=
  head (sortDesc (List.filter (fun cat => Qgtb (CategoryDatum.amount cat) 0) categoryData)).

Definition recentTrend (expenses : list Expense.t) : Q :=
  let recentExpenses := lastThree expenses in
  if (0 <? length recentExpenses)%nat
  then fl (fold_left (fun sum exp => sum + Expense.amount exp) recentExpenses 0
           / inject_Z (Z.of_nat (length recentExpenses)))
  else 0.

Definition categoryCount (categoryData : list CategoryDatum.t) : nat :=
  length (List.filter (fun cat => Qgtb (CategoryDatum.amount cat) 0) categoryData).

Definition getMoneySavingTip (expenses : list Expense.t)
    (categoryData : list CategoryDatum.t) (dateFilter : DateFilter) : Tip :=
  match expenses with
  | [] => StartTracking
  | _ =>
      match
        match highestSpendingCategory categoryData with
        | Some top =>
            if xnum_gtb (CategoryDatum.percentage top) 50
            then Some (Concentrated (CategoryDatum.name top) (CategoryDatum.percentage top))
            else None
        | None => None
        end
      with
      | Some warning => warning
      | None =>
          if match dailyAverage expenses dateFilter with
             | Some avg => Qgtb avg 1000
             | None => false
             end
          then HighDailyAverage (Math_round (default 0 (dailyAverage expenses dateFilter)))
          else if gtNaN (recentTrend expenses)
                    ((fun avg => fl (avg * (3 # 2))) <$> dailyAverage expenses dateFilter)
          then RecentlyHigher
          else if (categoryCount categoryData <=? 2)%nat && (5 <? length expenses)%nat
          then FewCategories
          else WellBalanced
      end
  end.

(** The screen's wiring, lines 302-324: the pie data are the categories
    with a positive amount, and the tip is computed from them. *)
Definition pieData (filteredExpenses : list Expense.t) : list CategoryDatum.t :=
  List.filter (fun item => Qgtb (CategoryDatum.amount item) 0) (getCategoryData filteredExpenses).

Definition savingTip (filteredExpenses : list Expense.t) (dateFilter : DateFilter) : Tip :=
  getMoneySavingTip filteredExpenses (pieData filteredExpenses) dateFilter.

(** ** handleSubmit ([app/(tabs)/index.tsx], lines 444-485) *)

Definition handleSubmit (st : State) (form : Form) (now : Z) (answer : bool)
    (io : StorageOp -> option Thrown) : Submitted * State :=
  if negb (truthyS (trim (f_description form))) then (DescriptionRequired, st)
  else
    match parseFloat (f_amount form) with
    | None => (InvalidAmount, st)
    | Some amountNum =>
        if Qle_bool amountNum 0 then (InvalidAmount, st)
        else
          let expenseData :=
            Input.mk (trim (f_description form)) (round2 amountNum)
                     (toLocaleDateString now) (f_selectedCategory form) in
          let r :=
            match f_editingExpense form with
            | Some editing => updateExpense st (Expense.id editing) expenseData now answer io
            | None => addExpense st expenseData now answer io
            end in
          match fst r with
          | Resolved => (Saved, snd r)
          | Rejected _ =>
              (SaveFailed,
               showAlert (ErrorAlert "Failed to save expense. Please try again.") (snd r))
          end
    end.


(** ** The rest of the provider ([ExpensesContext.tsx]) *)

Open Scope Q_scope.

(** [JSON.stringify] on a budget. *)
Variable JSON_stringify_budget : Budget.t -> string.
(** [x.toString()] on a number. *)
Variable Number_toString : Q -> string.
(** [Object.entries] on a dictionary of limits: its entries, in the
    order the platform enumerates them. *)
Variable Object_entries : gmap string Q -> list (string * Q).
(** [s.toLowerCase()] *)
Variable toLowerCase : string -> string.

(** *** setBudget (lines 173-184) *)

Definition setBudget (st : State) (newBudget : Budget.t)
    (io : StorageOp -> option Thrown) : Outcome * State :=
  let st0 := setError None st in
  match io (setItem BUDGET_STORAGE_KEY) with
  | None =>
      (Resolved,
       setBudgetState newBudget
         (setStorage
            (<[BUDGET_STORAGE_KEY := JSON_stringify_budget newBudget]> (storage st0)) st0))
  | Some e =>
      (Rejected e,
       showAlert (ErrorAlert "Failed to save budget settings.")
         (setError (Some (messageOr "Error saving budget" e)) st0))
  end.

(** *** clearAllExpenses (lines 403-414) *)

Definition clearAllExpenses (st : State) (io : StorageOp -> option Thrown)
    : Outcome * State :=
  match dropKey io STORAGE_KEY (setError None st) with
  | (st', None) => (Resolved, setExpenses [] st')
  | (st', Some e) =>
      (Rejected e,
       showAlert (ErrorAlert "Failed to clear expenses. Please try again.")
         (setError (Some (messageOr "Error clearing expenses" e)) st'))
  end.

(** *** saveToStorage and the effect that calls it (lines 134-171)

    The [isSaving] state, which nothing reads, is left out. *)

Definition setShouldSave (b : bool) (st : State) : State :=
  mkState (expenses st) (budget st) (loading st) (error st) b (storage st) (alerts st).

(** [clearTimeout(pendingSaveRef.current)] *)
Definition clearPending (sv : Saver) : Saver := mkSaver (provider sv) None.

(** Lines 135-141 and 155-157: the timer running, if any, is cleared, the
    flag is raised, and a timer is started that will [save] this [data]. *)
Definition saveToStorage (data : list Expense.t) (sv : Saver) : Saver :=
  mkSaver (setShouldSave true (provider (clearPending sv))) (Some data).

(** The inner [save] (lines 142-153): the write lowers the flag; a failed
    write starts a timer that will [save] the same [data] again. *)
Definition save (io : StorageOp -> option Thrown) (data : list Expense.t)
    (sv : Saver) : Saver :=
  match writeExpenses io data (provider sv) with
  | inr st' => mkSaver (setShouldSave false st') (pendingSaveRef sv)
  | inl _ => mkSaver (provider sv) (Some data)
  end.

(** The running timer fires. *)
Definition timerFires (io : StorageOp -> option Thrown) (sv : Saver) : Saver :=
  match pendingSaveRef sv with
  | Some data => save io data (clearPending sv)
  | None => sv
  end.

(** Lines 162-171, run after the list or [loading] has changed: the
    cleanup of the previous run, then the body. *)
Definition saveEffect (sv : Saver) : Saver :=
  let sv := clearPending sv in
  if negb (loading (provider sv)) && (0 <? length (expenses (provider sv)))%nat
  then saveToStorage (expenses (provider sv)) sv
  else sv.

(** ** The budget settings form ([components/BudgetManager.tsx]) *)

(** Lines 50-57: the rows whose limit parses to a number above zero, as
    a dictionary; a later row of a category overwrites an earlier one. *)
Definition collectLimits (rows : list CategoryLimit) : gmap string Q :=
  fold_left
    (fun limits row =>
       match parseFloat (cl_limit row) with
       | Some limitAmount =>
           if Qgtb limitAmount 0 then <[cl_category row := limitAmount]> limits
           else limits
       | None => limits
       end)
    rows ∅.

(** Lines 38-61: the budget the form stands for; [None] when the amount
    is turned away. *)
Definition newBudgetOf (form : BudgetForm.t) : option Budget.t :=
  match parseFloat (BudgetForm.amount form) with
  | None => None
  | Some budgetAmount =>
      if Qle_bool budgetAmount 0 then None
      else
        Some (Budget.mk budgetAmount (BudgetForm.period form)
                (if BudgetForm.showCategoryLimits form then
                   let limits := collectLimits (BudgetForm.categoryLimits form) in
                   if (0 <? size limits)%nat then Some limits else None
                 else None))
  end.

(** handleSave (lines 36-67) *)
Definition handleSave (st : State) (form : BudgetForm.t)
    (io : StorageOp -> option Thrown) : BudgetSaved * State :=
  match newBudgetOf form with
  | None => (InvalidBudgetAmount, st)
  | Some newBudget =>
      match setBudget st newBudget io with
      | (Resolved, st') => (BudgetSettingsSaved, st')
      | (Rejected _, st') =>
          (BudgetSaveFailed, showAlert (ErrorAlert "Failed to save budget settings") st')
      end
  end.

(** Lines 22-32: the state the form opens with, on the budget there
    is. *)
Definition initialBudgetForm (budget : option Budget.t) : BudgetForm.t :=
  BudgetForm.mk
    (match budget with
     | Some b => Number_toString (Budget.amount b)
     | None => ""
     end)
    (match budget with
     | Some b => Budget.period b
     | None => monthly
     end)
    (bool_decide (is_Some (budget ≫= Budget.categoryLimits)))
    (match budget ≫= Budget.categoryLimits with
     | Some limits =>
         map (fun entry => mkLimit (fst entry) (Number_toString (snd entry)))
             (Object_entries limits)
     | None => []
     end).

(** [l.filter((item, i) => f i)], the index running from [i]. *)
Fixpoint filterIndex {A} (f : nat -> bool) (i : nat) (l : list A) : list A :=
  match l with
  | [] => []
  | x :: r => if f i then x :: filterIndex f (S i) r else filterIndex f (S i) r
  end.

(** Lines 69-84: a row is appended, removed, edited. *)
Definition addCategoryLimit (prev : list CategoryLimit) : list CategoryLimit :=
  prev ++ [mkLimit "food" ""].

Definition removeCategoryLimit (index : nat) (prev : list CategoryLimit)
    : list CategoryLimit :=
  filterIndex (fun i => negb (i =? index)%nat) 0 prev.

Definition updateCategoryLimit (index : nat) (field : LimitField) (value : string)
    (prev : list CategoryLimit) : list CategoryLimit :=
  imap (fun i item =>
          if (i =? index)%nat then
            match field with
            | field_category => mkLimit value (cl_limit item)
            | field_limit => mkLimit (cl_category item) value
            end
          else item)
       prev.

(** [Math.min(a, b)] *)
Definition Math_min (a b : Q) : Q := if Qle_bool a b then a else b.

(** Line 95: the width of the progress bar, in percent:
    [Math.min(100, (budgetStatus.total / (budget?.amount || 1)) * 100)]. *)
Definition progressWidth (budget : option Budget.t) (budgetStatus : BudgetStatus.t) : Q :=
  let amountOr1 :=
    match budget with
    | Some b => if truthyQ (Budget.amount b) then Budget.amount b else 1
    | None => 1
    end in
  Math_min 100 ((BudgetStatus.total budgetStatus / amountOr1) * 100).

(** ** The amount field ([app/(tabs)/index.tsx], lines 435-442) *)

Definition isDigit (c : ascii) : bool :=
  let n := nat_of_ascii c in ((48 <=? n) && (n <=? 57))%nat.
Definition isDot (c : ascii) : bool := (nat_of_ascii c =? 46)%nat.

(** [text.replace(/[^0-9.]/g, '')] *)
Fixpoint keepDigitsAndDots (text : string) : string :=
  match text with
  | String c r =>
      if isDigit c || isDot c then String c (keepDigitsAndDots r)
      else keepDigitsAndDots r
  | EmptyString => EmptyString
  end.

(** What comes before the first dot. *)
Fixpoint beforeDot (s : string) : string :=
  match s with
  | String c r => if isDot c then EmptyString else String c (beforeDot r)
  | EmptyString => EmptyString
  end.

(** [s.replace(/(\..*?)\..*/g, '$1')] on a text without line terminators:
    the one match runs from the first dot to the end, when a second dot
    follows, and what stays of it is what comes before the second dot. *)
Fixpoint cutAtSecondDot (s : string) : string :=
  match s with
  | String c r => if isDot c then String c (beforeDot r) else String c (cutAtSecondDot r)
  | EmptyString => EmptyString
  end.

Fixpoint skipDigits (s : string) : string :=
  match s with
  | String c r => if isDigit c then skipDigits r else s
  | EmptyString => EmptyString
  end.

(** [/^\d*\.?\d*$/.test(s)] *)
Definition digitsDotDigits (s : string) : bool :=
  let rest := skipDigits s in
  let rest :=
    match rest with
    | String c r => if isDot c then r else rest
    | EmptyString => rest
    end in
  String.eqb (skipDigits rest) "".

Definition sanitize (text : string) : string := cutAtSecondDot (keepDigitsAndDots text).

(** The error text under the field, which the handler also clears, is
    not part of [Form]. *)
Definition handleAmountChange (text : string) (form : Form) : Form :=
  let sanitizedText := sanitize text in
  if String.eqb sanitizedText "" || digitsDotDigits sanitizedText
  then mkForm (f_description form) sanitizedText (f_selectedCategory form)
              (f_editingExpense form)
  else form.

(** ** The categories of the expense screen ([app/(tabs)/index.tsx]) *)

Definition initialExpensesScreen : ExpensesScreen.t :=
  ExpensesScreen.mk "" "" defaultCategories (mkFormCategory "food" "Food" "cutlery")
                    false "" "tag" None.

(** [s.replace(/\s+/g, '-')], over the white space [trim] knows:
    [inRun] tells that the character before was white space too. *)
Fixpoint dashRuns (inRun : bool) (s : string) : string :=
  match s with
  | String c r =>
      if isSpace c then
        if inRun then dashRuns true r else String "-" (dashRuns true r)
      else String c (dashRuns false r)
  | EmptyString => EmptyString
  end.

(** handleSaveCategory (lines 508-524); with the result, the message of
    the dialog shown when the name is blank. *)
Definition handleSaveCategory (s : ExpensesScreen.t) : ExpensesScreen.t * option string :=
  if negb (truthyS (trim (ExpensesScreen.newCategoryName s)))
  then (s, Some "Please enter a category name")
  else
    let newCategory :=
      mkFormCategory (dashRuns false (toLowerCase (ExpensesScreen.newCategoryName s)))
                     (trim (ExpensesScreen.newCategoryName s))
                     (ExpensesScreen.selectedIcon s) in
    (ExpensesScreen.mk (ExpensesScreen.description s) (ExpensesScreen.amount s)
                       (ExpensesScreen.categories s ++ [newCategory])
                       (ExpensesScreen.selectedCategory s) false "" "tag"
                       (ExpensesScreen.editingExpense s),
     None).

(** handleEdit (lines 487-493).  [None]: there is no category to select
    ([categories[0]] is [undefined]). *)
Definition handleEdit (expense : Expense.t) (s : ExpensesScreen.t)
    : option ExpensesScreen.t :=
  let found :=
    match find (fun cat => String.eqb (fc_id cat) (Expense.category expense))
               (ExpensesScreen.categories s) with
    | Some cat => Some cat
    | None => head (ExpensesScreen.categories s)
    end in
  (fun cat =>
     ExpensesScreen.mk (Expense.description expense) (Number_toString (Expense.amount expense))
                       (ExpensesScreen.categories s) cat
                       (ExpensesScreen.showNewCategoryModal s)
                       (ExpensesScreen.newCategoryName s) (ExpensesScreen.selectedIcon s)
                       (Some expense))
  <$> found.

(** What [handleSubmit] reads of the screen. *)
Definition formOf (s : ExpensesScreen.t) : Form :=
  mkForm (ExpensesScreen.description s) (ExpensesScreen.amount s)
         (fc_id (ExpensesScreen.selectedCategory s)) (ExpensesScreen.editingExpense s).

Definition formStep (s : ExpensesScreen.t) (ev : FormEvent) : option ExpensesScreen.t :=
  let with_ description amount selected shown name icon :=
    ExpensesScreen.mk description amount (ExpensesScreen.categories s) selected shown
                      name icon (ExpensesScreen.editingExpense s) in
  let description := ExpensesScreen.description s in
  let amount := ExpensesScreen.amount s in
  let selected := ExpensesScreen.selectedCategory s in
  let shown := ExpensesScreen.showNewCategoryModal s in
  let name := ExpensesScreen.newCategoryName s in
  let icon := ExpensesScreen.selectedIcon s in
  match ev with
  | DescriptionTyped text => Some (with_ text amount selected shown name icon)
  | AmountTyped text =>
      Some (with_ description (f_amount (handleAmountChange text (formOf s)))
                  selected shown name icon)
  | CategoryPressed index =>
      match ExpensesScreen.categories s !! index with
      | Some cat => Some (with_ description amount cat shown name icon)
      | None => Some s
      end
  | AddCategoryPressed => Some (with_ description amount selected true name icon)
  | NameTyped text => Some (with_ description amount selected shown text icon)
  | IconPressed icon' => Some (with_ description amount selected shown name icon')
  | ModalClosed => Some (with_ description amount selected false name icon)
  | SaveCategoryPressed => Some (fst (handleSaveCategory s))
  | EditPressed expense => handleEdit expense s
  end.

(** The screen after a sequence of events, from its initial state. *)
Definition formAfter (events : list FormEvent) : option ExpensesScreen.t :=
  fold_left (fun s ev => s ≫= fun s => formStep s ev) events (Some initialExpensesScreen).

(** ** The date range of the analytics screen ([app/(tabs)/two.tsx]) *)

Open Scope Z_scope.

Definition initialScreen : Screen.t := Screen.mk f_all None None false pickStart.

(** The [onPress] of the five filter buttons and of the range label
    (lines 351-419). *)
Definition onPress (p : Press) (sc : Screen.t) : Screen.t :=
  let reset f :=
    Screen.mk f None None (Screen.showDatePicker sc) (Screen.datePickerMode sc) in
  match p with
  | pressAll => reset f_all
  | pressToday => reset f_today
  | pressWeek => reset f_week
  | pressMonth => reset f_month
  | pressCustom =>
      Screen.mk f_custom (Screen.startDate sc) (Screen.endDate sc) true pickStart
  | pressRange =>
      Screen.mk (Screen.dateFilter sc) (Screen.startDate sc) (Screen.endDate sc)
                true pickStart
  end.

(** What [handleDateSelect] does beside setting state: the message of an
    [alert], or a timer started to reopen the picker. *)
Inductive PickerEffect := Alerted (message : string) | TimerStarted.

(** [a && date > a] and [a && date < a] for a bound [a] that may be
    [null]. *)
Definition afterBound (date : Z) (bound : option Z) : bool :=
  match bound with Some b => b <? date | None => false end.
Definition beforeBound (date : Z) (bound : option Z) : bool :=
  match bound with Some b => date <? b | None => false end.

(** handleDateSelect (lines 217-262); [date] is [None] when the picker
    was dismissed. *)
Definition handleDateSelect (os : OS) (date : option Z) (now : Z) (sc : Screen.t)
    : Screen.t * option PickerEffect :=
  let sc :=
    match os with
    | android =>
        Screen.mk (Screen.dateFilter sc) (Screen.startDate sc) (Screen.endDate sc)
                  false (Screen.datePickerMode sc)
    | _ => sc
    end in
  match date with
  | Some date =>
      let date := JSDate.setHours0 tz date in
      match Screen.datePickerMode sc with
      | pickStart =>
          if afterBound date (Screen.endDate sc)
          then (sc, Some (Alerted "Start date cannot be after end date"))
          else if now <? date
          then (sc, Some (Alerted "Start date cannot be in the future"))
          else
            let sc :=
              Screen.mk (Screen.dateFilter sc) (Some date) (Screen.endDate sc)
                        (Screen.showDatePicker sc) (Screen.datePickerMode sc) in
            match os with
            | ios =>
                (Screen.mk (Screen.dateFilter sc) (Screen.startDate sc)
                           (Screen.endDate sc) (Screen.showDatePicker sc) pickEnd,
                 None)
            | _ => (sc, Some TimerStarted)
            end
      | pickEnd =>
          if beforeBound date (Screen.startDate sc)
          then (sc, Some (Alerted "End date cannot be before start date"))
          else if now <? date
          then (sc, Some (Alerted "End date cannot be in the future"))
          else (Screen.mk f_custom (Screen.startDate sc) (Some date) false
                          (Screen.datePickerMode sc),
                None)
      end
  | None =>
      (Screen.mk (Screen.dateFilter sc) (Screen.startDate sc) (Screen.endDate sc)
                 false (Screen.datePickerMode sc),
       None)
  end.

(** The timer started on line 237 fires. *)
Definition reopenPicker (sc : Screen.t) : Screen.t :=
  Screen.mk (Screen.dateFilter sc) (Screen.startDate sc) (Screen.endDate sc) true pickEnd.

Definition screenStep (sc : Screen.t) (ev : ScreenEvent) : Screen.t :=
  match ev with
  | Pressed p => onPress p sc
  | DateSelected os date now => fst (handleDateSelect os date now sc)
  | ReopenTimer => reopenPicker sc
  end.

(** The screen after a sequence of events, from its initial state. *)
Definition screenAfter (events : list ScreenEvent) : Screen.t :=
  fold_left screenStep events initialScreen.
(** ** Notions the statements below are phrased in *)

(** Forgets the platform services a goal does not speak of, so that a
    proof depends on those of its statement only. *)
Ltac tidy :=
  try clear toLowerCase; try clear Object_entries; try clear Number_toString;
  try clear JSON_stringify_budget;
  try clear toLocaleDateString; try clear parseFloat; try clear JSON_stringify;
  try clear JSON_parse_budget; try clear JSON_parse_expenses;
  try clear Date_parse; try clear tz.

Open Scope Z_scope.

(** The civil date that era [era], year-of-era [yoe], month index [mp]
    (0 is March) and day [d] stand for. *)
Definition civilOfParts (era yoe mp d : Z) : Z * Z * Z :=
  (if (if mp <? 10 then mp + 3 else mp - 9) <=? 2
   then yoe + era * 400 + 1 else yoe + era * 400,
   if mp <? 10 then mp + 3 else mp - 9, d).


(** An instant that is a local midnight. *)
Definition startOfDay (t : Z) : Prop :=
  JSDate.TimeWithinDay (JSDate.LocalTime tz t) = 0.

(** The local calendar day an instant falls on, as a day number. *)
Definition localDay (t : Z) : Z := JSDate.Day (JSDate.LocalTime tz t).

(** What the start [s] of the budget period containing [now] must be:
    the start of today; the start of the latest Sunday up to today; the
    start of day 1 of this month of this year. *)
Definition isPeriodStart (p : Period) (now s : Z) : Prop :=
  match p with
  | daily => startOfDay s /\ localDay s = localDay now
  | weekly =>
      startOfDay s /\ JSDate.getDay tz s = 0
      /\ 0 <= localDay now - localDay s < 7
  | monthly =>
      startOfDay s /\ JSDate.getDate tz s = 1
      /\ JSDate.getMonth tz s = JSDate.getMonth tz now
      /\ JSDate.getFullYear tz s = JSDate.getFullYear tz now
  end.

(** A reading of the clock: an instant after the epoch and within the
    range of [Date]. *)
Definition clockReading (now : Z) : Prop := 0 < now <= JSDate.maxTime.

(** The time value a record is dated by: its timestamp; for a record
    whose timestamp is absent or zero, what its date text parses as. *)
Definition datedAt (e : Expense.t) (t : Z) : Prop :=
  (Expense.timestamp e = Some t /\ t <> 0)
  \/ ((Expense.timestamp e = None \/ Expense.timestamp e = Some 0)
      /\ Date_parse (Expense.date e) = Some t).

(** The record is dated at an instant, one within the range of [Date],
    that is not before [start]. *)
Definition countedFrom (start : Z) (e : Expense.t) : Prop :=
  exists t, datedAt e t /\ Z.abs t <= JSDate.maxTime /\ start <= t.

Open Scope Q_scope.

(** An amount of ordinary size: [10^15] at most, either way. *)
Definition moderate (q : Q) : Prop := Qabs q <= 1000000000000000.

(** A category name under which an object without an entry of that name
    reads [undefined]. *)
Definition ownName (c : string) : Prop := inheritedName c = false.

(** Records, inputs and budgets with amounts of ordinary size, and with
    category names that no object inherits a member for. *)
Definition plainRecord (e : Expense.t) : Prop :=
  ownName (Expense.category e) /\ moderate (Expense.amount e).
Definition plainInput (expense : Input.t) : Prop :=
  ownName (Input.category expense) /\ moderate (Input.amount expense).
Definition plainBudget (b : Budget.t) : Prop :=
  moderate (Budget.amount b)
  /\ forall c limit, limitOf b c = Some limit -> ownName c /\ moderate limit.

(** The sum of the amounts of a list of records. *)
Definition sumAmounts (l : list Expense.t) : Q :=
  fold_right (fun e acc => Expense.amount e + acc) 0 l.

(** The amounts of a list of records added to [s] one after the other, in
    the order of the list, each sum rounded to a double; and added up from
    nothing. *)
Definition addedFrom (s : Q) (l : list Expense.t) : Q :=
  fold_left (fun sum e => fl (sum + Expense.amount e)) l s.
Definition addedUp (l : list Expense.t) : Q := addedFrom 0 l.

(** A whole number. *)
Definition whole (q : Q) : Prop := exists n : Z, q == inject_Z n.

(** What the absolute values of the amounts add up to. *)
Definition sumAbs (l : list Expense.t) : Q :=
  fold_right (fun e acc => Qabs (Expense.amount e) + acc) 0 l.

(** Records whose amounts are whole numbers that the doubles add up, and
    round to hundredths, without rounding: the absolute values come to
    [10^13] at most. *)
Definition wholeAmounts (l : list Expense.t) : Prop :=
  Forall (fun e => whole (Expense.amount e)) l /\ sumAbs l <= 10000000000000.

(** The records of a list that carry category [c]. *)
Definition ofCategory (c : string) (l : list Expense.t) : list Expense.t :=
  List.filter (fun e => String.eqb (Expense.category e) c) l.

(** The amount a record contributes to the sum of those that satisfy [f]. *)
Definition share (f : Expense.t -> bool) (e : Expense.t) : Q :=
  if f e then Expense.amount e else 0.

(** The sum of a list of numbers. *)
Definition sumQ (l : list Q) : Q := fold_right Qplus 0 l.

(** What the entries of a category breakdown add up to. *)
Definition breakdownTotal (data : list CategoryDatum.t) : Q :=
  sumQ (map CategoryDatum.amount data).

(** The record's category (an empty one read as "other") is one of [ids]. *)
Definition categoryAmong (ids : list string) (e : Expense.t) : bool :=
  existsb (String.eqb (categoryOrOther e)) ids.

(** The record's category is one of the six the breakdown knows. *)
Definition knownCategory (e : Expense.t) : bool :=
  categoryAmong (map cat_id categories) e.

(** An amount with at most two decimals: a whole number of hundredths. *)
Definition centPrecise (q : Q) : Prop := exists n : Z, q == inject_Z n / 100.

(** The warning [addExpense] would prompt with in state [st], if any. *)
Definition addPrompt (st : State) (expense : Input.t) (now : Z) : option Warning :=
  addWarning (budget st) (getBudgetStatus (budget st) (expenses st) now) expense.

(** The warning [updateExpense] would prompt with, if any. *)
Definition updatePrompt (st : State) (id : string) (expense : Input.t) (now : Z)
    : option Warning :=
  match find (hasId id) (expenses st) with
  | Some oldExpense =>
      updateWarning (budget st) (getBudgetStatus (budget st) (expenses st) now)
                    oldExpense expense
  | None => None
  end.

(** A budget warning was shown on the way from [st] to [st']. *)
Definition prompted (st st' : State) : Prop :=
  exists w rest, alerts st' = alerts st ++ BudgetWarning w :: rest.

(** The record [addExpense] appends, and the list [updateExpense] writes. *)
Definition recordAdded (expense : Input.t) (now : Z) : Expense.t :=
  Expense.mk (pretty now) (Input.description expense) (Input.amount expense)
             (Input.date expense) (Input.category expense) (Some now).
Definition recordUpdated (id : string) (expense : Input.t) (now : Z) : Expense.t :=
  Expense.mk id (Input.description expense) (Input.amount expense)
             (Input.date expense) (Input.category expense) (Some now).
Definition afterUpdate (id : string) (expense : Input.t) (now : Z)
    (l : list Expense.t) : list Expense.t :=
  map (fun e => if hasId id e then recordUpdated id expense now else e) l.

(** The status exceeds a cap of budget [b]: the period total is over
    [b.amount], or the total of category [c] is over its limit. *)
Definition overPeriodCap (b : Budget.t) (s : BudgetStatus.t) : Prop :=
  Budget.amount b < BudgetStatus.total s.
Definition overCategoryCap (b : Budget.t) (s : BudgetStatus.t) (c : string) : Prop :=
  exists limit, limitOf b c = Some limit
                /\ limit < orZero (BudgetStatus.categoryTotals s !! c).
Definition overSomeCap (b : Budget.t) (s : BudgetStatus.t) : Prop :=
  overPeriodCap b s \/ exists c, overCategoryCap b s c.

(** The total of category [c] is over a limit configured for it that is
    not zero (the warnings read a limit of zero as no limit). *)
Definition overNonzeroLimit (b : Budget.t) (s : BudgetStatus.t) (c : string) : Prop :=
  exists limit, limitOf b c = Some limit /\ ~ limit == 0
                /\ limit < orZero (BudgetStatus.categoryTotals s !! c).

(** The entries of a breakdown with a positive amount. *)
Definition positives (data : list CategoryDatum.t) : list CategoryDatum.t :=
  List.filter (fun cat => Qgtb (CategoryDatum.amount cat) 0) data.

(** [top] is the first entry of [l] with the greatest amount. *)
Definition isHighest (l : list CategoryDatum.t) (top : CategoryDatum.t) : Prop :=
  exists l1 l2,
    l = l1 ++ top :: l2
    /\ (forall x, In x l1 -> CategoryDatum.amount x < CategoryDatum.amount top)
    /\ (forall x, In x l2 -> CategoryDatum.amount x <= CategoryDatum.amount top).

(** [x > k] for a percentage [x]. *)
Definition xnum_gt (x : xnum) (k : Z) : Prop :=
  match x with
  | Fin z => (k < z)%Z
  | PosInf => True
  | NegInf => False
  end.

(** The average amount of the last three records (of all, when fewer),
    as a double. *)
Definition recentAverage (expenses : list Expense.t) : Q :=
  fl (sumAmounts (lastThree expenses) / inject_Z (Z.of_nat (length (lastThree expenses)))).

(** The conditions of rules 2 to 5 of the advisory tip. *)
Definition ruleConcentrated (data : list CategoryDatum.t) : Prop :=
  exists top, isHighest (positives data) top /\ xnum_gt (CategoryDatum.percentage top) 50.
Definition ruleHighAverage (expenses : list Expense.t) (dateFilter : DateFilter) : Prop :=
  exists avg, dailyAverage expenses dateFilter = Some avg /\ 1000 < avg.
Definition ruleRecentlyHigher (expenses : list Expense.t) (dateFilter : DateFilter) : Prop :=
  exists avg, dailyAverage expenses dateFilter = Some avg
              /\ fl (avg * (3 # 2)) < recentAverage expenses.
Definition ruleFewCategories (expenses : list Expense.t) (data : list CategoryDatum.t) : Prop :=
  (length (positives data) <= 2)%nat /\ (5 < length expenses)%nat.


(** ** Notions for the rest of the provider and the screens *)

(** What [JSON.parse] reads back from what [JSON.stringify] wrote for a
    budget and for a record: every field, at its declared type. *)
Definition periodName (p : Period) : string :=
  match p with
  | daily => "daily"
  | weekly => "weekly"
  | monthly => "monthly"
  end.
Definition asStoredBudget (b : Budget.t) : StoredBudget :=
  mkStoredBudget (Some (Budget.amount b)) (Some (periodName (Budget.period b)))
                 (Budget.categoryLimits b).
Definition asStored (e : Expense.t) : StoredExpense :=
  mkStored (Some (Expense.id e)) (Text (Expense.description e)) (Some (Expense.amount e))
           (Some (Expense.date e)) (Some (Expense.category e)) (Expense.timestamp e).

(** The limit a row of the budget form stands for, when it parses to a
    number above zero. *)
Definition validLimit (row : CategoryLimit) : option Q :=
  match parseFloat (cl_limit row) with
  | Some q => if Qgtb q 0 then Some q else None
  | None => None
  end.

(** The limit of the last row of category [c] that stands for one. *)
Definition limitFor (c : string) (rows : list CategoryLimit) : option Q :=
  last (omap (fun row => if String.eqb (cl_category row) c then validLimit row else None)
             rows).

(** The rows with [value] in place of one field of a row. *)
Definition withField (field : LimitField) (value : string) (item : CategoryLimit)
    : CategoryLimit :=
  match field with
  | field_category => mkLimit value (cl_limit item)
  | field_limit => mkLimit (cl_category item) value
  end.

Open Scope Z_scope.

(** The two bounds of the custom range, when both are set, are in
    order; each bound that is set is a local midnight. *)
Definition rangeInOrder (sc : Screen.t) : Prop :=
  match Screen.startDate sc, Screen.endDate sc with
  | Some s, Some e => s <= e
  | _, _ => True
  end.
Definition boundsAtMidnight (sc : Screen.t) : Prop :=
  (forall s, Screen.startDate sc = Some s -> startOfDay s)
  /\ (forall e, Screen.endDate sc = Some e -> startOfDay e).

(** The record is dated, and falls on local day [d]; on one of the [n]
    local days from [d0] on. *)
Definition onDay (d : Z) (e : Expense.t) : bool :=
  match expenseDate e with
  | Some t => localDay t =? d
  | None => false
  end.
Definition onDays (d0 : Z) (n : nat) (e : Expense.t) : bool :=
  match expenseDate e with
  | Some t => (d0 <=? localDay t) && (localDay t <? d0 + Z.of_nat n)
  | None => false
  end.

Open Scope Q_scope.

(** A record as the form makes them: id, description, date and category
    not empty, the description trimmed, the amount with at most two
    decimals, and a time stamp that is not zero. *)
Definition wellFormed (e : Expense.t) : Prop :=
  Expense.id e <> "" /\ Expense.description e <> ""
  /\ trim (Expense.description e) = Expense.description e
  /\ Expense.date e <> "" /\ Expense.category e <> ""
  /\ centPrecise (Expense.amount e)
  /\ exists t, Expense.timestamp e = Some t /\ t <> 0%Z.

(** Two records with the same fields, the amounts being equal numbers. *)
Definition sameRecord (a b : Expense.t) : Prop :=
  Expense.id a = Expense.id b /\ Expense.description a = Expense.description b
  /\ Expense.amount a == Expense.amount b
  /\ Expense.date a = Expense.date b /\ Expense.category a = Expense.category b
  /\ Expense.timestamp a = Expense.timestamp b.

(** The storage holds, under the expenses key, the text of the list the
    provider holds. *)
Definition mirrored (st : State) : Prop :=
  storage st !! STORAGE_KEY = Some (JSON_stringify (expenses st)).

(** A text without white space. *)
Fixpoint spaceFree (s : string) : bool :=
  match s with
  | String c r => negb (isSpace c) && spaceFree r
  | EmptyString => true
  end.

(** The categories of the form are the six it starts with, followed by
    those that were added, each with an id free of white space and a
    name that is not empty; the selected category is one of the list. *)
Definition categoriesInOrder (s : ExpensesScreen.t) : Prop :=
  exists added,
    ExpensesScreen.categories s = defaultCategories ++ added
    /\ Forall (fun cat => spaceFree (fc_id cat) = true /\ fc_name cat <> "") added.
Definition selectionListed (s : ExpensesScreen.t) : Prop :=
  ExpensesScreen.selectedCategory s ∈ ExpensesScreen.categories s.

(** ** Rounding to a double *)

Lemma pow2_pos e : 0 < pow2 e.
Proof. apply Qpower_0_lt. reflexivity. Qed.

Lemma pow2_add a b : pow2 (a + b) == pow2 a * pow2 b.
Proof. apply Qpower_plus. discriminate. Qed.

Lemma pow2_le a b : (a <= b)%Z -> pow2 a <= pow2 b.
Proof. intros H. apply Qpower_le_compat_l; [exact H|discriminate]. Qed.

Lemma pow2_lt a b : (a < b)%Z -> pow2 a < pow2 b.
Proof. intros H. apply Qpower_lt_compat_l; [exact H|reflexivity]. Qed.

Lemma pow2_Z e : (0 <= e)%Z -> pow2 e == inject_Z (2 ^ e).
Proof. intros H. unfold pow2. rewrite Zpower_Qpower by exact H. reflexivity. Qed.

Lemma pow2_sub a b : pow2 (a - b) == pow2 a / pow2 b.
Proof. apply Qpower_minus. discriminate. Qed.

Lemma binade_spec q : 0 < q -> pow2 (binade q) <= q < pow2 (binade q + 1).
Proof.
  intros Hq. destruct q as [n d]. unfold binade. cbn [Qnum Qden].
  assert (Hn : (0 < n)%Z) by (unfold Qlt in Hq; cbn in Hq; lia).
  pose proof (Z.log2_spec n Hn) as [Hn1 Hn2].
  pose proof (Z.log2_spec (Zpos d) eq_refl) as [Hd1 Hd2].
  pose proof (Z.log2_nonneg n) as Ha. pose proof (Z.log2_nonneg (Zpos d)) as Hb.
  set (a := Z.log2 n) in *. set (b := Z.log2 (Zpos d)) in *.
  assert (Hup : n # d < pow2 (a - b + 1)).
  { replace (a - b + 1)%Z with (Z.succ a - b)%Z by lia.
    rewrite pow2_sub, !pow2_Z by lia.
    apply Qlt_shift_div_l; [rewrite <- (Zlt_Qlt 0); lia|].
    unfold Qlt, Qmult, inject_Z. cbn [Qnum Qden]. rewrite Pos.mul_1_r. nia. }
  assert (Hlow : pow2 (a - b - 1) <= n # d).
  { replace (a - b - 1)%Z with (a - Z.succ b)%Z by lia.
    rewrite pow2_sub, !pow2_Z by lia.
    apply Qle_shift_div_r; [rewrite <- (Zlt_Qlt 0); lia|].
    unfold Qle, Qmult, inject_Z. cbn [Qnum Qden]. rewrite Pos.mul_1_r. nia. }
  destruct (Qle_bool (pow2 (a - b)) (n # d)) eqn:E.
  - apply Qle_bool_iff in E. split; assumption.
  - split; [exact Hlow|]. replace (a - b - 1 + 1)%Z with (a - b)%Z by lia.
    apply Qnot_le_lt. intros H. apply Qle_bool_iff in H. congruence.
Qed.

Lemma binade_mono q q' : 0 < q -> q <= q' -> (binade q <= binade q')%Z.
Proof.
  intros Hq Hle.
  destruct (binade_spec q Hq) as [H1 _].
  destruct (binade_spec q') as [_ H2]; [eapply Qlt_le_trans; eassumption|].
  assert (H : pow2 (binade q) < pow2 (binade q' + 1)).
  { eapply Qle_lt_trans; [exact H1|]. eapply Qle_lt_trans; eassumption. }
  apply Qpower_lt_compat_l_inv in H; [lia|reflexivity].
Qed.

Lemma nearestEven_floor x : (Qfloor x <= nearestEven x <= Qfloor x + 1)%Z.
Proof.
  unfold nearestEven. destruct (Qcompare _ _); [destruct (Z.even _)| |]; lia.
Qed.

Lemma nearestEven_mono x y : x <= y -> (nearestEven x <= nearestEven y)%Z.
Proof.
  intros Hxy. pose proof (Qfloor_resp_le _ _ Hxy) as Hf.
  pose proof (nearestEven_floor x) as Hx. pose proof (nearestEven_floor y) as Hy.
  destruct (Z.eq_dec (Qfloor x) (Qfloor y)) as [E|NE]; [|lia].
  unfold nearestEven. rewrite <- E.
  destruct (Qcompare_spec (x - inject_Z (Qfloor x)) (1 # 2)) as [Hx1|Hx1|Hx1];
    destruct (Qcompare_spec (y - inject_Z (Qfloor x)) (1 # 2)) as [Hy1|Hy1|Hy1];
    try destruct (Z.even (Qfloor x)); try lia; exfalso; lra.
Qed.

Lemma nearestEven_whole x n : x == inject_Z n -> nearestEven x = n.
Proof.
  intros H. unfold nearestEven.
  assert (Hf : Qfloor x = n) by (rewrite (Qfloor_comp _ _ H); apply Qfloor_Z).
  rewrite Hf.
  destruct (Qcompare_spec (x - inject_Z n) (1 # 2)) as [H1|H1|H1];
    [exfalso; lra|reflexivity|exfalso; lra].
Qed.

Lemma nearestEven_le x n : x <= inject_Z n -> (nearestEven x <= n)%Z.
Proof.
  intros H. rewrite <- (nearestEven_whole (inject_Z n) n) by reflexivity.
  apply nearestEven_mono, H.
Qed.

Lemma nearestEven_ge x n : inject_Z n <= x -> (n <= nearestEven x)%Z.
Proof.
  intros H. rewrite <- (nearestEven_whole (inject_Z n) n) at 1 by reflexivity.
  apply nearestEven_mono, H.
Qed.

Lemma spacing_pos q : 0 < spacing q.
Proof. apply pow2_pos. Qed.

Lemma roundPositive_bounds q :
  0 < q -> pow2 (binade q) <= roundPositive q <= pow2 (binade q + 1).
Proof.
  intros Hq. destruct (binade_spec q Hq) as [Hlow Hup].
  unfold roundPositive, spacing. set (u := (binade q - 52)%Z).
  pose proof (pow2_pos u) as Hpu.
  assert (H52 : (2 ^ 52 <= nearestEven (q / pow2 u))%Z).
  { apply nearestEven_ge. rewrite <- pow2_Z by lia.
    apply Qle_shift_div_l; [exact Hpu|]. rewrite <- pow2_add.
    replace (52 + u)%Z with (binade q) by (subst u; lia). exact Hlow. }
  assert (H53 : (nearestEven (q / pow2 u) <= 2 ^ 53)%Z).
  { apply nearestEven_le. rewrite <- pow2_Z by lia.
    apply Qle_shift_div_r; [exact Hpu|]. rewrite <- pow2_add.
    replace (53 + u)%Z with (binade q + 1)%Z by (subst u; lia).
    apply Qlt_le_weak, Hup. }
  split.
  - apply Qle_trans with (inject_Z (2 ^ 52) * pow2 u).
    + rewrite <- pow2_Z by lia. rewrite <- pow2_add.
      replace (52 + u)%Z with (binade q) by (subst u; lia). apply Qle_refl.
    + apply Qmult_le_compat_r; [|apply Qlt_le_weak, Hpu]. rewrite <- Zle_Qle. exact H52.
  - apply Qle_trans with (inject_Z (2 ^ 53) * pow2 u).
    + apply Qmult_le_compat_r; [|apply Qlt_le_weak, Hpu]. rewrite <- Zle_Qle. exact H53.
    + rewrite <- pow2_Z by lia. rewrite <- pow2_add.
      replace (53 + u)%Z with (binade q + 1)%Z by (subst u; lia). apply Qle_refl.
Qed.

Lemma roundPositive_pos q : 0 < q -> 0 < roundPositive q.
Proof.
  intros Hq. eapply Qlt_le_trans; [apply (pow2_pos (binade q))|].
  apply roundPositive_bounds, Hq.
Qed.

Lemma roundPositive_mono q q' : 0 < q -> q <= q' -> roundPositive q <= roundPositive q'.
Proof.
  intros Hq Hle. assert (Hq' : 0 < q') by (eapply Qlt_le_trans; eassumption).
  pose proof (binade_mono q q' Hq Hle) as He.
  destruct (Z.eq_dec (binade q) (binade q')) as [E|NE].
  - unfold roundPositive, spacing. rewrite <- E.
    pose proof (pow2_pos (binade q - 52)) as Hpu.
    apply Qmult_le_compat_r; [|apply Qlt_le_weak, Hpu].
    rewrite <- Zle_Qle. apply nearestEven_mono.
    apply Qmult_le_compat_r; [exact Hle|]. apply Qlt_le_weak, Qinv_lt_0_compat, Hpu.
  - destruct (roundPositive_bounds q Hq) as [_ Hup].
    destruct (roundPositive_bounds q' Hq') as [Hlow _].
    eapply Qle_trans; [exact Hup|]. eapply Qle_trans; [|exact Hlow].
    apply pow2_le. lia.
Qed.

Lemma roundPositive_nonneg q : 0 < q -> 0 <= roundPositive q.
Proof. intros Hq. apply Qlt_le_weak, roundPositive_pos, Hq. Qed.

Lemma fl_comp q q' : q == q' -> fl q = fl q'.
Proof. intros H. unfold fl. rewrite (Qred_complete _ _ H). reflexivity. Qed.

Lemma fl_0 : fl 0 = 0.
Proof. reflexivity. Qed.

Lemma fl_positive q : 0 < q -> fl q == roundPositive (Qred q).
Proof.
  intros Hq. unfold fl. pose proof (Qred_correct q) as Hr.
  destruct (Qred q) as [n d]. 
  assert (Hn : (0 < n)%Z) by (rewrite <- Hr in Hq; unfold Qlt in Hq; cbn in Hq; lia).
  cbn [Qnum]. destruct n; try lia. apply Qred_correct.
Qed.

Lemma fl_negative q : q < 0 -> fl q == - roundPositive (- Qred q).
Proof.
  intros Hq. unfold fl. pose proof (Qred_correct q) as Hr.
  destruct (Qred q) as [n d]. 
  assert (Hn : (n < 0)%Z) by (rewrite <- Hr in Hq; unfold Qlt in Hq; cbn in Hq; lia).
  cbn [Qnum]. destruct n; try lia. apply Qred_correct.
Qed.

Lemma fl_nonneg q : 0 <= q -> 0 <= fl q.
Proof.
  intros Hq. destruct (Qlt_le_dec 0 q) as [H|H].
  - rewrite fl_positive by exact H. apply roundPositive_nonneg.
    rewrite Qred_correct. exact H.
  - rewrite (fl_comp q 0) by lra. apply Qle_refl.
Qed.

Lemma fl_pos q : 0 < q -> 0 < fl q.
Proof.
  intros Hq. rewrite fl_positive by exact Hq. apply roundPositive_pos.
  rewrite Qred_correct. exact Hq.
Qed.

Lemma fl_nonpos q : q <= 0 -> fl q <= 0.
Proof.
  intros Hq. destruct (Qlt_le_dec q 0) as [H|H].
  - rewrite fl_negative by exact H.
    assert (0 <= roundPositive (- Qred q)); [|lra].
    apply roundPositive_nonneg. rewrite Qred_correct. lra.
  - rewrite (fl_comp q 0) by lra. apply Qle_refl.
Qed.

Lemma fl_mono q q' : q <= q' -> fl q <= fl q'.
Proof.
  intros Hle. destruct (Qlt_le_dec 0 q) as [Hq|Hq].
  - rewrite !fl_positive by lra. apply roundPositive_mono; rewrite !Qred_correct; lra.
  - destruct (Qlt_le_dec q' 0) as [Hq'|Hq'].
    + rewrite !fl_negative by lra. apply Qopp_le_compat.
      apply roundPositive_mono; rewrite !Qred_correct; lra.
    + apply Qle_trans with 0; [apply fl_nonpos, Hq|apply fl_nonneg, Hq'].
Qed.

Lemma fl_opp q : fl (- q) == - fl q.
Proof.
  destruct (Q_dec q 0) as [[H|H]|H].
  - rewrite fl_positive, fl_negative by lra. rewrite Qred_opp. ring.
  - rewrite fl_negative, fl_positive by lra. rewrite Qred_opp.
    assert (E : - - Qred q = Qred q).
    { destruct (Qred q) as [n d]. unfold Qopp. cbn [Qnum Qden].
      rewrite Z.opp_involutive. reflexivity. }
    rewrite E. reflexivity.
  - rewrite (fl_comp (- q) 0), (fl_comp q 0) by lra. reflexivity.
Qed.

Lemma Qred_inject_Z n : Qred (inject_Z n) = inject_Z n.
Proof.
  unfold Qred, inject_Z. cbn [Qnum Qden].
  pose proof (Z.ggcd_gcd n 1) as Hg. pose proof (Z.ggcd_correct_divisors n 1) as Hd.
  destruct (Z.ggcd n 1) as [g [a b]]. cbn [fst snd] in *.
  rewrite Z.gcd_1_r in Hg. subst g. destruct Hd as [Ha Hb].
  f_equal; [lia|]. apply Pos2Z.inj. rewrite Z2Pos.id; lia.
Qed.

Lemma roundPositive_whole n :
  (0 < n <= 2 ^ 53)%Z -> roundPositive (inject_Z n) == inject_Z n.
Proof.
  intros [Hn Hmax].
  assert (Hq : 0 < inject_Z n) by (rewrite <- (Zlt_Qlt 0); exact Hn).
  destruct (binade_spec _ Hq) as [Hlow Hup].
  assert (H0 : (0 <= binade (inject_Z n))%Z).
  { change 0%Z with (binade 1). apply binade_mono; [reflexivity|].
    rewrite <- (Zle_Qle 1). lia. }
  assert (H53 : (binade (inject_Z n) <= 53)%Z).
  { change 53%Z with (binade (inject_Z (2 ^ 53))). apply binade_mono; [exact Hq|].
    rewrite <- Zle_Qle. exact Hmax. }
  unfold roundPositive, spacing. set (e := binade (inject_Z n)) in *.
  pose proof (pow2_pos (e - 52)) as Hp.
  destruct (Z.eq_dec e 53%Z) as [E|NE].
  - rewrite E in *. rewrite pow2_Z in Hlow by lia. rewrite <- Zle_Qle in Hlow.
    assert (n = 2 ^ 53)%Z by lia. subst n. reflexivity.
  - rewrite (nearestEven_whole _ (n * 2 ^ (52 - e))).
    + rewrite inject_Z_mult, <- pow2_Z by lia. rewrite <- Qmult_assoc, <- pow2_add.
      replace (52 - e + (e - 52))%Z with 0%Z by lia. change (pow2 0) with 1. ring.
    + rewrite inject_Z_mult, <- pow2_Z by lia.
      replace (52 - e)%Z with (- (e - 52))%Z by lia.
      unfold pow2. rewrite Qpower_opp. reflexivity.
Qed.

Lemma fl_whole n : (Z.abs n <= 2 ^ 53)%Z -> fl (inject_Z n) == inject_Z n.
Proof.
  intros Hn. destruct (Z.lt_trichotomy n 0) as [H|[->|H]].
  - assert (E : inject_Z n == - inject_Z (- n))
      by (rewrite inject_Z_opp; ring).
    rewrite (fl_comp _ _ E), fl_opp, E. apply Qopp_comp.
    rewrite fl_positive by (rewrite <- (Zlt_Qlt 0); lia).
    rewrite Qred_inject_Z. apply roundPositive_whole. lia.
  - reflexivity.
  - rewrite fl_positive by (rewrite <- (Zlt_Qlt 0); lia).
    rewrite Qred_inject_Z. apply roundPositive_whole. lia.
Qed.

#[local] Instance fl_Proper : Proper (Qeq ==> Qeq) fl.
Proof. intros q q' H. rewrite (fl_comp _ _ H). reflexivity. Qed.
(** * Proofs *)

(** ** The calendar *)

Import JSDate.
Open Scope Z_scope.

(** Linear arithmetic with division and remainder by constants, on the
    integers and the facts about them in the context. *)
Ltac div_lia :=
  repeat match goal with
         | x : ?T |- _ =>
             lazymatch T with
             | Z => fail
             | _ => lazymatch type of T with Prop => fail | _ => clear x end
             end
         end;
  Z.div_mod_to_equations; lia.

Lemma yearOfEra_bounds doe :
  0 <= doe < 146097 ->
  0 <= yearOfEra doe <= 399 /\ 0 <= doe - yearStart (yearOfEra doe) <= 365.
Proof.
  intros H. unfold yearOfEra, yearStart. div_lia.
Qed.

Lemma monthOfDoy_bounds doy :
  0 <= doy <= 365 ->
  0 <= monthOfDoy doy <= 11 /\ 0 <= doy - monthStart (monthOfDoy doy) <= 30.
Proof.
  intros H. unfold monthOfDoy, monthStart. div_lia.
Qed.

Lemma monthOfDoy_monthStart mp : 0 <= mp <= 11 -> monthOfDoy (monthStart mp) = mp.
Proof.
  intros H. unfold monthOfDoy, monthStart. div_lia.
Qed.

Lemma monthStart_bounds mp : 0 <= mp <= 11 -> 0 <= monthStart mp <= 337.
Proof.
  intros H. unfold monthStart. div_lia.
Qed.

(** The first 365 days after a year's start belong to that year. *)
Lemma yearOfEra_yearStart yoe k :
  0 <= yoe <= 399 -> 0 <= k <= 364 -> yearOfEra (yearStart yoe + k) = yoe.
Proof.
  intros H Hk. unfold yearOfEra, yearStart. div_lia.
Qed.

Lemma yearStart_bounds yoe : 0 <= yoe <= 399 -> 0 <= yearStart yoe <= 145731.
Proof.
  intros H. unfold yearStart. div_lia.
Qed.


Lemma era_split z :
  z + 719468 = (z + 719468) / 146097 * 146097 + (z + 719468) mod 146097
  /\ 0 <= (z + 719468) mod 146097 < 146097.
Proof. div_lia. Qed.

(** What [civil_from_days] computes, piece by piece. *)
Lemma civil_from_days_spec z :
  exists era yoe mp d,
    0 <= yoe <= 399 /\ 0 <= mp <= 11 /\ 1 <= d <= 31 /\
    z + 719468 = era * 146097 + yearStart yoe + monthStart mp + d - 1 /\
    0 <= yearStart yoe + monthStart mp + d - 1 < 146097 /\
    yearOfEra (yearStart yoe + monthStart mp + d - 1) = yoe /\
    monthOfDoy (monthStart mp + d - 1) = mp /\
    civil_from_days z =
      (if (if mp <? 10 then mp + 3 else mp - 9) <=? 2
       then yoe + era * 400 + 1 else yoe + era * 400,
       if mp <? 10 then mp + 3 else mp - 9, d).
Proof.
  destruct (era_split z) as [Hz Hdoe].
  set (era := (z + 719468) / 146097) in *.
  set (doe := (z + 719468) mod 146097) in *.
  destruct (yearOfEra_bounds doe Hdoe) as [Hyoe Hdoy].
  destruct (monthOfDoy_bounds _ Hdoy) as [Hmp Hd].
  exists era, (yearOfEra doe), (monthOfDoy (doe - yearStart (yearOfEra doe))),
         (doe - yearStart (yearOfEra doe)
          - monthStart (monthOfDoy (doe - yearStart (yearOfEra doe))) + 1).
  repeat split; try lia.
  - f_equal. lia.
  - f_equal. lia.
Qed.

Lemma civil_from_days_parts era yoe mp d z :
  z + 719468 = era * 146097 + yearStart yoe + monthStart mp + d - 1 ->
  0 <= yearStart yoe + monthStart mp + d - 1 < 146097 ->
  yearOfEra (yearStart yoe + monthStart mp + d - 1) = yoe ->
  monthOfDoy (monthStart mp + d - 1) = mp ->
  civil_from_days z = civilOfParts era yoe mp d.
Proof.
  intros Hz Hdoe Hy Hm. unfold civil_from_days, civilOfParts.
  assert (Hera : (z + 719468) / 146097 = era).
  { symmetry. apply (Z.div_unique _ _ _ (yearStart yoe + monthStart mp + d - 1)); lia. }
  assert (Hmod : (z + 719468) mod 146097 = yearStart yoe + monthStart mp + d - 1).
  { symmetry. apply (Z.mod_unique _ _ era); lia. }
  rewrite Hera, Hmod, Hy.
  replace (yearStart yoe + monthStart mp + d - 1 - yearStart yoe)
    with (monthStart mp + d - 1) by lia.
  rewrite Hm. cbv zeta. repeat f_equal. lia.
Qed.

Lemma days_from_civil_parts era yoe mp d :
  0 <= yoe <= 399 -> 0 <= mp <= 11 ->
  match civilOfParts era yoe mp d with
  | (y, m, _) =>
      1 <= m <= 12 /\
      days_from_civil y m 1 = era * 146097 + yearStart yoe + monthStart mp - 719468
  end.
Proof.
  intros Hy Hm. unfold civilOfParts, days_from_civil.
  destruct (Z.ltb_spec mp 10) as [H10|H10].
  - destruct (Z.leb_spec (mp + 3) 2); [lia|]. split; [lia|].
    replace (mp + 3 - 3) with mp by lia.
    replace ((yoe + era * 400) / 400) with era
      by (apply (Z.div_unique _ _ _ yoe); lia).
    replace ((yoe + era * 400) mod 400) with yoe
      by (apply (Z.mod_unique _ _ era); lia).
    lia.
  - destruct (Z.leb_spec (mp - 9) 2); [|lia]. split; [lia|].
    replace (mp - 9 + 9) with mp by lia.
    replace (yoe + era * 400 + 1 - 1) with (yoe + era * 400) by lia.
    replace ((yoe + era * 400) / 400) with era
      by (apply (Z.div_unique _ _ _ yoe); lia).
    replace ((yoe + era * 400) mod 400) with yoe
      by (apply (Z.mod_unique _ _ era); lia).
    lia.
Qed.

(** Going back to the first of the month: the day of month is at least 1,
    the day [d - 1] days earlier is day 1 of the same month and year, and
    that is the day [days_from_civil] gives for the first of the month. *)
Lemma civil_first_of_month z :
  match civil_from_days z with
  | (y, m, d) =>
      1 <= m <= 12 /\ 1 <= d <= 31 /\
      civil_from_days (z - (d - 1)) = (y, m, 1) /\
      days_from_civil y m 1 = z - (d - 1)
  end.
Proof.
  destruct (civil_from_days_spec z)
    as (era & yoe & mp & d & Hyoe & Hmp & Hd & Hz & Hdoe & Hy & Hm & ->).
  pose proof (monthStart_bounds mp Hmp) as Hms.
  pose proof (yearStart_bounds yoe Hyoe) as Hys.
  pose proof (days_from_civil_parts era yoe mp d Hyoe Hmp) as Hdfc.
  assert (Hfirst : civil_from_days (z - (d - 1)) = civilOfParts era yoe mp 1).
  { apply civil_from_days_parts.
    - lia.
    - lia.
    - replace (yearStart yoe + monthStart mp + 1 - 1)
        with (yearStart yoe + monthStart mp) by lia.
      apply yearOfEra_yearStart; lia.
    - replace (monthStart mp + 1 - 1) with (monthStart mp) by lia.
      apply monthOfDoy_monthStart; lia. }
  unfold civilOfParts in *.
  destruct Hdfc as [Hmrange Hdfc].
  repeat split; try lia; try exact Hfirst.
Qed.

(** ** Dates in local time *)

Lemma Day_shift t k : Day (t + k * msPerDay) = Day t + k.
Proof. unfold Day, msPerDay. div_lia. Qed.

Lemma TimeWithinDay_shift t k : TimeWithinDay (t + k * msPerDay) = TimeWithinDay t.
Proof. unfold TimeWithinDay, msPerDay. div_lia. Qed.

Lemma Day_TimeWithinDay t : t = Day t * msPerDay + TimeWithinDay t /\ 0 <= TimeWithinDay t < msPerDay.
Proof. unfold Day, TimeWithinDay, msPerDay. div_lia. Qed.

Lemma MakeDay_own t dt :
  MakeDay (YearFromTime t) (MonthFromTime t) dt = Day t + dt - DateFromTime t.
Proof.
  unfold MakeDay, YearFromTime, MonthFromTime, DateFromTime.
  pose proof (civil_first_of_month (Day t)) as H.
  destruct (civil_from_days (Day t)) as [[y m] d]. cbn [fst snd].
  destruct H as (Hm & Hd & _ & Hdays).
  replace ((m - 1) / 12) with 0 by div_lia.
  replace ((m - 1) mod 12 + 1) with m by div_lia.
  rewrite Z.add_0_r, Hdays. lia.
Qed.

(** [setDate] moves a date by whole days. *)
Lemma setDate_shift t dt : setDate tz t dt = t + (dt - getDate tz t) * msPerDay.
Proof.
  unfold setDate, getDate, UTC, MakeDate. rewrite MakeDay_own.
  pose proof (Day_TimeWithinDay (LocalTime tz t)) as [H _].
  unfold LocalTime in *. lia.
Qed.

Lemma setHours0_local t : LocalTime tz (setHours0 tz t) = localDay t * msPerDay.
Proof. unfold setHours0, localDay, UTC, LocalTime, MakeDate. lia. Qed.

Lemma setHours0_startOfDay t : startOfDay (setHours0 tz t).
Proof.
  unfold startOfDay. rewrite setHours0_local.
  unfold TimeWithinDay, msPerDay. div_lia.
Qed.

Lemma setHours0_localDay t : localDay (setHours0 tz t) = localDay t.
Proof.
  unfold localDay at 1. rewrite setHours0_local.
  unfold Day, msPerDay. div_lia.
Qed.

Lemma setHours0_bounds t : setHours0 tz t <= t < setHours0 tz t + msPerDay.
Proof.
  pose proof (setHours0_local t) as H.
  pose proof (Day_TimeWithinDay (LocalTime tz t)) as [H1 H2].
  unfold localDay, LocalTime in *. lia.
Qed.

Lemma localDay_shift t k : localDay (t + k * msPerDay) = localDay t + k.
Proof.
  unfold localDay, LocalTime.
  replace (t + k * msPerDay + tz) with (t + tz + k * msPerDay) by lia.
  apply Day_shift.
Qed.

(** The calendar fields depend on the local day only. *)
Lemma getDate_localDay t : getDate tz t = snd (civil_from_days (localDay t)).
Proof. reflexivity. Qed.
Lemma getMonth_localDay t : getMonth tz t = snd (fst (civil_from_days (localDay t))) - 1.
Proof. reflexivity. Qed.
Lemma getFullYear_localDay t : getFullYear tz t = fst (fst (civil_from_days (localDay t))).
Proof. reflexivity. Qed.
Lemma getDay_localDay t : getDay tz t = (localDay t + 4) mod 7.
Proof. reflexivity. Qed.

Lemma getDate_ge_1 t : 1 <= getDate tz t <= 31.
Proof.
  rewrite getDate_localDay. pose proof (civil_first_of_month (localDay t)) as H.
  destruct (civil_from_days (localDay t)) as [[y m] d]. cbn [snd]. lia.
Qed.

Lemma getDay_bounds t : 0 <= getDay tz t < 7.
Proof. rewrite getDay_localDay. div_lia. Qed.

(** ** The start of the budget period *)

Lemma startOfPeriod_localDay p now :
  localDay (startOfPeriod p now) =
    match p with
    | daily => localDay now
    | weekly => localDay now - getDay tz now
    | monthly => localDay now - (getDate tz now - 1)
    end.
Proof.
  destruct p; unfold startOfPeriod; rewrite setHours0_localDay; [reflexivity| |];
    rewrite setDate_shift, localDay_shift; lia.
Qed.

Lemma startOfPeriod_le_now p now : startOfPeriod p now <= now.
Proof.
  pose proof (getDate_ge_1 now) as Hd. pose proof (getDay_bounds now) as Hw.
  destruct p; unfold startOfPeriod.
  - apply setHours0_bounds.
  - etransitivity; [apply setHours0_bounds|]. rewrite setDate_shift. unfold msPerDay. lia.
  - etransitivity; [apply setHours0_bounds|]. rewrite setDate_shift. unfold msPerDay. lia.
Qed.

Lemma startOfPeriod_spec p now : isPeriodStart p now (startOfPeriod p now).
Proof.
  pose proof (startOfPeriod_localDay p now) as Hday.
  assert (Hmid : startOfDay (startOfPeriod p now))
    by (destruct p; apply setHours0_startOfDay).
  destruct p; cbn [isPeriodStart]; (split; [exact Hmid|]).
  - exact Hday.
  - pose proof (getDay_bounds now) as Hw. split.
    + rewrite getDay_localDay, Hday, getDay_localDay.
      div_lia.
    + rewrite Hday. lia.
  - rewrite getDate_localDay, !getMonth_localDay, !getFullYear_localDay, Hday.
    rewrite getDate_localDay.
    pose proof (civil_first_of_month (localDay now)) as H.
    destruct (civil_from_days (localDay now)) as [[y m] d]. cbn [fst snd].
    destruct H as (_ & _ & -> & _). cbn [fst snd]. auto.
Qed.

(** ** Numbers and sums *)

Open Scope Q_scope.

Lemma Qgtb_true a b : Qgtb a b = true <-> b < a.
Proof.
  unfold Qgtb. rewrite negb_true_iff, <- not_true_iff_false, Qle_bool_iff.
  split; [apply Qnot_le_lt | apply Qlt_not_le].
Qed.

Lemma Qgtb_false a b : Qgtb a b = false <-> a <= b.
Proof. unfold Qgtb. rewrite negb_false_iff. apply Qle_bool_iff. Qed.

Lemma truthyQ_true x : truthyQ x = true <-> ~ x == 0.
Proof. tidy.
  unfold truthyQ. rewrite negb_true_iff, <- not_true_iff_false, Qeq_bool_iff. tauto.
Qed.

Lemma orZero_default x : orZero x == default 0 x.
Proof.
  destruct x as [v|]; cbn; [|reflexivity].
  destruct (Qeq_bool v 0) eqn:E; [|reflexivity].
  apply Qeq_bool_iff in E. symmetry. exact E.
Qed.

Lemma orZero_Some v : orZero (Some v) == v.
Proof. apply orZero_default. Qed.

Lemma Math_max0_Qmax x : Math_max0 x == Qmax 0 x.
Proof.
  unfold Math_max0. destruct (Qle_bool x 0) eqn:E.
  - apply Qle_bool_iff in E. symmetry. apply Q.max_l. exact E.
  - assert (0 <= x).
    { apply Qlt_le_weak, Qnot_le_lt. rewrite <- Qle_bool_iff, E. discriminate. }
    symmetry. apply Q.max_r. assumption.
Qed.

Lemma sumAmounts_nil : sumAmounts [] = 0.
Proof. reflexivity. Qed.

Lemma sumAmounts_cons e l : sumAmounts (e :: l) = Expense.amount e + sumAmounts l.
Proof. reflexivity. Qed.

Lemma sumAmounts_app l1 l2 : sumAmounts (l1 ++ l2) == sumAmounts l1 + sumAmounts l2.
Proof.
  induction l1 as [|e l1 IH]; cbn [app].
  - rewrite sumAmounts_nil. ring.
  - rewrite !sumAmounts_cons, IH. ring.
Qed.

(** The running sum of a [reduce] that adds amounts. *)
Lemma fold_left_sum l : forall s,
  fold_left (fun sum e => sum + Expense.amount e) l s == s + sumAmounts l.
Proof.
  induction l as [|e l IH]; intros s; cbn [fold_left].
  - rewrite sumAmounts_nil. ring.
  - rewrite IH, sumAmounts_cons. ring.
Qed.

(** *** Sums over a dictionary *)

Lemma sumValues_empty : sumValues ∅ = 0.
Proof. unfold sumValues. apply map_fold_empty. Qed.

Lemma sumValues_insert_fresh (m : gmap string Q) k v :
  m !! k = None -> sumValues (<[k := v]> m) == sumValues m + v.
Proof.
  intros Hk. unfold sumValues.
  apply (map_fold_insert Qeq (fun (_ : string) (b a : Q) => a + b)); [| |exact Hk].
  - intros j z a a' Ha. rewrite Ha. reflexivity.
  - intros. ring.
Qed.

Lemma sumValues_delete (m : gmap string Q) k x :
  m !! k = Some x -> sumValues m == sumValues (delete k m) + x.
Proof.
  intros Hk. unfold sumValues.
  apply (map_fold_delete Qeq (fun (_ : string) (b a : Q) => a + b)); [| |exact Hk].
  - intros j z a a' Ha. rewrite Ha. reflexivity.
  - intros. ring.
Qed.

Lemma sumValues_insert (m : gmap string Q) k v :
  sumValues (<[k := v]> m) == sumValues m - default 0 (m !! k) + v.
Proof.
  destruct (m !! k) as [x|] eqn:Hk; cbn.
  - rewrite <- insert_delete_eq.
    rewrite sumValues_insert_fresh by apply lookup_delete_eq.
    rewrite (sumValues_delete m k x Hk). ring.
  - rewrite sumValues_insert_fresh by exact Hk. ring.
Qed.

(** *** The totals of getBudgetStatus *)

Lemma addedFrom_comp l : forall s s', s == s' -> addedFrom s l == addedFrom s' l.
Proof.
  induction l as [|e l IH]; intros s s' H; cbn [addedFrom fold_left]; [exact H|].
  apply IH. rewrite H. reflexivity.
Qed.

Lemma addedFrom_app s l1 l2 : addedFrom s (l1 ++ l2) = addedFrom (addedFrom s l1) l2.
Proof. apply fold_left_app. Qed.

Lemma tally_total l : forall acc,
  snd (fold_left tally l acc) = addedFrom (snd acc) l.
Proof.
  induction l as [|e l IH]; intros acc; cbn [fold_left addedFrom]; [reflexivity|].
  rewrite IH. reflexivity.
Qed.

Lemma ofCategory_cons c e l :
  ofCategory c (e :: l) =
    if String.eqb (Expense.category e) c then e :: ofCategory c l else ofCategory c l.
Proof. reflexivity. Qed.

Lemma tally_category l c : forall acc,
  orZero (fst (fold_left tally l acc) !! c)
  == addedFrom (orZero (fst acc !! c)) (ofCategory c l).
Proof.
  induction l as [|e l IH]; intros acc; cbn [fold_left].
  - reflexivity.
  - rewrite IH, ofCategory_cons. cbn [tally fst].
    destruct (String.eqb_spec (Expense.category e) c) as [->|Hne].
    + rewrite lookup_insert_eq. cbn [addedFrom fold_left].
      apply addedFrom_comp, orZero_Some.
    + rewrite lookup_insert_ne by exact Hne. reflexivity.
Qed.

(** *** Whole amounts are added exactly *)

Lemma sumAbs_cons e l : sumAbs (e :: l) = Qabs (Expense.amount e) + sumAbs l.
Proof. reflexivity. Qed.

Lemma sumAbs_nonneg l : 0 <= sumAbs l.
Proof.
  induction l as [|e l IH]; [apply Qle_refl|].
  rewrite sumAbs_cons. pose proof (Qabs_nonneg (Expense.amount e)). lra.
Qed.

Lemma sumAmounts_whole l :
  Forall (fun e => whole (Expense.amount e)) l -> whole (sumAmounts l).
Proof.
  induction 1 as [|e l [n Hn] _ [m Hm]].
  - exists 0%Z. reflexivity.
  - exists (n + m)%Z. rewrite sumAmounts_cons, Hn, Hm, inject_Z_plus. reflexivity.
Qed.

Lemma sumAmounts_abs l : Qabs (sumAmounts l) <= sumAbs l.
Proof.
  induction l as [|e l IH]; [apply Qle_refl|].
  rewrite sumAmounts_cons, sumAbs_cons.
  eapply Qle_trans; [apply Qabs_triangle|]. lra.
Qed.

Lemma fl_whole_bounded q : whole q -> Qabs q <= 1000000000000000 -> fl q == q.
Proof.
  intros [n Hn] Hq. rewrite Hn in *. apply fl_whole.
  rewrite Qabs_Qle_condition in Hq. destruct Hq as [H1 H2].
  change (- (1000000000000000)) with (inject_Z (- 1000000000000000)) in H1.
  change 1000000000000000 with (inject_Z 1000000000000000) in H2.
  rewrite <- Zle_Qle in H1, H2. lia.
Qed.

(** Amounts that are whole numbers, with absolute values that add up to
    at most [10^15], are added without rounding. *)
Lemma addedFrom_whole l : forall s,
  whole s -> Forall (fun e => whole (Expense.amount e)) l ->
  Qabs s + sumAbs l <= 1000000000000000 ->
  addedFrom s l == s + sumAmounts l.
Proof.
  induction l as [|e l IH]; intros s Hs Hl Hb; cbn [addedFrom fold_left].
  - rewrite sumAmounts_nil. ring.
  - inversion Hl as [|? ? He Hl']; subst. fold (addedFrom (fl (s + Expense.amount e)) l).
    rewrite sumAbs_cons in Hb.
    pose proof (sumAbs_nonneg l) as Hnn.
    pose proof (Qabs_triangle s (Expense.amount e)) as Htri.
    assert (Hw : whole (s + Expense.amount e)).
    { destruct Hs as [n Hn], He as [m Hm]. exists (n + m)%Z.
      rewrite Hn, Hm, inject_Z_plus. reflexivity. }
    assert (Hfl : fl (s + Expense.amount e) == s + Expense.amount e)
      by (apply fl_whole_bounded; [exact Hw|lra]).
    rewrite (addedFrom_comp l _ _ Hfl), IH; [rewrite sumAmounts_cons; ring|exact Hw|exact Hl'|lra].
Qed.

Lemma addedUp_whole l : wholeAmounts l -> addedUp l == sumAmounts l.
Proof.
  intros [Hl Hb]. unfold addedUp. rewrite addedFrom_whole; [ring|exists 0%Z; reflexivity|exact Hl|].
  change (Qabs 0) with 0. lra.
Qed.

Lemma wholeAmounts_filter f l : wholeAmounts l -> wholeAmounts (List.filter f l).
Proof.
  intros [Hl Hb]. split.
  - apply List.Forall_forall. intros e He. apply List.filter_In in He as [He _].
    rewrite List.Forall_forall in Hl. apply Hl, He.
  - eapply Qle_trans; [|exact Hb]. clear. induction l as [|e l IH]; [apply Qle_refl|].
    cbn [List.filter]. pose proof (Qabs_nonneg (Expense.amount e)).
    destruct (f e); rewrite !sumAbs_cons; lra.
Qed.

Lemma sumAbs_app l1 l2 : sumAbs (l1 ++ l2) == sumAbs l1 + sumAbs l2.
Proof.
  induction l1 as [|e l1 IH]; cbn [app].
  - change (sumAbs []) with 0. ring.
  - rewrite !sumAbs_cons, IH. ring.
Qed.

Lemma sumAbs_filter f l : sumAbs (List.filter f l) <= sumAbs l.
Proof.
  induction l as [|e l IH]; [apply Qle_refl|].
  cbn [List.filter]. pose proof (Qabs_nonneg (Expense.amount e)).
  destruct (f e); rewrite !sumAbs_cons; lra.
Qed.

(** Over whole amounts the entries of the dictionary add up to the
    running sum. *)
Lemma tally_sumValues l :
  wholeAmounts l ->
  sumValues (fst (fold_left tally l (∅, 0))) == sumAmounts l.
Proof.
  induction l as [|e l IH] using rev_ind; intros [Hl Hb].
  - cbn [fold_left fst]. rewrite sumValues_empty. reflexivity.
  - apply Forall_app in Hl as [Hl He]. inversion He as [|? ? Hwe _]; subst.
    rewrite sumAbs_app, sumAbs_cons in Hb. change (sumAbs []) with 0 in Hb.
    pose proof (sumAbs_nonneg l) as Hnn. pose proof (Qabs_nonneg (Expense.amount e)) as Hae.
    assert (Hwl : wholeAmounts l) by (split; [exact Hl|lra]).
    rewrite fold_left_app. cbn [fold_left tally fst].
    set (acc := fold_left tally l (∅, 0)) in *.
    set (c := Expense.category e).
    assert (Hc : orZero (fst acc !! c) == sumAmounts (ofCategory c l)).
    { subst acc. rewrite tally_category. cbn [fst]. rewrite lookup_empty. cbn [orZero].
      apply addedUp_whole, wholeAmounts_filter, Hwl. }
    assert (Hfl : fl (orZero (fst acc !! c) + Expense.amount e)
                  == orZero (fst acc !! c) + Expense.amount e).
    { apply fl_whole_bounded.
      - destruct (sumAmounts_whole (ofCategory c l)) as [n Hn].
        { apply List.Forall_forall. intros x Hx. apply List.filter_In in Hx as [Hx _].
          rewrite List.Forall_forall in Hl. apply Hl, Hx. }
        destruct Hwe as [m Hm]. exists (n + m)%Z.
        rewrite Hc, Hn, Hm, inject_Z_plus. reflexivity.
      - rewrite Hc. eapply Qle_trans; [apply Qabs_triangle|].
        pose proof (sumAmounts_abs (ofCategory c l)).
        pose proof (sumAbs_filter (fun x => String.eqb (Expense.category x) c) l).
        unfold ofCategory in *. lra. }
    rewrite sumValues_insert, Hfl, <- orZero_default, (IH Hwl), sumAmounts_app,
      sumAmounts_cons, sumAmounts_nil.
    ring.
Qed.

(** ** getBudgetStatus *)

Lemma inPeriod_iff start e :
  inPeriod start e = true <-> exists t, expenseDate e = Some t /\ (start <= t)%Z.
Proof.
  unfold inPeriod, dateGeb. destruct (expenseDate e) as [t|].
  - rewrite Z.leb_le. split; [eauto|]. intros (t' & [= <-] & H). exact H.
  - split; [discriminate|]. intros (t' & [=] & _).
Qed.

Lemma overCategoryLimit_iff totals limits :
  overCategoryLimit totals limits = true <->
  exists c limit, limits !! c = Some limit /\ limit < orZero (totals !! c).
Proof.
  unfold overCategoryLimit. rewrite existsb_exists. split.
  - intros ([c limit] & Hin & Hgt). exists c, limit. split.
    + apply elem_of_map_to_list, list_elem_of_In. exact Hin.
    + apply Qgtb_true in Hgt. exact Hgt.
  - intros (c & limit & Hl & Hgt). exists (c, limit). split.
    + apply list_elem_of_In, elem_of_map_to_list. exact Hl.
    + apply Qgtb_true. exact Hgt.
Qed.

Lemma expenseDate_datedAt e t :
  expenseDate e = Some t <-> datedAt e t /\ (Z.abs t <= JSDate.maxTime)%Z.
Proof.
  assert (Hclip : forall x, JSDate.TimeClip x = Some t <->
                            x = t /\ (Z.abs t <= JSDate.maxTime)%Z).
  { intros x. unfold JSDate.TimeClip.
    destruct (Z.leb_spec (Z.abs x) JSDate.maxTime) as [Hx|Hx].
    - split; [intros [= <-]; auto|intros [-> _]; reflexivity].
    - split; [discriminate|intros [-> Hx']; lia]. }
  assert (Hparse : Date_parse (Expense.date e) ≫= JSDate.TimeClip = Some t <->
                   Date_parse (Expense.date e) = Some t /\ (Z.abs t <= JSDate.maxTime)%Z).
  { destruct (Date_parse (Expense.date e)) as [x|]; cbn.
    - rewrite Hclip. split; [intros [-> Hx]; auto|intros [[= ->] Hx]; auto].
    - split; [discriminate|intros [[=] _]]. }
  unfold expenseDate, datedAt, truthyZ.
  destruct (Expense.timestamp e) as [x|].
  - destruct (Z.eqb_spec x 0) as [->|Hx]; cbn [negb].
    + rewrite Hparse. split.
      * intros [H1 H2]. split; [right; auto|exact H2].
      * intros [[[Hts Hne]|[_ H1]] H2]; [congruence|auto].
    + rewrite Hclip. split.
      * intros [-> Hr]. split; [left; auto|exact Hr].
      * intros [[[Hts _]|[[Hts|Hts] _]] Hr]; [|discriminate|congruence].
        injection Hts as ->. auto.
  - rewrite Hparse. split.
    + intros [H1 H2]. split; [right; auto|exact H2].
    + intros [[[Hts _]|[_ H1]] H2]; [discriminate|auto].
Qed.

Lemma inPeriod_counted start e : inPeriod start e = true <-> countedFrom start e.
Proof.
  rewrite inPeriod_iff. unfold countedFrom. split.
  - intros (t & Ht & Hle). apply expenseDate_datedAt in Ht as [H1 H2]. eauto.
  - intros (t & H1 & H2 & Hle). exists t. split; [|exact Hle].
    apply expenseDate_datedAt. auto.
Qed.

Lemma getBudgetStatus_total b expenses now :
  BudgetStatus.total (getBudgetStatus (Some b) expenses now)
  = addedUp (List.filter (inPeriod (startOfPeriod (Budget.period b) now)) expenses).
Proof.
  cbn [getBudgetStatus BudgetStatus.total]. rewrite tally_total. reflexivity.
Qed.

Lemma getBudgetStatus_category b expenses now c :
  orZero (BudgetStatus.categoryTotals (getBudgetStatus (Some b) expenses now) !! c)
  == addedUp (ofCategory c
       (List.filter (inPeriod (startOfPeriod (Budget.period b) now)) expenses)).
Proof.
  cbn [getBudgetStatus BudgetStatus.categoryTotals]. rewrite tally_category. cbn [fst].
  rewrite lookup_empty. reflexivity.
Qed.

Lemma getBudgetStatus_over b expenses now :
  BudgetStatus.isOverBudget (getBudgetStatus (Some b) expenses now) = true <->
  Budget.amount b < BudgetStatus.total (getBudgetStatus (Some b) expenses now)
  \/ exists c limit,
       limitOf b c = Some limit
       /\ limit < orZero (BudgetStatus.categoryTotals (getBudgetStatus (Some b) expenses now) !! c).
Proof. tidy.
  cbn [getBudgetStatus BudgetStatus.isOverBudget BudgetStatus.total
       BudgetStatus.categoryTotals].
  set (acc := fold_left tally _ _). unfold limitOf.
  destruct (Budget.categoryLimits b) as [limits|].
  - destruct (Qgtb (snd acc) (Budget.amount b)) eqn:E.
    + apply Qgtb_true in E. tauto.
    + rewrite overCategoryLimit_iff. apply Qgtb_false in E. split; [tauto|].
      intros [H|H]; [|exact H]. exfalso. apply (Qlt_not_le _ _ H E).
  - rewrite Qgtb_true. split; [tauto|]. intros [H|(c & l & [=] & _)]. exact H.
Qed.

(** C1, as the code has it.  For a reading [now] of the clock, records
    and a budget with amounts of ordinary size and with category names that
    are not those of members of [Object.prototype]: the period start is
    the start of the current calendar day (daily), of the most recent
    Sunday (weekly), of the first day of the current month (monthly); the
    records counted are exactly those dated, by their timestamp or, where
    that is absent or zero, by what their date text parses as, at an
    instant within the range of [Date] that is not before the period start,
    so that a record with a nonzero timestamp in that range is counted
    exactly when the timestamp is at or after the period start; [total] is
    the amounts of the counted records added in their order, each sum
    rounded to a double, which is their sum when the amounts are whole
    numbers; [remaining] is [max(0, budget.amount - total)], the difference
    rounded likewise; and [isOverBudget] holds exactly when
    [total > budget.amount] or the amounts of the counted records of some
    category, added likewise, exceed the limit configured for it. *)
Theorem budget_status_evaluation (expenses : list Expense.t) (b : Budget.t) (now : Z) :
  clockReading now -> Forall plainRecord expenses -> plainBudget b ->
  let start := startOfPeriod (Budget.period b) now in
  let periodExpenses := List.filter (inPeriod start) expenses in
  let status := getBudgetStatus (Some b) expenses now in
  isPeriodStart (Budget.period b) now start
  /\ (forall e, inPeriod start e = true <-> countedFrom start e)
  /\ (forall e t,
        Expense.timestamp e = Some t -> t <> 0%Z -> (Z.abs t <= JSDate.maxTime)%Z ->
        (In e periodExpenses <-> In e expenses /\ (start <= t)%Z))
  /\ BudgetStatus.total status == addedUp periodExpenses
  /\ (wholeAmounts periodExpenses ->
      BudgetStatus.total status == sumAmounts periodExpenses)
  /\ BudgetStatus.remaining status
     == Qmax 0 (fl (Budget.amount b - BudgetStatus.total status))
  /\ (BudgetStatus.isOverBudget status = true <->
      Budget.amount b < BudgetStatus.total status
      \/ exists c limit,
           limitOf b c = Some limit
           /\ limit < addedUp (ofCategory c periodExpenses)).
Proof.
  intros _ _ _ start periodExpenses status.
  split; [apply startOfPeriod_spec|].
  split; [apply inPeriod_counted|].
  split.
  { intros e t Hts Hne Hrange. subst periodExpenses. rewrite List.filter_In.
    assert (Hin : inPeriod start e = true <-> (start <= t)%Z).
    { rewrite inPeriod_counted. unfold countedFrom, datedAt. split.
      - intros (t' & [[Ht' _]|[[Ht'|Ht'] _]] & _ & Hle); congruence.
      - intros Hle. exists t. auto. }
    rewrite Hin. reflexivity. }
  split; [subst status; rewrite getBudgetStatus_total; reflexivity|].
  split.
  { intros Hw. subst status. rewrite getBudgetStatus_total. apply addedUp_whole, Hw. }
  split.
  - subst status. cbn [getBudgetStatus BudgetStatus.remaining BudgetStatus.total].
    apply Math_max0_Qmax.
  - subst status periodExpenses start. rewrite getBudgetStatus_over.
    split; (intros [H|(c & limit & Hl & Hgt)]; [left; exact H|right]);
      exists c, limit; (split; [exact Hl|]).
    + rewrite <- getBudgetStatus_category. exact Hgt.
    + rewrite getBudgetStatus_category. exact Hgt.
Qed.

(** C10. With no budget configured, [getBudgetStatus] returns the fixed
    status [{total: 0, remaining: 0, categoryTotals: {}, isOverBudget:
    false}] whatever the records and the instant. *)
Theorem budget_status_without_budget (expenses : list Expense.t) (now : Z) :
  getBudgetStatus None expenses now = BudgetStatus.mk 0 0 ∅ false.
Proof. reflexivity. Qed.

(** ** Rounding to two decimals *)

Lemma Math_round_inject_Z n : Math_round (inject_Z n) = n.
Proof.
  unfold Math_round.
  pose proof (Qfloor_le (inject_Z n + (1 # 2))) as Hle.
  pose proof (Qlt_floor (inject_Z n + (1 # 2))) as Hlt.
  set (f := Qfloor (inject_Z n + (1 # 2))) in *.
  unfold Qle, Qlt in *. cbn in *. lia.
Qed.

Lemma Math_round_comp x y : x == y -> Math_round x = Math_round y.
Proof. intros H. unfold Math_round. apply Qfloor_comp. rewrite H. reflexivity. Qed.

Lemma round2_comp x y : x == y -> round2 x == round2 y.
Proof.
  intros H. unfold round2. rewrite (Math_round_comp (x * 100) (y * 100)); [reflexivity|].
  rewrite H. reflexivity.
Qed.

Lemma round2_centPrecise q : centPrecise q -> round2 q == q.
Proof.
  intros [n Hn]. unfold round2.
  rewrite (Math_round_comp (q * 100) (inject_Z n)), Math_round_inject_Z.
  - symmetry. exact Hn.
  - rewrite Hn. field.
Qed.

Lemma round2_nonneg a : 0 <= a -> 0 <= round2 a.
Proof.
  intros Ha. unfold round2, Math_round.
  apply Qle_shift_div_l; [reflexivity|]. rewrite Qmult_0_l.
  change 0 with (inject_Z 0). rewrite <- Zle_Qle.
  change 0%Z with (Qfloor (1 # 2)). apply Qfloor_resp_le.
  assert (0 <= a * 100) by (apply Qmult_le_0_compat; [exact Ha|discriminate]). lra.
Qed.

Lemma centPrecise_0 : centPrecise 0.
Proof. exists 0%Z. reflexivity. Qed.

Lemma centPrecise_plus a b : centPrecise a -> centPrecise b -> centPrecise (a + b).
Proof.
  intros [n Hn] [m Hm]. exists (n + m)%Z. rewrite Hn, Hm, inject_Z_plus. field.
Qed.

Lemma centPrecise_comp a b : a == b -> centPrecise a -> centPrecise b.
Proof. intros H [n Hn]. exists n. rewrite <- H. exact Hn. Qed.

Lemma centPrecise_sumAmounts l :
  Forall (fun e => centPrecise (Expense.amount e)) l -> centPrecise (sumAmounts l).
Proof.
  induction 1 as [|e l He _ IH].
  - apply centPrecise_0.
  - rewrite sumAmounts_cons. apply centPrecise_plus; assumption.
Qed.

Lemma Forall_filter_bool {A} (P : A -> Prop) (f : A -> bool) l :
  Forall P l -> Forall P (List.filter f l).
Proof.
  induction 1 as [|x l Hx _ IH]; cbn; [constructor|].
  destruct (f x); [constructor|]; assumption.
Qed.

(** ** The category breakdown *)

Lemma categoryAmong_single c e :
  categoryAmong [c] e = String.eqb (categoryOrOther e) c.
Proof. unfold categoryAmong. cbn [existsb]. apply orb_false_r. Qed.

Lemma tallyCategory_category l c : forall acc,
  orZero (fold_left tallyCategory l acc !! c)
  == orZero (acc !! c) + sumAmounts (List.filter (categoryAmong [c]) l).
Proof.
  induction l as [|e l IH]; intros acc; cbn [fold_left List.filter].
  - rewrite sumAmounts_nil. ring.
  - rewrite IH, (categoryAmong_single c e). unfold tallyCategory at 1.
    destruct (String.eqb_spec (categoryOrOther e) c) as [->|Hne].
    + rewrite lookup_insert_eq, orZero_Some, sumAmounts_cons. ring.
    + rewrite lookup_insert_ne by exact Hne. ring.
Qed.

Lemma sumAmounts_filter_false l (f : Expense.t -> bool) :
  (forall e, f e = false) -> sumAmounts (List.filter f l) == 0.
Proof.
  intros Hf. induction l as [|e l IH]; cbn [List.filter]; [reflexivity|].
  rewrite Hf. exact IH.
Qed.

Lemma sumAmounts_filter_ext l (f g : Expense.t -> bool) :
  (forall e, f e = g e) -> List.filter f l = List.filter g l.
Proof.
  intros Hfg. induction l as [|e l IH]; cbn [List.filter]; [reflexivity|].
  rewrite Hfg, IH. reflexivity.
Qed.

(** Two predicates that never hold together split a sum. *)
Lemma sumAmounts_filter_disjoint l (f g : Expense.t -> bool) :
  (forall e, f e = true -> g e = true -> False) ->
  sumAmounts (List.filter f l) + sumAmounts (List.filter g l)
  == sumAmounts (List.filter (fun e => f e || g e) l).
Proof.
  intros Hfg. induction l as [|e l IH]; cbn [List.filter].
  - rewrite sumAmounts_nil. ring.
  - destruct (f e) eqn:Ef, (g e) eqn:Eg; cbn [orb]; rewrite ?sumAmounts_cons, <- IH;
      try ring.
    exfalso. eapply Hfg; eassumption.
Qed.

Lemma categoryAmong_In ids e : categoryAmong ids e = true <-> In (categoryOrOther e) ids.
Proof.
  unfold categoryAmong. rewrite existsb_exists. split.
  - intros (c & Hin & Heq). apply String.eqb_eq in Heq. subst. exact Hin.
  - intros Hin. exists (categoryOrOther e). split; [exact Hin|apply String.eqb_refl].
Qed.

(** Over distinct categories, the per-category sums add up to the sum of
    the records that carry one of them. *)
Lemma sum_over_categories ids l :
  List.NoDup ids ->
  sumQ (map (fun c => sumAmounts (List.filter (categoryAmong [c]) l)) ids)
  == sumAmounts (List.filter (categoryAmong ids) l).
Proof.
  induction 1 as [|c ids Hc _ IH]; cbn [map sumQ fold_right].
  - symmetry. apply sumAmounts_filter_false. reflexivity.
  - fold (sumQ (map (fun c => sumAmounts (List.filter (categoryAmong [c]) l)) ids)).
    rewrite IH, sumAmounts_filter_disjoint.
    + erewrite sumAmounts_filter_ext; [reflexivity|].
      intros e. unfold categoryAmong. cbn [existsb]. rewrite orb_false_r. reflexivity.
    + intros e H1 H2. apply categoryAmong_In in H1, H2.
      destruct H1 as [E|[]]. subst c. contradiction.
Qed.

Lemma sumQ_map_ext {A} (f g : A -> Q) l :
  (forall x, f x == g x) -> sumQ (map f l) == sumQ (map g l).
Proof.
  intros Hfg. induction l as [|x l IH]; cbn [map sumQ fold_right]; [reflexivity|].
  fold (sumQ (map f l)). fold (sumQ (map g l)). rewrite Hfg, IH. reflexivity.
Qed.

Lemma categories_NoDup : List.NoDup (map cat_id categories).
Proof.
  cbn. repeat constructor; cbn; intros H;
    repeat (destruct H as [H|H]; [discriminate H|]); exact H.
Qed.

Lemma getTotalSpent_sum l : getTotalSpent l == round2 (sumAmounts l).
Proof.
  unfold getTotalSpent. apply round2_comp. rewrite fold_left_sum. ring.
Qed.

Lemma breakdownTotal_known l :
  Forall (fun e => centPrecise (Expense.amount e)) l ->
  breakdownTotal (getCategoryData l) == getTotalSpent (List.filter knownCategory l).
Proof.
  intros Hcent. unfold breakdownTotal, getCategoryData. rewrite map_map.
  cbn [CategoryDatum.amount].
  rewrite getTotalSpent_sum, round2_centPrecise
    by (apply centPrecise_sumAmounts, Forall_filter_bool, Hcent).
  unfold knownCategory. rewrite <- (sum_over_categories _ l categories_NoDup), map_map.
  apply sumQ_map_ext. intros cat.
  assert (Hc : orZero (fold_left tallyCategory l ∅ !! cat_id cat)
               == sumAmounts (List.filter (categoryAmong [cat_id cat]) l)).
  { rewrite tallyCategory_category, lookup_empty. cbn [orZero]. ring. }
  rewrite (round2_comp _ _ Hc).
  apply round2_centPrecise, centPrecise_sumAmounts, Forall_filter_bool, Hcent.
Qed.

Lemma filter_all_true {A} (f : A -> bool) l :
  Forall (fun x => f x = true) l -> List.filter f l = l.
Proof.
  induction 1 as [|x l Hx _ IH]; cbn; [reflexivity|]. rewrite Hx, IH. reflexivity.
Qed.

Lemma sumAmounts_filter_bounds (f : Expense.t -> bool) l :
  Forall (fun e => 0 <= Expense.amount e) l ->
  0 <= sumAmounts (List.filter f l) <= sumAmounts l.
Proof.
  induction 1 as [|e l He _ IH]; cbn [List.filter].
  - rewrite sumAmounts_nil. split; apply Qle_refl.
  - destruct (f e); rewrite ?sumAmounts_cons; lra.
Qed.

Lemma tallyCategory_sumValues l : forall acc,
  sumValues (fold_left tallyCategory l acc) == sumValues acc + sumAmounts l.
Proof.
  induction l as [|e l IH]; intros acc; cbn [fold_left].
  - rewrite sumAmounts_nil. ring.
  - rewrite IH, sumAmounts_cons. unfold tallyCategory.
    rewrite sumValues_insert, orZero_default. ring.
Qed.

Lemma Math_round_bounds x : 0 <= x <= 100 -> (0 <= Math_round x <= 100)%Z.
Proof.
  intros [H0 H1]. unfold Math_round. split.
  - change 0%Z with (Qfloor (1 # 2)). apply Qfloor_resp_le. lra.
  - change 100%Z with (Qfloor (100 + (1 # 2))). apply Qfloor_resp_le. lra.
Qed.

Lemma whole_centPrecise q : whole q -> centPrecise q.
Proof. intros [n Hn]. exists (n * 100)%Z. rewrite Hn, inject_Z_mult. field. Qed.

Lemma wholeAmounts_centPrecise l :
  wholeAmounts l -> Forall (fun e => centPrecise (Expense.amount e)) l.
Proof.
  intros [Hl _]. eapply List.Forall_impl; [|exact Hl]. intros e. apply whole_centPrecise.
Qed.

(** A list is made of the records that satisfy a predicate and of those
    that do not. *)
Lemma sumAmounts_split (f : Expense.t -> bool) l :
  sumAmounts l
  == sumAmounts (List.filter f l) + sumAmounts (List.filter (fun e => negb (f e)) l).
Proof.
  induction l as [|e l IH]; cbn [List.filter].
  - rewrite sumAmounts_nil. ring.
  - destruct (f e); cbn [negb]; rewrite !sumAmounts_cons, IH; ring.
Qed.

(** C5, as the code has it, for records whose amounts are whole numbers
    (with absolute values that add up to [10^13] at most) and whose
    category names are not those of members of [Object.prototype].  The
    Budget Evaluator's [categoryTotals] add up to its [total].  The
    breakdown of the analytics screen has an entry for each of the six
    known categories only: its amounts add up to the total of the records
    whose category is known, which is the filtered total exactly when the
    amounts of the records of the other categories add up to zero, as they
    do when every category is known. *)
Theorem category_totals_sum_to_total :
  (forall (expenses : list Expense.t) (b : Budget.t) (now : Z),
     clockReading now -> Forall plainRecord expenses -> wholeAmounts expenses ->
     let status := getBudgetStatus (Some b) expenses now in
     sumValues (BudgetStatus.categoryTotals status) == BudgetStatus.total status)
  /\ (forall filtered : list Expense.t,
        Forall plainRecord filtered -> wholeAmounts filtered ->
        breakdownTotal (getCategoryData filtered)
        == getTotalSpent (List.filter knownCategory filtered)
        /\ (breakdownTotal (getCategoryData filtered) == getTotalSpent filtered <->
            sumAmounts (List.filter (fun e => negb (knownCategory e)) filtered) == 0)
        /\ (Forall (fun e => knownCategory e = true) filtered ->
            breakdownTotal (getCategoryData filtered) == getTotalSpent filtered)).
Proof.
  split.
  - intros expenses b now _ _ Hw status. subst status.
    cbn [getBudgetStatus BudgetStatus.categoryTotals BudgetStatus.total].
    set (start := startOfPeriod (Budget.period b) now).
    pose proof (wholeAmounts_filter (inPeriod start) expenses Hw) as Hwp.
    rewrite (tally_sumValues _ Hwp), tally_total. cbn [snd].
    symmetry. apply (addedUp_whole _ Hwp).
  - intros filtered _ Hw.
    pose proof (wholeAmounts_centPrecise filtered Hw) as Hcent.
    pose proof (breakdownTotal_known filtered Hcent) as Hknown.
    assert (Htotal : forall l, Forall (fun e => centPrecise (Expense.amount e)) l ->
                               getTotalSpent l == sumAmounts l).
    { intros l Hl. rewrite getTotalSpent_sum.
      apply round2_centPrecise, centPrecise_sumAmounts, Hl. }
    split; [exact Hknown|]. split.
    + rewrite Hknown, (Htotal filtered Hcent),
        (Htotal _ (Forall_filter_bool _ knownCategory _ Hcent)).
      pose proof (sumAmounts_split knownCategory filtered) as Hsplit.
      split; intros H; lra.
    + intros Hall. rewrite Hknown, (filter_all_true _ _ Hall). reflexivity.
Qed.

(** ** The store operations *)

Lemma find_hasId_None id l :
  find (hasId id) l = None <-> forall e, In e l -> Expense.id e <> id.
Proof.
  split.
  - intros H e Hin Heq. apply (find_none _ _ H) in Hin.
    unfold hasId in Hin. rewrite Heq, String.eqb_refl in Hin. discriminate.
  - intros H. destruct (find (hasId id) l) as [e|] eqn:E; [|reflexivity].
    apply find_some in E as [Hin Hid]. apply String.eqb_eq in Hid.
    exfalso. exact (H e Hin Hid).
Qed.

Lemma find_hasId_Some id l e :
  find (hasId id) l = Some e -> In e l /\ Expense.id e = id.
Proof.
  intros H. apply find_some in H as [Hin Hid]. split; [exact Hin|].
  apply String.eqb_eq. exact Hid.
Qed.

(** C9. [delete(id)] either succeeds, having removed the records with that
    id from the list and written the shorter list to the storage; or it
    fails with the list as it was: with "Expense not found" when no record
    has the id, and, when the storage write rejects, after the list that
    was set optimistically has been set back. *)
Theorem delete_removes_or_restores (st : State) (id : string)
    (io : StorageOp -> option Thrown) :
  let r := deleteExpense st id io in
  let without := List.filter (fun e => negb (String.eqb (Expense.id e) id)) (expenses st) in
  (fst r = Resolved
   /\ (exists e, In e (expenses st) /\ Expense.id e = id)
   /\ expenses (snd r) = without
   /\ (forall e, In e (expenses (snd r)) <-> In e (expenses st) /\ Expense.id e <> id)
   /\ storage (snd r) = <[STORAGE_KEY := JSON_stringify without]> (storage st))
  \/ (fst r = Rejected (JsError "Expense not found")
      /\ (forall e, In e (expenses st) -> Expense.id e <> id)
      /\ expenses (snd r) = expenses st
      /\ storage (snd r) = storage st)
  \/ (fst r = Rejected (JsError "Failed to save changes")
      /\ (exists e, In e (expenses st) /\ Expense.id e = id)
      /\ (exists reason, io (setItem STORAGE_KEY) = Some reason)
      /\ (exists st1, deleteExpense_optimistic st id = inr st1 /\ expenses st1 = without)
      /\ expenses (snd r) = expenses st
      /\ storage (snd r) = storage st).
Proof.
  intros r without.
  assert (Hwithout : forall x, In x without <-> In x (expenses st) /\ Expense.id x <> id).
  { intros x. subst without. rewrite filter_In, negb_true_iff, String.eqb_neq.
    reflexivity. }
  assert (Hdef : without = List.filter (fun e => negb (hasId id e)) (expenses st))
    by reflexivity.
  clearbody without. subst r. unfold deleteExpense, deleteExpense_optimistic.
  rewrite <- Hdef.
  destruct (find (hasId id) (expenses st)) as [e|] eqn:Hfind.
  - apply find_hasId_Some in Hfind. unfold writeExpenses.
    destruct (io (setItem STORAGE_KEY)) as [reason|] eqn:Hio.
    + right; right. cbn. repeat split; eauto.
    + left. cbn. split; [reflexivity|]. split; [eauto|]. split; [reflexivity|].
      split; [exact Hwithout|reflexivity].
  - right; left. pose proof (proj1 (find_hasId_None id _) Hfind) as Hnone.
    cbn. auto.
Qed.

(** When a record has the id and the write goes through, delete resolves
    with the other records. *)
Lemma delete_filter_only st id io :
  (exists e, In e (expenses st) /\ Expense.id e = id) ->
  io (setItem STORAGE_KEY) = None ->
  fst (deleteExpense st id io) = Resolved
  /\ expenses (snd (deleteExpense st id io))
     = List.filter (fun e => negb (hasId id e)) (expenses st).
Proof.
  intros (e & Hin & Hid) Hio. unfold deleteExpense, deleteExpense_optimistic, writeExpenses.
  destruct (find (hasId id) (expenses st)) eqn:Hfind.
  - rewrite Hio. split; reflexivity.
  - exfalso. exact (proj1 (find_hasId_None id _) Hfind e Hin Hid).
Qed.

(** *** Adding and updating *)

Lemma settle_cancel cancelText fallback failure st :
  settle cancelText fallback failure (st, Some (JsError cancelText))
  = (Rejected (JsError cancelText), st).
Proof. unfold settle. cbn. rewrite String.eqb_refl. reflexivity. Qed.

Lemma settle_failure cancelText fallback failure st reason :
  isCancellation cancelText reason = false ->
  settle cancelText fallback failure (st, Some reason)
  = (Rejected reason,
     showAlert (ErrorAlert failure) (setError (Some (messageOr fallback reason)) st)).
Proof. intros H. unfold settle. cbn [snd fst]. rewrite H. reflexivity. Qed.

(** What a [try] body of add or update leaves behind: it never touches the
    records or the storage unless it completes. *)
Lemma confirmThen_commit_cases w answer cancelText io data st :
  let r := confirmThen w answer cancelText (commit io data) st in
  (snd r = None /\ expenses (fst r) = data
   /\ storage (fst r) = <[STORAGE_KEY := JSON_stringify data]> (storage st)
   /\ io (setItem STORAGE_KEY) = None /\ (answer = true \/ w = None))
  \/ (exists reason, snd r = Some reason
      /\ expenses (fst r) = expenses st /\ storage (fst r) = storage st
      /\ error (fst r) = error st
      /\ ((io (setItem STORAGE_KEY) = Some reason /\ (answer = true \/ w = None))
          \/ (reason = JsError cancelText /\ answer = false /\ w <> None))).
Proof.
  unfold confirmThen, commit, writeExpenses.
  destruct w as [w|], answer, (io (setItem STORAGE_KEY)) as [reason|] eqn:Hio; cbn;
    try (left; repeat split; auto; fail);
    right; eexists; repeat split; eauto.
  all: right; repeat split; auto; discriminate.
Qed.

Lemma addExpense_unfold st expense now answer io :
  addExpense st expense now answer io
  = settle "Expense cancelled" "Error adding expense"
      "Failed to add expense. Please try again."
      (confirmThen (addPrompt st expense now) answer "Expense cancelled"
         (commit io (expenses st ++ [recordAdded expense now])) (setError None st)).
Proof. reflexivity. Qed.

Lemma updateExpense_unfold st id expense now answer io :
  updateExpense st id expense now answer io
  = settle "Update cancelled" "Error updating expense"
      "Failed to update expense. Please try again."
      (match find (hasId id) (expenses st) with
       | None => (setError None st, Some (JsError "Expense not found"))
       | Some _ =>
           confirmThen (updatePrompt st id expense now) answer "Update cancelled"
             (commit io (afterUpdate id expense now (expenses st))) (setError None st)
       end).
Proof.
  unfold updateExpense, updatePrompt.
  destruct (find (hasId id) (expenses st)); reflexivity.
Qed.

Lemma updatePrompt_found st id expense now w :
  updatePrompt st id expense now = Some w ->
  exists oldExpense, find (hasId id) (expenses st) = Some oldExpense.
Proof.
  unfold updatePrompt. destruct (find (hasId id) (expenses st)); [eauto|discriminate].
Qed.

(** A resolved add or update has written and set the new list. *)
Lemma settle_resolved cancelText fallback failure r :
  fst (settle cancelText fallback failure r) = Resolved ->
  snd r = None /\ snd (settle cancelText fallback failure r) = fst r.
Proof.
  unfold settle. destruct (snd r) as [e|]; [|auto].
  destruct (isCancellation cancelText e); discriminate.
Qed.

Lemma addExpense_resolved st expense now answer io :
  fst (addExpense st expense now answer io) = Resolved ->
  expenses (snd (addExpense st expense now answer io))
  = expenses st ++ [recordAdded expense now]
  /\ io (setItem STORAGE_KEY) = None.
Proof.
  rewrite addExpense_unfold. intros H. apply settle_resolved in H as [Hnone ->].
  destruct (confirmThen_commit_cases (addPrompt st expense now) answer "Expense cancelled"
              io (expenses st ++ [recordAdded expense now]) (setError None st))
    as [(_ & He & _ & Hio & _)|(reason & Hsome & _)]; [auto|congruence].
Qed.

Lemma updateExpense_resolved st id expense now answer io :
  fst (updateExpense st id expense now answer io) = Resolved ->
  expenses (snd (updateExpense st id expense now answer io))
  = afterUpdate id expense now (expenses st)
  /\ exists oldExpense, find (hasId id) (expenses st) = Some oldExpense.
Proof.
  rewrite updateExpense_unfold. intros H. apply settle_resolved in H as [Hnone ->].
  destruct (find (hasId id) (expenses st)) as [old|]; [|discriminate Hnone].
  destruct (confirmThen_commit_cases (updatePrompt st id expense now) answer
              "Update cancelled" io (afterUpdate id expense now (expenses st))
              (setError None st))
    as [(_ & He & _)|(reason & Hsome & _)]; [eauto|congruence].
Qed.

(** A rejection that is not a cancellation went through the error path. *)
Lemma settle_rejected cancelText fallback failure r reason :
  fst (settle cancelText fallback failure r) = Rejected reason ->
  isCancellation cancelText reason = false ->
  error (snd (settle cancelText fallback failure r)) = Some (messageOr fallback reason)
  /\ alerts (snd (settle cancelText fallback failure r))
     = alerts (fst r) ++ [ErrorAlert failure].
Proof.
  unfold settle. destruct (snd r) as [e|]; [|discriminate].
  destruct (isCancellation cancelText e) eqn:E; cbn; intros [= ->] H.
  - congruence.
  - auto.
Qed.

(** C3. When add or update prompts with a budget warning and the user
    declines, the operation rejects with its cancellation error, the
    records and the storage are what they were, no error is recorded and no
    failure dialog is shown; whereas a rejection for any other reason
    records the error and shows the failure dialog. *)
Theorem declined_confirmation_changes_nothing (st : State) (id : string)
    (expense : Input.t) (now : Z) (io : StorageOp -> option Thrown) :
  (forall w, addPrompt st expense now = Some w ->
     let r := addExpense st expense now false io in
     fst r = Rejected (JsError "Expense cancelled")
     /\ expenses (snd r) = expenses st /\ storage (snd r) = storage st
     /\ error (snd r) = None
     /\ alerts (snd r) = alerts st ++ [BudgetWarning w])
  /\ (forall w, updatePrompt st id expense now = Some w ->
        let r := updateExpense st id expense now false io in
        fst r = Rejected (JsError "Update cancelled")
        /\ expenses (snd r) = expenses st /\ storage (snd r) = storage st
        /\ error (snd r) = None
        /\ alerts (snd r) = alerts st ++ [BudgetWarning w])
  /\ (forall answer reason,
        fst (addExpense st expense now answer io) = Rejected reason ->
        isCancellation "Expense cancelled" reason = false ->
        let r := addExpense st expense now answer io in
        error (snd r) = Some (messageOr "Error adding expense" reason)
        /\ exists shown,
             alerts (snd r) = shown ++ [ErrorAlert "Failed to add expense. Please try again."])
  /\ (forall answer reason,
        fst (updateExpense st id expense now answer io) = Rejected reason ->
        isCancellation "Update cancelled" reason = false ->
        let r := updateExpense st id expense now answer io in
        error (snd r) = Some (messageOr "Error updating expense" reason)
        /\ exists shown,
             alerts (snd r)
             = shown ++ [ErrorAlert "Failed to update expense. Please try again."]).
Proof.
  repeat split.
  1-5: revert H; rewrite addExpense_unfold; intros ->; reflexivity.
  1-5: destruct (updatePrompt_found _ _ _ _ _ H) as [old Hold]; revert H;
       rewrite updateExpense_unfold, Hold; intros ->; reflexivity.
  - rewrite addExpense_unfold in *. eapply settle_rejected; eassumption.
  - rewrite addExpense_unfold in *.
    eexists. eapply settle_rejected; eassumption.
  - rewrite updateExpense_unfold in *. eapply settle_rejected; eassumption.
  - rewrite updateExpense_unfold in *.
    eexists. eapply settle_rejected; eassumption.
Qed.

(** ** The projected status behind the budget warnings *)

Lemma expenseDate_stamped e now :
  clockReading now -> Expense.timestamp e = Some now -> expenseDate e = Some now.
Proof.
  intros [Hpos Hmax] Hts. apply expenseDate_datedAt.
  split; [left; split; [exact Hts|lia]|lia].
Qed.

Lemma inPeriod_stamped p e now :
  clockReading now -> Expense.timestamp e = Some now ->
  inPeriod (startOfPeriod p now) e = true.
Proof.
  intros Hnow Hts. apply inPeriod_iff. exists now. split.
  - apply expenseDate_stamped; assumption.
  - apply startOfPeriod_le_now.
Qed.

Lemma addedUp_snoc l e : addedUp (l ++ [e]) = fl (addedUp l + Expense.amount e).
Proof. unfold addedUp. rewrite addedFrom_app. reflexivity. Qed.

Lemma sumAmounts_singleton e : sumAmounts [e] == Expense.amount e.
Proof. rewrite sumAmounts_cons, sumAmounts_nil. ring.
Qed.

Lemma sumAmounts_filter_cons f e l :
  sumAmounts (List.filter f (e :: l)) == share f e + sumAmounts (List.filter f l).
Proof.
  unfold share. cbn [List.filter]. destruct (f e).
  - rewrite sumAmounts_cons. reflexivity.
  - ring.
Qed.

Lemma sumAmounts_filter_app f l1 l2 :
  sumAmounts (List.filter f (l1 ++ l2))
  == sumAmounts (List.filter f l1) + sumAmounts (List.filter f l2).
Proof. rewrite List.filter_app. apply sumAmounts_app. Qed.

Lemma sumAmounts_filter_middle f l1 x l2 :
  sumAmounts (List.filter f (l1 ++ x :: l2))
  == sumAmounts (List.filter f (l1 ++ l2)) + share f x.
Proof.
  rewrite !sumAmounts_filter_app, sumAmounts_filter_cons. ring.
Qed.

Lemma ofCategory_filter c f l :
  ofCategory c (List.filter f l)
  = List.filter (fun e => f e && String.eqb (Expense.category e) c) l.
Proof.
  unfold ofCategory. induction l as [|e l IH]; cbn [List.filter]; [reflexivity|].
  destruct (f e); cbn [List.filter andb]; rewrite IH; reflexivity.
Qed.

(** Adding a record stamped [now] adds its amount to the total and to its
    category, each sum rounded to a double. *)
Lemma status_after_add b l e now :
  clockReading now -> Expense.timestamp e = Some now ->
  let Cur := getBudgetStatus (Some b) l now in
  let Proj := getBudgetStatus (Some b) (l ++ [e]) now in
  BudgetStatus.total Proj == fl (BudgetStatus.total Cur + Expense.amount e)
  /\ orZero (BudgetStatus.categoryTotals Proj !! Expense.category e)
     == fl (orZero (BudgetStatus.categoryTotals Cur !! Expense.category e) + Expense.amount e).
Proof.
  intros Hnow Hts Cur Proj. subst Cur Proj.
  pose proof (inPeriod_stamped (Budget.period b) e now Hnow Hts) as Hin.
  rewrite !getBudgetStatus_total, !getBudgetStatus_category.
  unfold ofCategory. rewrite !List.filter_app. cbn [List.filter].
  rewrite Hin. cbn [List.filter]. rewrite String.eqb_refl, !addedUp_snoc.
  split; reflexivity.
Qed.

(** A list with exactly one record of a given id, split around it. *)
Lemma split_at_id id l oldExpense :
  find (hasId id) l = Some oldExpense -> List.NoDup (map Expense.id l) ->
  exists l1 l2,
    l = l1 ++ oldExpense :: l2 /\ forall e, In e (l1 ++ l2) -> hasId id e = false.
Proof.
  induction l as [|x l IH]; cbn [find map]; [discriminate|].
  intros Hfind Hnd. inversion Hnd as [|? ? Hx Hnd']; subst.
  destruct (hasId id x) eqn:Hid.
  - injection Hfind as <-. exists [], l. split; [reflexivity|].
    intros e Hin. cbn [app] in Hin. unfold hasId in *. apply String.eqb_eq in Hid.
    apply String.eqb_neq. intros Heq. apply Hx. rewrite Hid, <- Heq.
    apply in_map. exact Hin.
  - destruct (IH Hfind Hnd') as (l1 & l2 & -> & Hrest).
    exists (x :: l1), l2. split; [reflexivity|].
    intros e [<-|Hin]; [exact Hid|apply Hrest, Hin].
Qed.

Lemma afterUpdate_split id expense now l1 oldExpense l2 :
  hasId id oldExpense = true ->
  (forall e, In e (l1 ++ l2) -> hasId id e = false) ->
  afterUpdate id expense now (l1 ++ oldExpense :: l2)
  = l1 ++ recordUpdated id expense now :: l2.
Proof.
  intros Hold Hrest. unfold afterUpdate. rewrite map_app. cbn [map]. rewrite Hold.
  f_equal; [|f_equal].
  - rewrite <- (map_id l1) at 2. apply map_ext_in. intros e Hin.
    rewrite Hrest; [reflexivity|]. apply in_or_app. left. exact Hin.
  - rewrite <- (map_id l2) at 2. apply map_ext_in. intros e Hin.
    rewrite Hrest; [reflexivity|]. apply in_or_app. right. exact Hin.
Qed.

Lemma whole_plus a b : whole a -> whole b -> whole (a + b).
Proof.
  intros [n Hn] [m Hm]. exists (n + m)%Z. rewrite Hn, Hm, inject_Z_plus. reflexivity.
Qed.

Lemma whole_minus a b : whole a -> whole b -> whole (a - b).
Proof.
  intros [n Hn] [m Hm]. exists (n - m)%Z. rewrite Hn, Hm.
  unfold Z.sub. rewrite inject_Z_plus, inject_Z_opp. reflexivity.
Qed.

Lemma whole_comp a b : a == b -> whole a -> whole b.
Proof. intros H [n Hn]. exists n. rewrite <- H. exact Hn. Qed.

Lemma getBudgetStatus_total_whole b l now :
  wholeAmounts l ->
  BudgetStatus.total (getBudgetStatus (Some b) l now)
  == sumAmounts (List.filter (inPeriod (startOfPeriod (Budget.period b) now)) l).
Proof.
  intros Hw. rewrite getBudgetStatus_total. apply addedUp_whole, wholeAmounts_filter, Hw.
Qed.

Lemma getBudgetStatus_category_whole b l now c :
  wholeAmounts l ->
  orZero (BudgetStatus.categoryTotals (getBudgetStatus (Some b) l now) !! c)
  == sumAmounts (ofCategory c
       (List.filter (inPeriod (startOfPeriod (Budget.period b) now)) l)).
Proof.
  intros Hw. rewrite getBudgetStatus_category.
  apply addedUp_whole, wholeAmounts_filter, wholeAmounts_filter, Hw.
Qed.

(** Superseding the one record with id [id], which lay in the period, by a
    record stamped [now], all amounts being whole: the old amount leaves
    the total and the old category, the new amount enters the total and
    the new category; and this is what [updateExpense] projects from the
    current status. *)
Lemma status_after_update b l id expense now oldExpense :
  clockReading now ->
  find (hasId id) l = Some oldExpense -> List.NoDup (map Expense.id l) ->
  inPeriod (startOfPeriod (Budget.period b) now) oldExpense = true ->
  wholeAmounts (recordUpdated id expense now :: l) ->
  let Cur := getBudgetStatus (Some b) l now in
  let Proj := getBudgetStatus (Some b) (afterUpdate id expense now l) now in
  let amountDiff := fl (Input.amount expense - Expense.amount oldExpense) in
  let categoryTotal := orZero (BudgetStatus.categoryTotals Cur !! Input.category expense) in
  amountDiff == Input.amount expense - Expense.amount oldExpense
  /\ fl (BudgetStatus.total Cur + amountDiff) == BudgetStatus.total Proj
  /\ (if String.eqb (Input.category expense) (Expense.category oldExpense)
      then fl (categoryTotal + amountDiff)
      else fl (categoryTotal + Input.amount expense))
     == orZero (BudgetStatus.categoryTotals Proj !! Input.category expense).
Proof.
  intros Hnow Hfind Hnd Hold [Hwl Hwb] Cur Proj amountDiff categoryTotal.
  subst Cur Proj amountDiff categoryTotal.
  inversion Hwl as [|? ? Hwnew Hwl']; subst. rewrite sumAbs_cons in Hwb.
  cbn [recordUpdated Expense.amount] in Hwnew, Hwb.
  pose proof (Qabs_nonneg (Input.amount expense)) as Hnn.
  pose proof (sumAbs_nonneg l) as Hnl.
  assert (Hw : wholeAmounts l) by (split; [exact Hwl'|lra]).
  destruct (split_at_id _ _ _ Hfind Hnd) as (l1 & l2 & -> & Hrest).
  apply find_some in Hfind as [_ Hid].
  rewrite (afterUpdate_split _ _ _ _ _ _ Hid Hrest).
  rewrite sumAbs_app, sumAbs_cons in Hwb.
  pose proof (sumAbs_nonneg l1) as Hn1. pose proof (sumAbs_nonneg l2) as Hn2.
  pose proof (Qabs_nonneg (Expense.amount oldExpense)) as Hno.
  assert (Hwold : whole (Expense.amount oldExpense)).
  { rewrite List.Forall_forall in Hwl'. apply Hwl', in_or_app. right. left. reflexivity. }
  assert (Hw' : wholeAmounts (l1 ++ recordUpdated id expense now :: l2)).
  { split.
    - apply Forall_app in Hwl' as [H1 H2]. inversion H2; subst.
      apply Forall_app. split; [assumption|]. constructor; assumption.
    - rewrite sumAbs_app, sumAbs_cons. cbn [recordUpdated Expense.amount]. lra. }
  assert (Hin : inPeriod (startOfPeriod (Budget.period b) now)
                  (recordUpdated id expense now) = true)
    by (apply inPeriod_stamped; [exact Hnow|reflexivity]).
  set (start := startOfPeriod (Budget.period b) now) in *.
  assert (Hdiff : fl (Input.amount expense - Expense.amount oldExpense)
                  == Input.amount expense - Expense.amount oldExpense).
  { apply fl_whole_bounded; [apply whole_minus; assumption|].
    eapply Qle_trans; [apply Qabs_triangle|]. rewrite Qabs_opp. lra. }
  split; [exact Hdiff|].
  (* the sums over the list after the update, as sums over the list before *)
  assert (Htotal : sumAmounts (List.filter (inPeriod start)
                                 (l1 ++ recordUpdated id expense now :: l2))
                   == sumAmounts (List.filter (inPeriod start) (l1 ++ oldExpense :: l2))
                      + (Input.amount expense - Expense.amount oldExpense)).
  { rewrite !sumAmounts_filter_middle. unfold share. rewrite Hin, Hold.
    cbn [recordUpdated Expense.amount]. ring. }
  set (inC := fun e => inPeriod start e && String.eqb (Expense.category e) (Input.category expense)).
  assert (Hcat : sumAmounts (List.filter inC (l1 ++ recordUpdated id expense now :: l2))
                 == sumAmounts (List.filter inC (l1 ++ oldExpense :: l2))
                    + (if String.eqb (Input.category expense) (Expense.category oldExpense)
                       then Input.amount expense - Expense.amount oldExpense
                       else Input.amount expense)).
  { rewrite !sumAmounts_filter_middle. unfold share, inC. rewrite Hin, Hold.
    cbn [andb recordUpdated Expense.amount Expense.category].
    rewrite String.eqb_refl, (String.eqb_sym (Expense.category oldExpense)).
    destruct (String.eqb (Input.category expense) (Expense.category oldExpense)); ring. }
  pose proof (sumAmounts_whole _ (proj1 (wholeAmounts_filter (inPeriod start) _ Hw'))) as Hwt.
  pose proof (sumAmounts_abs (List.filter (inPeriod start)
                                (l1 ++ recordUpdated id expense now :: l2))) as Hat.
  pose proof (sumAbs_filter (inPeriod start) (l1 ++ recordUpdated id expense now :: l2)) as Hft.
  pose proof (sumAmounts_whole _ (proj1 (wholeAmounts_filter inC _ Hw'))) as Hwc.
  pose proof (sumAmounts_abs (List.filter inC (l1 ++ recordUpdated id expense now :: l2))) as Hac.
  pose proof (sumAbs_filter inC (l1 ++ recordUpdated id expense now :: l2)) as Hfc.
  rewrite sumAbs_app, sumAbs_cons in Hft, Hfc. cbn [recordUpdated Expense.amount] in Hft, Hfc.
  split.
  - rewrite Hdiff, !(getBudgetStatus_total_whole b _ now) by assumption.
    fold start. rewrite Htotal. apply fl_whole_bounded.
    + eapply whole_comp; [exact Htotal|exact Hwt].
    + rewrite <- Htotal. lra.
  - destruct (String.eqb (Input.category expense) (Expense.category oldExpense));
      rewrite ?Hdiff, !(getBudgetStatus_category_whole b _ now) by assumption;
      fold start; rewrite !ofCategory_filter; fold inC; rewrite Hcat;
      (apply fl_whole_bounded;
       [eapply whole_comp; [exact Hcat|exact Hwc]|rewrite <- Hcat; lra]).
Qed.

(** ** When the budget warning is shown *)

Lemma categoryWarning_iff b c categoryTotal :
  categoryWarning b c categoryTotal <> None <->
  exists limit, limitOf b c = Some limit /\ ~ limit == 0 /\ limit < categoryTotal.
Proof.
  unfold categoryWarning. destruct (limitOf b c) as [limit|].
  - destruct (truthyQ limit && Qgtb categoryTotal limit) eqn:E.
    + apply andb_true_iff in E as [Ht Hg].
      apply truthyQ_true in Ht. apply Qgtb_true in Hg.
      split; [eauto|discriminate].
    + split; [congruence|]. intros (l & [= <-] & Ht & Hg).
      apply truthyQ_true in Ht. apply Qgtb_true in Hg.
      rewrite Ht, Hg in E. discriminate.
  - split; [congruence|]. intros (l & [=] & _).
Qed.

Lemma addWarning_iff b Cur expense :
  addWarning (Some b) Cur expense <> None <->
  Budget.amount b < fl (BudgetStatus.total Cur + Input.amount expense)
  \/ exists limit,
       limitOf b (Input.category expense) = Some limit /\ ~ limit == 0
       /\ limit < fl (orZero (BudgetStatus.categoryTotals Cur !! Input.category expense)
                      + Input.amount expense).
Proof.
  unfold addWarning.
  destruct (Qgtb _ (Budget.amount b)) eqn:E.
  - apply Qgtb_true in E. split; [auto|discriminate].
  - apply Qgtb_false in E. rewrite categoryWarning_iff. split; [auto|].
    intros [H|H]; [|exact H]. exfalso. exact (Qlt_not_le _ _ H E).
Qed.

Lemma updateWarning_iff b Cur oldExpense expense :
  updateWarning (Some b) Cur oldExpense expense <> None <->
  let amountDiff := fl (Input.amount expense - Expense.amount oldExpense) in
  let categoryTotal := orZero (BudgetStatus.categoryTotals Cur !! Input.category expense) in
  0 < amountDiff
  /\ (Budget.amount b < fl (BudgetStatus.total Cur + amountDiff)
      \/ exists limit,
           limitOf b (Input.category expense) = Some limit /\ ~ limit == 0
           /\ limit < (if String.eqb (Input.category expense) (Expense.category oldExpense)
                       then fl (categoryTotal + amountDiff)
                       else fl (categoryTotal + Input.amount expense))).
Proof.
  unfold updateWarning. cbv zeta.
  destruct (Qgtb (fl (Input.amount expense - Expense.amount oldExpense)) 0) eqn:Ed.
  - apply Qgtb_true in Ed.
    destruct (Qgtb _ (Budget.amount b)) eqn:E.
    + apply Qgtb_true in E. split; [auto|discriminate].
    + apply Qgtb_false in E. rewrite categoryWarning_iff. split; [auto|].
      intros [_ [H|H]]; [|exact H]. exfalso. exact (Qlt_not_le _ _ H E).
  - apply Qgtb_false in Ed. split; [congruence|]. intros [Hlt _].
    exfalso. exact (Qlt_not_le _ _ Hlt Ed).
Qed.

(** The dialogs an add or update leaves: the warning if there was one,
    then the failure dialog if it failed. *)
Lemma alerts_after cancelText fallback failure w answer text io data st :
  exists tail,
    alerts (snd (settle cancelText fallback failure
                   (confirmThen w answer text (commit io data) st)))
    = alerts st ++ match w with Some w => BudgetWarning w :: tail | None => tail end
    /\ (tail = [] \/ tail = [ErrorAlert failure]).
Proof.
  unfold settle, confirmThen, commit, writeExpenses.
  destruct w as [w|], answer, (io (setItem STORAGE_KEY)) as [reason|];
    cbn [fst snd]; try destruct (isCancellation _ _);
    cbn [fst snd alerts showAlert setError setExpenses setStorage];
    rewrite <- ?app_assoc; cbn [app];
    first [ exists []; split; [rewrite ?app_nil_r; reflexivity|auto]
          | exists [ErrorAlert failure]; split; [reflexivity|auto] ].
Qed.

Lemma prompted_iff st st' w :
  (exists tail,
     alerts st' = alerts st ++ match w with Some w => BudgetWarning w :: tail | None => tail end
     /\ (tail = [] \/ exists message, tail = [ErrorAlert message])) ->
  prompted st st' <-> w <> None.
Proof.
  intros (tail & Halerts & Htail). unfold prompted. split.
  - intros (w' & rest & H) ->. rewrite Halerts in H. apply app_inv_head in H.
    destruct Htail as [->|[m ->]]; discriminate.
  - destruct w as [w|]; [|congruence]. eauto.
Qed.

Lemma prompted_add st expense now answer io :
  prompted st (snd (addExpense st expense now answer io))
  <-> addPrompt st expense now <> None.
Proof.
  apply prompted_iff. rewrite addExpense_unfold.
  destruct (alerts_after "Expense cancelled" "Error adding expense"
              "Failed to add expense. Please try again."
              (addPrompt st expense now) answer "Expense cancelled" io
              (expenses st ++ [recordAdded expense now]) (setError None st))
    as (tail & H & Htail).
  exists tail. split; [exact H|]. destruct Htail; eauto.
Qed.

Lemma prompted_update st id expense now answer io :
  prompted st (snd (updateExpense st id expense now answer io))
  <-> updatePrompt st id expense now <> None.
Proof.
  apply prompted_iff. rewrite updateExpense_unfold.
  destruct (find (hasId id) (expenses st)) as [old|] eqn:Hfind.
  - destruct (alerts_after "Update cancelled" "Error updating expense"
                "Failed to update expense. Please try again."
                (updatePrompt st id expense now) answer "Update cancelled" io
                (afterUpdate id expense now (expenses st)) (setError None st))
      as (tail & H & Htail).
    exists tail. split; [exact H|]. destruct Htail; eauto.
  - unfold updatePrompt. rewrite Hfind. eexists. split; [reflexivity|eauto].
Qed.

(** C2, as the code has it, for a reading [now] of the clock and for
    records, an input and a budget with amounts of ordinary size and with
    category names that are not those of members of [Object.prototype].
    On add, the confirmation is requested exactly when a budget is
    configured and the status recomputed on the records with the new one
    appended has the period total over [budget.amount], or the total of
    the new record's category over a non-zero limit configured for that
    category.  On update it is requested exactly when a budget is
    configured, a record has the id, the new amount less the old one
    (rounded to a double) is positive, and the current period total plus
    that difference is over [budget.amount], or the current total of the
    new record's category, plus the difference when the category is
    unchanged and plus the new amount when it changed, is over a non-zero
    limit configured for that category.  When the amounts are whole
    numbers and the old record is the only one with its id and lies in
    the current period, that projection is the status recomputed on the
    records with the superseding record in place of the old one. *)
Theorem confirmation_requested_iff (st : State) (id : string) (expense : Input.t)
    (now : Z) (answer : bool) (io : StorageOp -> option Thrown) :
  clockReading now -> Forall plainRecord (expenses st) -> plainInput expense ->
  (forall b, budget st = Some b -> plainBudget b) ->
  (prompted st (snd (addExpense st expense now answer io)) <->
   exists b, budget st = Some b /\
     let Proj := getBudgetStatus (Some b) (expenses st ++ [recordAdded expense now]) now in
     overPeriodCap b Proj \/ overNonzeroLimit b Proj (Input.category expense))
  /\ (prompted st (snd (updateExpense st id expense now answer io)) <->
      exists b oldExpense,
        budget st = Some b /\ find (hasId id) (expenses st) = Some oldExpense /\
        let Cur := getBudgetStatus (Some b) (expenses st) now in
        let amountDiff := fl (Input.amount expense - Expense.amount oldExpense) in
        let categoryTotal :=
          orZero (BudgetStatus.categoryTotals Cur !! Input.category expense) in
        0 < amountDiff
        /\ (Budget.amount b < fl (BudgetStatus.total Cur + amountDiff)
            \/ exists limit,
                 limitOf b (Input.category expense) = Some limit /\ ~ limit == 0
                 /\ limit
                    < (if String.eqb (Input.category expense) (Expense.category oldExpense)
                       then fl (categoryTotal + amountDiff)
                       else fl (categoryTotal + Input.amount expense))))
  /\ (forall oldExpense,
        find (hasId id) (expenses st) = Some oldExpense ->
        List.NoDup (map Expense.id (expenses st)) ->
        (forall b, budget st = Some b ->
                   countedFrom (startOfPeriod (Budget.period b) now) oldExpense) ->
        wholeAmounts (recordUpdated id expense now :: expenses st) ->
        (prompted st (snd (updateExpense st id expense now answer io)) <->
         exists b, budget st = Some b /\
           Expense.amount oldExpense < Input.amount expense /\
           let Proj := getBudgetStatus (Some b) (afterUpdate id expense now (expenses st)) now in
           overPeriodCap b Proj \/ overNonzeroLimit b Proj (Input.category expense))).
Proof.
  intros Hnow _ _ _. split; [|split].
  - rewrite prompted_add. unfold addPrompt.
    destruct (budget st) as [b|];
      [|split; [intros H; exfalso; apply H; reflexivity|intros (b & [=] & _)]].
    rewrite addWarning_iff.
    destruct (status_after_add b (expenses st) (recordAdded expense now) now Hnow eq_refl)
      as [Htotal Hcat].
    cbn [recordAdded Expense.amount Expense.category] in Htotal, Hcat.
    unfold overPeriodCap, overNonzeroLimit. split.
    + intros H. exists b. split; [reflexivity|]. cbv zeta. rewrite Htotal.
      destruct H as [H|(limit & Hl & Hnz & Hlt)]; [left; exact H|right].
      exists limit. rewrite Hcat. auto.
    + intros (b' & [= <-] & H). cbv zeta in H. rewrite Htotal in H.
      destruct H as [H|(limit & Hl & Hnz & Hlt)]; [left; exact H|right].
      exists limit. rewrite Hcat in Hlt. auto.
  - rewrite prompted_update. unfold updatePrompt.
    destruct (find (hasId id) (expenses st)) as [oldExpense|];
      [|split; [intros H; exfalso; apply H; reflexivity|intros (b & o & _ & [=] & _)]].
    destruct (budget st) as [b|];
      [|split; [intros H; exfalso; apply H; reflexivity|intros (b & o & [=] & _)]].
    rewrite updateWarning_iff. split.
    + intros H. exists b, oldExpense. auto.
    + intros (b' & o & [= <-] & [= <-] & H). exact H.
  - intros oldExpense Hfind Hnd Hin Hw. rewrite prompted_update. unfold updatePrompt.
    rewrite Hfind.
    destruct (budget st) as [b|];
      [|split; [intros H; exfalso; apply H; reflexivity|intros (b & [=] & _)]].
    rewrite updateWarning_iff.
    destruct (status_after_update b (expenses st) id expense now oldExpense
                Hnow Hfind Hnd (proj2 (inPeriod_counted _ _) (Hin b eq_refl)) Hw)
      as (Hdiff & Htotal & Hcat).
    unfold overPeriodCap, overNonzeroLimit. cbv zeta in *. split.
    + intros [Hlt H]. exists b. split; [reflexivity|]. split; [lra|].
      destruct H as [H|(limit & Hl & Hnz & Hgt)]; [left; rewrite <- Htotal; exact H|right].
      exists limit. rewrite <- Hcat. auto.
    + intros (b' & [= <-] & Hlt & H). split; [lra|].
      destruct H as [H|(limit & Hl & Hnz & Hgt)]; [left; rewrite Htotal; exact H|right].
      exists limit. rewrite Hcat. auto.
Qed.

(** ** Loading *)

Lemma mapM_Some_map {A} (l : list A) : mapM (fun x : option A => x) (map Some l) = Some l.
Proof.
  induction l as [|x l IH]; [reflexivity|]. cbn. rewrite IH. reflexivity.
Qed.

Lemma loadBudget_expenses io storedBudget st :
  expenses (fst (loadBudget io storedBudget st)) = expenses st
  /\ storage (fst (loadBudget io storedBudget st)) !! STORAGE_KEY = storage st !! STORAGE_KEY.
Proof.
  unfold loadBudget, dropKey.
  destruct storedBudget as [text|]; [|auto].
  destruct (truthyS text); [|auto].
  destruct (JSON_parse_budget text) as [[parsed|]|].
  - destruct (sb_amount parsed), (sb_period parsed ≫= periodOfString); auto.
  - destruct (io (removeItem BUDGET_STORAGE_KEY)); [auto|]. cbn. split; [reflexivity|].
    apply lookup_delete_ne. discriminate.
  - destruct (io (removeItem BUDGET_STORAGE_KEY)); [auto|]. cbn. split; [reflexivity|].
    apply lookup_delete_ne. discriminate.
Qed.

(** What load leaves, in terms of what the expenses part leaves. *)
Lemma loadStoredData_expenses st io :
  shouldSaveRef st = false -> readBoth io = None ->
  let r := loadExpenses io (storage st !! STORAGE_KEY) (setError None st) in
  expenses (loadStoredData st io) = expenses (fst r)
  /\ (snd r = None ->
      storage (loadStoredData st io) !! STORAGE_KEY = storage (fst r) !! STORAGE_KEY).
Proof.
  intros Hsave Hread r. unfold loadStoredData. rewrite Hsave, Hread. fold r.
  destruct r as [st1 [e|]]; cbn [fst snd].
  - split; [reflexivity|discriminate].
  - destruct (loadBudget_expenses io (storage st !! BUDGET_STORAGE_KEY) st1) as [H1 H2].
    destruct (loadBudget io (storage st !! BUDGET_STORAGE_KEY) st1) as [st2 [e|]];
      cbn [fst snd] in *; auto.
Qed.

Lemma truthyO_iff s : truthyO s = true <-> exists v, s = Some v /\ v <> "".
Proof.
  unfold truthyO, truthyS. destruct s as [v|].
  - rewrite negb_true_iff, String.eqb_neq. split; [eauto|]. intros (v' & [= <-] & H). exact H.
  - split; [discriminate|]. intros (v' & [=] & _).
Qed.

Lemma truthyText_iff d :
  truthyText d = true <-> d = NotText \/ exists v, d = Text v /\ v <> "".
Proof.
  destruct d as [|v|]; cbn [truthyText].
  - split; [discriminate|]. intros [H|(v & H & _)]; discriminate.
  - unfold truthyS. rewrite negb_true_iff, String.eqb_neq. split.
    + intros H. right. eauto.
    + intros [H|(v' & [= <-] & H)]; [discriminate|exact H].
  - split; auto.
Qed.

Lemma keepStored_iff x :
  keepStored x = true <->
  (exists v, s_id x = Some v /\ v <> "")
  /\ (s_description x = NotText \/ exists v, s_description x = Text v /\ v <> "")
  /\ (exists a, s_amount x = Some a)
  /\ (exists v, s_date x = Some v /\ v <> "").
Proof. tidy.
  unfold keepStored.
  rewrite !andb_true_iff, !truthyO_iff, truthyText_iff, bool_decide_eq_true.
  unfold is_Some. tauto.
Qed.

Lemma normalise_Some x e :
  normalise x = Some e -> exists d, s_description x = Text d.
Proof. unfold normalise. destruct (s_description x); [discriminate|eauto|discriminate]. Qed.

Lemma normalise_None x :
  keepStored x = true -> (normalise x = None <-> s_description x = NotText).
Proof.
  intros Hkeep. apply keepStored_iff in Hkeep as (_ & Hd & _).
  unfold normalise. destruct (s_description x) as [|d|].
  - destruct Hd as [Hd|(v & Hd & _)]; discriminate.
  - split; discriminate.
  - split; reflexivity.
Qed.

(** A well-formed array payload whose kept elements all have a text for
    description loads as those elements, normalised. *)
Lemma load_array st io text objects validated :
  shouldSaveRef st = false -> readBoth io = None ->
  storage st !! STORAGE_KEY = Some text -> text <> "" ->
  JSON_parse_expenses text = Some (ArrayOf (map Some objects)) ->
  mapM normalise (List.filter keepStored objects) = Some validated ->
  expenses (loadStoredData st io) = validated.
Proof.
  intros Hsave Hread Htext Hne Hparse Hvalid.
  destruct (loadStoredData_expenses st io Hsave Hread) as [-> _].
  unfold loadExpenses, truthyS. rewrite Htext.
  destruct (String.eqb_spec text ""); [contradiction|]. cbn [negb].
  rewrite Hparse. unfold validateStored. rewrite mapM_Some_map, Hvalid. reflexivity.
Qed.

(** When the description of a kept element has no [trim], the whole
    payload is dropped. *)
Lemma load_array_thrown st io text objects :
  shouldSaveRef st = false -> readBoth io = None ->
  storage st !! STORAGE_KEY = Some text -> text <> "" ->
  JSON_parse_expenses text = Some (ArrayOf (map Some objects)) ->
  mapM normalise (List.filter keepStored objects) = None ->
  io (removeItem STORAGE_KEY) = None ->
  expenses (loadStoredData st io) = []
  /\ storage (loadStoredData st io) !! STORAGE_KEY = None.
Proof.
  intros Hsave Hread Htext Hne Hparse Hthrown Hremove.
  destruct (loadStoredData_expenses st io Hsave Hread) as [H1 H2].
  revert H1 H2. unfold loadExpenses, truthyS, dropKey. rewrite Htext.
  destruct (String.eqb_spec text ""); [contradiction|]. cbn [negb].
  rewrite Hparse. unfold validateStored. rewrite mapM_Some_map, Hthrown, Hremove.
  cbn [fst snd]. intros -> ->; [|reflexivity].
  split; [reflexivity|]. cbn. apply lookup_delete_eq.
Qed.

(** A payload that parses to something other than an array is left alone:
    nothing is loaded, and the key keeps the payload. *)
Lemma load_not_array st io text :
  shouldSaveRef st = false -> readBoth io = None ->
  storage st !! STORAGE_KEY = Some text -> text <> "" ->
  JSON_parse_expenses text = Some NotAnArray ->
  expenses (loadStoredData st io) = expenses st
  /\ storage (loadStoredData st io) !! STORAGE_KEY = Some text.
Proof.
  intros Hsave Hread Htext Hne Hparse.
  destruct (loadStoredData_expenses st io Hsave Hread) as [H1 H2].
  revert H1 H2. unfold loadExpenses, truthyS. rewrite Htext.
  destruct (String.eqb_spec text ""); [contradiction|]. cbn [negb].
  rewrite Hparse. cbn [fst snd]. intros -> ->; [|reflexivity]. split; [reflexivity|].
  exact Htext.
Qed.

(** A payload that does not parse is dropped: the list is empty and, the
    removal going through, the key is gone. *)
Theorem unparseable_payload_is_dropped (st : State) (io : StorageOp -> option Thrown)
    (text : string) :
  shouldSaveRef st = false -> readBoth io = None ->
  storage st !! STORAGE_KEY = Some text -> text <> "" ->
  JSON_parse_expenses text = None ->
  io (removeItem STORAGE_KEY) = None ->
  expenses (loadStoredData st io) = []
  /\ storage (loadStoredData st io) !! STORAGE_KEY = None.
Proof.
  intros Hsave Hread Htext Hne Hparse Hremove.
  destruct (loadStoredData_expenses st io Hsave Hread) as [H1 H2].
  revert H1 H2. unfold loadExpenses, truthyS, dropKey. rewrite Htext.
  destruct (String.eqb_spec text ""); [contradiction|]. cbn [negb].
  rewrite Hparse, Hremove. cbn [fst snd]. intros -> ->; [|reflexivity].
  split; [reflexivity|]. cbn. apply lookup_delete_eq.
Qed.

(** With the user's consent to any warning, and the storage accepting
    the write, an add goes through. *)
Lemma addExpense_goes_through st expense now io :
  io (setItem STORAGE_KEY) = None ->
  fst (addExpense st expense now true io) = Resolved
  /\ expenses (snd (addExpense st expense now true io))
     = expenses st ++ [recordAdded expense now].
Proof.
  intros Hio. rewrite addExpense_unfold.
  destruct (confirmThen_commit_cases (addPrompt st expense now) true "Expense cancelled"
              io (expenses st ++ [recordAdded expense now]) (setError None st))
    as [(Hnone & He & _)|(reason & _ & _ & _ & _ & [[H _]|(_ & H & _)])];
    [|congruence|discriminate].
  unfold settle. rewrite Hnone. auto.
Qed.

Lemma updateExpense_goes_through st id expense now io oldExpense :
  find (hasId id) (expenses st) = Some oldExpense ->
  io (setItem STORAGE_KEY) = None ->
  fst (updateExpense st id expense now true io) = Resolved
  /\ expenses (snd (updateExpense st id expense now true io))
     = afterUpdate id expense now (expenses st).
Proof.
  intros Hfind Hio. rewrite updateExpense_unfold, Hfind.
  destruct (confirmThen_commit_cases (updatePrompt st id expense now) true
              "Update cancelled" io (afterUpdate id expense now (expenses st))
              (setError None st))
    as [(Hnone & He & _)|(reason & _ & _ & _ & _ & [[H _]|(_ & H & _)])];
    [|congruence|discriminate].
  unfold settle. rewrite Hnone. auto.
Qed.

Lemma round2_small a : 0 <= a -> a <= 1 # 250 -> round2 a == 0.
Proof.
  intros H0 H1. unfold round2, Math_round.
  assert (Hf : Qfloor (a * 100 + (1 # 2)) = 0%Z).
  { pose proof (Qfloor_le (a * 100 + (1 # 2))) as Hle.
    pose proof (Qlt_floor (a * 100 + (1 # 2))) as Hlt.
    set (f := Qfloor (a * 100 + (1 # 2))) in *.
    assert (Hlo : inject_Z f < inject_Z 1) by (change (inject_Z 1) with 1; lra).
    assert (Hhi : inject_Z (-1) < inject_Z f).
    { change (inject_Z (-1)) with (-(1)).
      rewrite inject_Z_plus in Hlt. change (inject_Z 1) with 1 in Hlt. lra. }
    rewrite <- Zlt_Qlt in Hlo, Hhi. lia. }
  rewrite Hf. reflexivity.
Qed.

Lemma In_afterUpdate id expense now l oldExpense :
  find (hasId id) l = Some oldExpense ->
  In (recordUpdated id expense now) (afterUpdate id expense now l).
Proof.
  intros Hfind. apply find_some in Hfind as [Hin Hid].
  unfold afterUpdate. apply in_map_iff. exists oldExpense. rewrite Hid. auto.
Qed.


(** ** The week filter and the week chart *)

Open Scope Z_scope.

Lemma setHours0_eq x : setHours0 tz x = localDay x * msPerDay - tz.
Proof. unfold setHours0, localDay, UTC, MakeDate. lia. Qed.

Lemma before_startOfDay t day : localDay t < localDay day -> t < setHours0 tz day.
Proof.
  intros H. rewrite setHours0_eq.
  pose proof (Day_TimeWithinDay (LocalTime tz t)) as [H1 H2].
  unfold localDay, LocalTime, msPerDay in *. nia.
Qed.

(** The week filter keeps the records of eight calendar days: today and
    the seven days before it. *)
Lemma week_filter_window now e startDate endDate :
  selects f_week startDate endDate (setHours0 tz now) e = true <->
  exists t, expenseDate e = Some t /\ localDay now - 7 <= localDay t <= localDay now.
Proof.
  unfold selects. rewrite setDate_shift.
  destruct (expenseDate e) as [t|]; cbn [fmap option_fmap option_map dateGeb dateLeb].
  - rewrite andb_true_iff, !Z.leb_le, !setHours0_eq.
    unfold msPerDay. split.
    + intros [H1 H2]. exists t. split; [reflexivity|]. lia.
    + intros (t' & [= <-] & H). lia.
  - split; [discriminate|]. intros (t' & [=] & _).
Qed.

(** The week chart has a bucket for each of seven calendar days: today
    and the six days before it. *)
Lemma week_chart_days now :
  chartDays f_week None None (setHours0 tz now)
  = map (fun i => setHours0 tz now + (Z.of_nat i - 6) * msPerDay) (seq 0 7).
Proof.
  unfold chartDays, daysFrom. apply map_ext. intros i.
  rewrite !setDate_shift. lia.
Qed.

Open Scope Q_scope.

Lemma round2_0 : round2 0 == 0.
Proof. reflexivity. Qed.

(** C6, where the code departs from it.  A record dated seven calendar
    days before today passes the week filter, and none of the seven
    buckets of the week chart counts it: all of them are zero. *)
Theorem week_filter_outruns_week_chart (now t : Z) (e : Expense.t) :
  expenseDate e = Some t -> (localDay t = localDay now - 7)%Z ->
  let selected := filterExpenses f_week None None now [e] in
  selected = [e]
  /\ length (getChartData selected f_week None None now) = 7%nat
  /\ Forall (fun q => q == 0) (getChartData selected f_week None None now).
Proof.
  intros Ht Hday selected.
  assert (Hsel : selected = [e]).
  { subst selected. unfold filterExpenses. cbn [List.filter].
    rewrite (proj2 (week_filter_window now e None None)); [reflexivity|].
    exists t. split; [exact Ht|]. lia. }
  rewrite Hsel. unfold getChartData. rewrite week_chart_days, map_map.
  split; [reflexivity|]. split; [reflexivity|].
  apply List.Forall_forall. intros q Hq. apply in_map_iff in Hq as (i & <- & Hi).
  apply in_seq in Hi. unfold dayTotal. cbn [fold_left]. rewrite Ht.
  assert (Hlt : (t < setHours0 tz (setHours0 tz now + (Z.of_nat i - 6) * msPerDay))%Z).
  { apply before_startOfDay. rewrite localDay_shift, setHours0_localDay. lia. }
  unfold dateGeb. destruct (Z.leb_spec (setHours0 tz (setHours0 tz now + (Z.of_nat i - 6) * msPerDay)) t);
    [lia|]. cbn [andb]. apply round2_0.
Qed.

(** ** The advisory tip *)

Lemma head_insertDesc x l :
  head (insertDesc x l)
  = Some (match head l with
          | Some y => if Qgtb (CategoryDatum.amount y) (CategoryDatum.amount x) then y else x
          | None => x
          end).
Proof.
  destruct l as [|y r]; [reflexivity|]. cbn [insertDesc head].
  destruct (Qgtb _ _); reflexivity.
Qed.

Lemma isHighest_singleton x : isHighest [x] x.
Proof.
  exists [], []. split; [reflexivity|]. split; intros y [].
Qed.

Lemma isHighest_bound l top x :
  isHighest l top -> In x l -> CategoryDatum.amount x <= CategoryDatum.amount top.
Proof.
  intros (l1 & l2 & -> & H1 & H2) Hin. apply in_app_or in Hin as [Hin|[<-|Hin]].
  - apply Qlt_le_weak, H1, Hin.
  - apply Qle_refl.
  - apply H2, Hin.
Qed.

(** The head of the sorted list is the first entry with the greatest
    amount. *)
Lemma head_sortDesc l :
  match head (sortDesc l) with
  | Some top => isHighest l top
  | None => l = []
  end.
Proof.
  induction l as [|x l IH]; [reflexivity|].
  change (sortDesc (x :: l)) with (insertDesc x (sortDesc l)).
  rewrite head_insertDesc. destruct (head (sortDesc l)) as [y|].
  - destruct (Qgtb (CategoryDatum.amount y) (CategoryDatum.amount x)) eqn:E.
    + apply Qgtb_true in E. destruct IH as (l1 & l2 & -> & H1 & H2).
      exists (x :: l1), l2. split; [reflexivity|]. split; [|exact H2].
      intros z [<-|Hz]; [exact E|apply H1, Hz].
    + apply Qgtb_false in E. exists [], l. split; [reflexivity|]. split; [intros z []|].
      intros z Hz. eapply Qle_trans; [|exact E]. eapply isHighest_bound; eassumption.
  - subst l. apply isHighest_singleton.
Qed.

Lemma isHighest_unique l t1 t2 : isHighest l t1 -> isHighest l t2 -> t1 = t2.
Proof.
  intros (l1 & l2 & -> & H1 & H2) (l1' & l2' & Heq & H1' & H2').
  revert l1' Heq H1 H1'. induction l1 as [|a l1 IH]; intros [|a' l1'] Heq H1 H1';
    cbn [app] in Heq; injection Heq as Ha Hrest.
  - exact Ha.
  - subst a'. exfalso.
    assert (Hlt : CategoryDatum.amount t1 < CategoryDatum.amount t2)
      by (apply H1'; left; reflexivity).
    assert (Hle : CategoryDatum.amount t2 <= CategoryDatum.amount t1).
    { apply H2. rewrite Hrest. apply in_or_app. right. left. reflexivity. }
    exact (Qlt_not_le _ _ Hlt Hle).
  - subst a. exfalso.
    assert (Hlt : CategoryDatum.amount t2 < CategoryDatum.amount t1)
      by (apply H1; left; reflexivity).
    assert (Hle : CategoryDatum.amount t1 <= CategoryDatum.amount t2).
    { apply H2'. rewrite <- Hrest. apply in_or_app. right. left. reflexivity. }
    exact (Qlt_not_le _ _ Hlt Hle).
  - apply (IH l1' Hrest).
    + intros x Hx. apply H1. right. exact Hx.
    + intros x Hx. apply H1'. right. exact Hx.
Qed.

Lemma xnum_gtb_true x k : xnum_gtb x k = true <-> xnum_gt x k.
Proof. tidy.
  destruct x; cbn; [apply Z.ltb_lt|tauto|split; [discriminate|tauto]].
Qed.

Lemma Qfloor_ge n x : (n <= Qfloor x)%Z <-> inject_Z n <= x.
Proof.
  split.
  - intros H. eapply Qle_trans; [|apply Qfloor_le]. rewrite <- Zle_Qle. exact H.
  - intros H. rewrite <- (Qfloor_Z n). apply Qfloor_resp_le. exact H.
Qed.

Lemma Math_round_mono x y : x <= y -> (Math_round x <= Math_round y)%Z.
Proof. intros H. unfold Math_round. apply Qfloor_resp_le. lra. Qed.

Lemma percentOf_comp x x' s s' : x == x' -> s == s' -> percentOf x s = percentOf x' s'.
Proof.
  intros Hx Hs. unfold percentOf.
  assert (E0 : Qeq_bool s 0 = Qeq_bool s' 0).
  { destruct (Qeq_bool s 0) eqn:E, (Qeq_bool s' 0) eqn:E'; try reflexivity.
    - apply Qeq_bool_iff in E. apply Qeq_bool_neq in E'. rewrite <- Hs in E'. contradiction.
    - apply Qeq_bool_iff in E'. apply Qeq_bool_neq in E. rewrite Hs in E. contradiction. }
  assert (E1 : Qle_bool x 0 = Qle_bool x' 0).
  { destruct (Qle_bool x 0) eqn:E, (Qle_bool x' 0) eqn:E'; try reflexivity.
    - apply Qle_bool_iff in E. rewrite Hx in E. apply Qle_bool_iff in E. congruence.
    - apply Qle_bool_iff in E'. rewrite <- Hx in E'. apply Qle_bool_iff in E'. congruence. }
  rewrite E0, E1. destruct (Qeq_bool s' 0); [reflexivity|].
  f_equal. apply Math_round_comp. rewrite Hx, Hs. reflexivity.
Qed.

(** A rounded percentage is above 50 from a share of 51 % on, and is not
    up to a share of 50 %. *)
Lemma percentage_above_50 v s :
  0 < s -> (51 # 100) * s <= v -> xnum_gt (percentOf v s) 50.
Proof.
  intros Hs Hv. unfold percentOf.
  destruct (Qeq_bool s 0) eqn:E.
  { apply Qeq_bool_iff in E. rewrite E in Hs. discriminate Hs. }
  cbn [xnum_gt].
  assert (Hq : 51 # 100 <= v / s) by (apply Qle_shift_div_l; assumption).
  assert (H51 : (51 <= Math_round (fl (fl (v / s) * 100)))%Z).
  { change 51%Z with (Math_round (fl (fl (51 # 100) * 100))).
    apply Math_round_mono, fl_mono.
    apply Qmult_le_compat_r; [apply fl_mono, Hq|discriminate]. }
  lia.
Qed.

Lemma percentage_to_50 v s :
  0 < s -> v <= (1 # 2) * s -> ~ xnum_gt (percentOf v s) 50.
Proof.
  intros Hs Hv. unfold percentOf.
  destruct (Qeq_bool s 0) eqn:E.
  { apply Qeq_bool_iff in E. rewrite E in Hs. discriminate Hs. }
  cbn [xnum_gt].
  assert (Hq : v / s <= 1 # 2) by (apply Qle_shift_div_r; assumption).
  assert (H50 : (Math_round (fl (fl (v / s) * 100)) <= 50)%Z).
  { change 50%Z with (Math_round (fl (fl (1 # 2) * 100))).
    apply Math_round_mono, fl_mono.
    apply Qmult_le_compat_r; [apply fl_mono, Hq|discriminate]. }
  lia.
Qed.

Lemma highestSpendingCategory_spec data :
  match highestSpendingCategory data with
  | Some top => isHighest (positives data) top
  | None => positives data = []
  end.
Proof. apply head_sortDesc. Qed.

Lemma ruleConcentrated_iff data :
  ruleConcentrated data <->
  exists top, highestSpendingCategory data = Some top
              /\ xnum_gtb (CategoryDatum.percentage top) 50 = true.
Proof.
  pose proof (highestSpendingCategory_spec data) as H. unfold ruleConcentrated. split.
  - intros (top & Htop & Hgt).
    destruct (highestSpendingCategory data) as [top'|].
    + exists top'. rewrite (isHighest_unique _ _ _ H Htop). split; [reflexivity|].
      apply xnum_gtb_true, Hgt.
    + destruct Htop as (l1 & l2 & Heq & _). rewrite H in Heq.
      destruct l1; discriminate Heq.
  - intros (top & Htop & Hgt). rewrite Htop in H. exists top. split; [exact H|].
    apply xnum_gtb_true, Hgt.
Qed.

Lemma ruleHighAverage_iff expenses dateFilter :
  ruleHighAverage expenses dateFilter <->
  match dailyAverage expenses dateFilter with
  | Some avg => Qgtb avg 1000
  | None => false
  end = true.
Proof.
  unfold ruleHighAverage. destruct (dailyAverage expenses dateFilter) as [avg|].
  - rewrite Qgtb_true. split; [intros (a & [= <-] & H); exact H|eauto].
  - split; [intros (a & [=] & _)|discriminate].
Qed.

Lemma recentTrend_average expenses : recentTrend expenses == recentAverage expenses.
Proof.
  unfold recentTrend, recentAverage. cbv zeta.
  destruct (lastThree expenses) as [|e l] eqn:E.
  - reflexivity.
  - cbn [length Nat.ltb Nat.leb]. apply fl_Proper. rewrite fold_left_sum.
    apply Qmult_comp; [ring|reflexivity].
Qed.

Lemma ruleRecentlyHigher_iff expenses dateFilter :
  ruleRecentlyHigher expenses dateFilter <->
  gtNaN (recentTrend expenses)
        ((fun avg => fl (avg * (3 # 2))) <$> dailyAverage expenses dateFilter) = true.
Proof.
  unfold ruleRecentlyHigher. destruct (dailyAverage expenses dateFilter) as [avg|]; cbn.
  - rewrite Qgtb_true, recentTrend_average.
    split; [intros (a & [= <-] & H); exact H|eauto].
  - split; [intros (a & [=] & _)|discriminate].
Qed.

Lemma ruleFewCategories_iff expenses data :
  ruleFewCategories expenses data <->
  (categoryCount data <=? 2)%nat && (5 <? length expenses)%nat = true.
Proof.
  unfold ruleFewCategories, categoryCount, positives.
  rewrite andb_true_iff, Nat.leb_le, Nat.ltb_lt. reflexivity.
Qed.

(** Which rule fires, and with what. *)
Lemma tip_cases expenses data dateFilter :
  expenses <> [] ->
  let tip := getMoneySavingTip expenses data dateFilter in
  (ruleConcentrated data
   /\ exists top, isHighest (positives data) top
        /\ xnum_gt (CategoryDatum.percentage top) 50
        /\ tip = Concentrated (CategoryDatum.name top) (CategoryDatum.percentage top))
  \/ (~ ruleConcentrated data /\
      ((ruleHighAverage expenses dateFilter
        /\ exists avg, dailyAverage expenses dateFilter = Some avg
             /\ tip = HighDailyAverage (Math_round avg))
       \/ (~ ruleHighAverage expenses dateFilter /\
           ((ruleRecentlyHigher expenses dateFilter /\ tip = RecentlyHigher)
            \/ (~ ruleRecentlyHigher expenses dateFilter /\
                ((ruleFewCategories expenses data /\ tip = FewCategories)
                 \/ (~ ruleFewCategories expenses data /\ tip = WellBalanced))))))).
Proof.
  intros Hne tip. subst tip. unfold getMoneySavingTip.
  destruct expenses as [|e0 rest]; [contradiction|]. set (expenses := e0 :: rest) in *.
  rewrite ruleConcentrated_iff, ruleHighAverage_iff, ruleRecentlyHigher_iff,
    ruleFewCategories_iff.
  pose proof (highestSpendingCategory_spec data) as Hspec.
  destruct (highestSpendingCategory data) as [top|] eqn:Htop.
  - destruct (xnum_gtb (CategoryDatum.percentage top) 50) eqn:Hgt.
    + left. split; [eauto|]. exists top. apply xnum_gtb_true in Hgt. auto.
    + right. split; [intros (t & [= <-] & H); congruence|].
      destruct (dailyAverage expenses dateFilter) as [avg|] eqn:Havg; cbn [default].
      * destruct (Qgtb avg 1000); [left; eauto|right; split; [discriminate|]].
        destruct (gtNaN _ _); [left; auto|right; split; [discriminate|]].
        destruct (_ && _); [left; auto|right; auto].
      * right; split; [discriminate|].
        destruct (gtNaN _ _); [left; auto|right; split; [discriminate|]].
        destruct (_ && _); [left; auto|right; auto].
  - right. split; [intros (t & [=] & _)|].
    destruct (dailyAverage expenses dateFilter) as [avg|] eqn:Havg; cbn [default].
    + destruct (Qgtb avg 1000); [left; eauto|right; split; [discriminate|]].
      destruct (gtNaN _ _); [left; auto|right; split; [discriminate|]].
      destruct (_ && _); [left; auto|right; auto].
    + right; split; [discriminate|].
      destruct (gtNaN _ _); [left; auto|right; split; [discriminate|]].
      destruct (_ && _); [left; auto|right; auto].
Qed.

Lemma tip_empty data dateFilter : getMoneySavingTip [] data dateFilter = StartTracking.
Proof. reflexivity. Qed.

Lemma tip_nonempty expenses data dateFilter :
  expenses <> [] -> getMoneySavingTip expenses data dateFilter <> StartTracking.
Proof.
  intros Hne. destruct (tip_cases expenses data dateFilter Hne)
    as [(_ & top & _ & _ & ->)
       |(_ & [(_ & avg & _ & ->)
             |(_ & [(_ & ->)|(_ & [(_ & ->)|(_ & ->)])])])]; discriminate.
Qed.

(** The table, for any breakdown the function is given. *)
Lemma tip_decision_table (expenses : list Expense.t)
    (data : list CategoryDatum.t) (dateFilter : DateFilter) :
  let tip := getMoneySavingTip expenses data dateFilter in
  (tip = StartTracking <-> expenses = [])
  /\ (forall n p,
        tip = Concentrated n p <->
        expenses <> []
        /\ exists top, isHighest (positives data) top
             /\ xnum_gt (CategoryDatum.percentage top) 50
             /\ n = CategoryDatum.name top /\ p = CategoryDatum.percentage top)
  /\ (forall r,
        tip = HighDailyAverage r <->
        expenses <> [] /\ ~ ruleConcentrated data
        /\ exists avg, dailyAverage expenses dateFilter = Some avg
             /\ 1000 < avg /\ r = Math_round avg)
  /\ (tip = RecentlyHigher <->
      expenses <> [] /\ ~ ruleConcentrated data /\ ~ ruleHighAverage expenses dateFilter
      /\ ruleRecentlyHigher expenses dateFilter)
  /\ (tip = FewCategories <->
      expenses <> [] /\ ~ ruleConcentrated data /\ ~ ruleHighAverage expenses dateFilter
      /\ ~ ruleRecentlyHigher expenses dateFilter /\ ruleFewCategories expenses data)
  /\ (tip = WellBalanced <->
      expenses <> [] /\ ~ ruleConcentrated data /\ ~ ruleHighAverage expenses dateFilter
      /\ ~ ruleRecentlyHigher expenses dateFilter /\ ~ ruleFewCategories expenses data).
Proof. tidy.
  intros tip.
  assert (Hempty : tip = StartTracking <-> expenses = []).
  { subst tip. split.
    - intros H. destruct expenses as [|e l]; [reflexivity|].
      exfalso. revert H. apply tip_nonempty. discriminate.
    - intros ->. reflexivity. }
  split; [exact Hempty|].
  destruct expenses as [|e0 rest].
  { subst tip. rewrite tip_empty.
    repeat split; try discriminate;
      try (intros [H _]; contradiction);
      try (intros; exfalso; tauto). }
  set (expenses := e0 :: rest) in *.
  assert (Hne : expenses <> []) by discriminate.
  pose proof (tip_cases expenses data dateFilter Hne) as Hcases.
  fold tip in Hcases. clearbody tip expenses.
  destruct Hcases
    as [(Hc & top & Htop & Hgt & ->)
       |(Hnc & [(Hh & avg & Havg & ->)
               |(Hnh & [(Hr & ->)|(Hnr & [(Hf & ->)|(Hnf & ->)])])])].
  - (* rule 2 *)
    repeat split; try discriminate; try tauto.
    + match goal with H : Concentrated _ _ = Concentrated _ _ |- _ => injection H as <- <- end.
      eauto 8.
    + intros (_ & top' & Htop' & _ & -> & ->).
      rewrite (isHighest_unique _ _ _ Htop' Htop). reflexivity.
  - (* rule 3 *)
    pose proof Hh as (avg' & Havg' & Hgt).
    assert (avg' = avg) by congruence. subst avg'.
    repeat split; try discriminate; try tauto;
      try (intros (_ & top' & Htop' & Hgt' & _); exfalso; apply Hnc; exists top'; auto; fail).
    + match goal with H : HighDailyAverage _ = HighDailyAverage _ |- _ => injection H as <- end.
      eauto.
    + intros (_ & _ & a & Ha & _ & ->). congruence.
  - (* rule 4 *)
    repeat split; try discriminate; try tauto;
      try (intros (_ & top' & Htop' & Hgt' & _); exfalso; apply Hnc; exists top'; auto; fail);
      try (intros (_ & _ & a & Ha & Hgta & _); exfalso; apply Hnh; exists a; auto; fail).
  - (* rule 5 *)
    repeat split; try discriminate; try tauto;
      try (destruct Hf; assumption);
      try (intros (_ & top' & Htop' & Hgt' & _); exfalso; apply Hnc; exists top'; auto; fail);
      try (intros (_ & _ & a & Ha & Hgta & _); exfalso; apply Hnh; exists a; auto; fail).
  - (* rule 6 *)
    repeat split; try discriminate; try tauto;
      try (intros (_ & top' & Htop' & Hgt' & _); exfalso; apply Hnc; exists top'; auto; fail);
      try (intros (_ & _ & a & Ha & Hgta & _); exfalso; apply Hnh; exists a; auto; fail).
Qed.

(** *** The breakdown the tip is computed from *)

Lemma Qgtb_comp a a' b b' : a == a' -> b == b' -> Qgtb a b = Qgtb a' b'.
Proof.
  intros Ha Hb. destruct (Qgtb a' b') eqn:E.
  - apply Qgtb_true. apply Qgtb_true in E. rewrite Ha, Hb. exact E.
  - apply Qgtb_false. apply Qgtb_false in E. rewrite Ha, Hb. exact E.
Qed.

Lemma Forall2_filter_map {A B} (R : A -> B -> Prop) (f : A -> B)
    (g : A -> bool) (h : B -> bool) l :
  (forall x, h (f x) = g x) -> (forall x, g x = true -> R x (f x)) ->
  Forall2 R (List.filter g l) (List.filter h (map f l)).
Proof.
  intros Hh HR. induction l as [|x l IH]; cbn [map List.filter]; [constructor|].
  rewrite Hh. destruct (g x) eqn:E; [constructor; [apply HR, E|exact IH]|exact IH].
Qed.

Lemma Forall2_In_r {A B} (R : A -> B -> Prop) l k y :
  Forall2 R l k -> In y k -> exists x, In x l /\ R x y.
Proof.
  induction 1 as [|x y' l k Hxy _ IH]; intros Hin; [destruct Hin|].
  destruct Hin as [<-|Hin].
  - exists x. split; [left; reflexivity|exact Hxy].
  - destruct (IH Hin) as (x' & Hx' & HR). exists x'. split; [right; exact Hx'|exact HR].
Qed.

Lemma positives_pieData l : positives (pieData l) = pieData l.
Proof.
  unfold positives, pieData. set (f := fun item => Qgtb (CategoryDatum.amount item) 0).
  induction (getCategoryData l) as [|d r IH]; cbn [List.filter]; [reflexivity|].
  destruct (f d) eqn:E; [|exact IH]. cbn [List.filter]. rewrite E, IH. reflexivity.
Qed.

(** Each entry of the pie is a known category on which something was
    spent, with what was spent on it and the rounded percentage of its
    share of the total. *)
Lemma pieData_spec l :
  wholeAmounts l ->
  let spentOn := fun cat => sumAmounts (List.filter (categoryAmong [cat_id cat]) l) in
  Forall2 (fun cat d =>
             CategoryDatum.name d = cat_name cat
             /\ CategoryDatum.amount d == spentOn cat
             /\ CategoryDatum.percentage d = percentOf (spentOn cat) (sumAmounts l))
          (List.filter (fun cat => Qgtb (spentOn cat) 0) categories) (pieData l).
Proof.
  intros Hw spentOn. unfold pieData, getCategoryData.
  set (totals := fold_left tallyCategory l ∅).
  assert (Hc : forall cat, orZero (totals !! cat_id cat) == spentOn cat).
  { intros cat. subst totals spentOn. rewrite tallyCategory_category, lookup_empty.
    cbn [orZero]. ring. }
  assert (Hs : sumValues totals == sumAmounts l).
  { subst totals. rewrite tallyCategory_sumValues, sumValues_empty. ring. }
  assert (Hr : forall cat, round2 (orZero (totals !! cat_id cat)) == spentOn cat).
  { intros cat. rewrite (round2_comp _ _ (Hc cat)).
    apply round2_centPrecise, centPrecise_sumAmounts, Forall_filter_bool,
      wholeAmounts_centPrecise, Hw. }
  apply Forall2_filter_map.
  - intros cat. cbn [CategoryDatum.amount]. apply Qgtb_comp; [apply Hr|reflexivity].
  - intros cat Hpos. cbn [CategoryDatum.name CategoryDatum.amount CategoryDatum.percentage].
    split; [reflexivity|]. split; [apply Hr|].
    apply Qgtb_true in Hpos. specialize (Hc cat).
    destruct (totals !! cat_id cat) as [v|]; [|cbn [orZero] in Hc; lra].
    rewrite orZero_Some in Hc.
    assert (Hv : truthyQ v = true) by (apply truthyQ_true; lra).
    rewrite Hv. apply percentOf_comp; assumption.
Qed.

Lemma dailyAverage_whole l dateFilter :
  wholeAmounts l ->
  dailyAverage l dateFilter
  = (fun days => fl (sumAmounts l / inject_Z days)) <$> totalDays l dateFilter.
Proof.
  intros Hw. unfold dailyAverage.
  destruct (totalDays l dateFilter) as [days|]; [|reflexivity].
  cbn [fmap option_fmap option_map]. f_equal. apply fl_comp.
  rewrite getTotalSpent_sum, round2_centPrecise; [reflexivity|].
  apply centPrecise_sumAmounts, wholeAmounts_centPrecise, Hw.
Qed.


(** ** Further properties of the store and the analytics *)

Lemma round2_is_centPrecise x : centPrecise (round2 x).
Proof. exists (Math_round (x * 100)). reflexivity. Qed.

(** The remaining budget is never negative. *)
Theorem remaining_not_negative (budget : option Budget.t) (expenses : list Expense.t)
    (now : Z) :
  0 <= BudgetStatus.remaining (getBudgetStatus budget expenses now).
Proof.
  destruct budget as [b|]; cbn [getBudgetStatus BudgetStatus.remaining];
    [|apply Qle_refl].
  rewrite Math_max0_Qmax. apply Q.le_max_l.
Qed.

(** The time series has 1 bucket for today, 7 for the week, and 30 for
    the month and for all time. *)
Theorem chart_bucket_counts (expenses : list Expense.t) (now : Z) :
  length (getChartData expenses f_today None None now) = 1%nat
  /\ length (getChartData expenses f_week None None now) = 7%nat
  /\ length (getChartData expenses f_month None None now) = 30%nat
  /\ length (getChartData expenses f_all None None now) = 30%nat.
Proof.
  unfold getChartData, chartDays, daysFrom.
  repeat split; rewrite ?length_map, ?length_seq; reflexivity.
Qed.

(** Creating a record and then deleting it by its id gives back the
    sequence, content and order, when no other record has that id. *)
Theorem create_then_delete_restores (st : State) (expense : Input.t) (now : Z)
    (answer : bool) (io : StorageOp -> option Thrown) :
  (forall e, In e (expenses st) -> Expense.id e <> pretty now) ->
  fst (addExpense st expense now answer io) = Resolved ->
  let r := deleteExpense (snd (addExpense st expense now answer io)) (pretty now) io in
  fst r = Resolved /\ expenses (snd r) = expenses st.
Proof.
  intros Hfresh Hadd r.
  destruct (addExpense_resolved _ _ _ _ _ Hadd) as [Hlist Hio].
  destruct (delete_filter_only (snd (addExpense st expense now answer io)) (pretty now) io)
    as [Hfound Hres]; [|exact Hio|].
  - exists (recordAdded expense now). split; [|reflexivity].
    rewrite Hlist. apply in_or_app. right. left. reflexivity.
  - subst r. split; [exact Hfound|]. rewrite Hres, Hlist.
    assert (Hnew : hasId (pretty now) (recordAdded expense now) = true)
      by apply String.eqb_refl.
    rewrite List.filter_app. cbn [List.filter]. rewrite Hnew. cbn [negb].
    rewrite app_nil_r.
    apply filter_all_true, List.Forall_forall. intros e He.
    apply negb_true_iff, String.eqb_neq, Hfresh, He.
Qed.

(** A successful update keeps every record at its place and every id:
    the records with the given id are superseded by the new record, stamped
    with the current instant, and the others are untouched. *)
Theorem update_replaces_in_place (st : State) (id : string) (expense : Input.t)
    (now : Z) (answer : bool) (io : StorageOp -> option Thrown) :
  fst (updateExpense st id expense now answer io) = Resolved ->
  let after := expenses (snd (updateExpense st id expense now answer io)) in
  map Expense.id after = map Expense.id (expenses st)
  /\ (forall (i : nat) (e : Expense.t),
        expenses st !! i = Some e ->
        after !! i = Some (if String.eqb (Expense.id e) id
                           then recordUpdated id expense now else e))
  /\ exists e, In e after /\ Expense.id e = id /\ Expense.timestamp e = Some now.
Proof.
  intros Hres after. subst after.
  destruct (updateExpense_resolved _ _ _ _ _ _ Hres) as [-> (old & Hfind)].
  unfold afterUpdate. split; [|split].
  - rewrite map_map. apply map_ext_in. intros e _. unfold hasId.
    destruct (String.eqb_spec (Expense.id e) id) as [->|]; reflexivity.
  - intros i e Hi. rewrite list_lookup_fmap, Hi. reflexivity.
  - exists (recordUpdated id expense now). split; [|split; reflexivity].
    apply find_some in Hfind as [Hin Hid]. apply in_map_iff. exists old.
    rewrite Hid. auto.
Qed.

(** ** Clearing the records, saving the budget *)

Open Scope Q_scope.

(** Without a payload under the expenses key, load leaves the list as
    it is. *)
Lemma load_without_payload st io :
  storage st !! STORAGE_KEY = None -> expenses (loadStoredData st io) = expenses st.
Proof.
  intros Hkey. unfold loadStoredData.
  destruct (shouldSaveRef st); [reflexivity|].
  destruct (readBoth io) as [e|]; [reflexivity|].
  rewrite Hkey. cbn [loadExpenses].
  pose proof (loadBudget_expenses io (storage st !! BUDGET_STORAGE_KEY) (setError None st))
    as [H _].
  destruct (loadBudget io (storage st !! BUDGET_STORAGE_KEY) (setError None st))
    as [st2 [e|]]; cbn [fst snd] in *; exact H.
Qed.

(** Clearing is all or nothing.  When the removal goes through, the list
    is empty, the expenses key is gone and the budget is untouched, and a
    provider mounted over that storage loads no record; when it is
    rejected, list and storage are as before, the error is set and the
    failure dialog is shown. *)
Theorem clear_all_is_all_or_nothing (st : State) (io : StorageOp -> option Thrown) :
  let r := clearAllExpenses st io in
  match io (removeItem STORAGE_KEY) with
  | None =>
      fst r = Resolved
      /\ expenses (snd r) = []
      /\ storage (snd r) = delete STORAGE_KEY (storage st)
      /\ budget (snd r) = budget st
      /\ error (snd r) = None
      /\ alerts (snd r) = alerts st
      /\ forall io', expenses (loadStoredData (initialState (storage (snd r))) io') = []
  | Some e =>
      fst r = Rejected e
      /\ expenses (snd r) = expenses st
      /\ storage (snd r) = storage st
      /\ budget (snd r) = budget st
      /\ error (snd r) = Some (messageOr "Error clearing expenses" e)
      /\ alerts (snd r)
         = alerts st ++ [ErrorAlert "Failed to clear expenses. Please try again."]
  end.
Proof.
  intros r. subst r. unfold clearAllExpenses, dropKey.
  destruct (io (removeItem STORAGE_KEY)) as [e|]; cbn -[loadStoredData].
  - repeat split.
  - repeat split. intros io'.
    rewrite load_without_payload; [reflexivity|]. cbn. apply lookup_delete_eq.
Qed.

(** Load hands the stored budget text to its budget part whenever the
    storage calls go through. *)
Lemma loadExpenses_budget io stored st :
  (forall op, io op = None) ->
  snd (loadExpenses io stored st) = None
  /\ budget (fst (loadExpenses io stored st)) = budget st.
Proof.
  intros Hio. unfold loadExpenses, dropKey. rewrite Hio.
  destruct stored as [text|]; [|auto].
  destruct (truthyS text); [|auto].
  destruct (JSON_parse_expenses text) as [[|elems]|]; [auto| |auto].
  destruct (validateStored elems); auto.
Qed.

(** A budget that was saved is the budget after a restart: a provider
    mounted over the storage [setBudget] left loads it back, when the
    storage calls go through and the text written parses to what was
    written. *)
Theorem saved_budget_survives_restart (st : State) (newBudget : Budget.t)
    (io io' : StorageOp -> option Thrown) :
  fst (setBudget st newBudget io) = Resolved ->
  (forall op, io' op = None) ->
  JSON_stringify_budget newBudget <> "" ->
  JSON_parse_budget (JSON_stringify_budget newBudget)
  = Some (Some (asStoredBudget newBudget)) ->
  budget (snd (setBudget st newBudget io)) = Some newBudget
  /\ budget (loadStoredData (initialState (storage (snd (setBudget st newBudget io)))) io')
     = Some newBudget.
Proof.
  intros Hres Hio Hne Hparse. revert Hres. unfold setBudget.
  destruct (io (setItem BUDGET_STORAGE_KEY)) as [e|]; [discriminate|]. intros _.
  cbn [fst snd]. split; [reflexivity|].
  set (disk := storage _).
  assert (Hdisk : disk !! BUDGET_STORAGE_KEY = Some (JSON_stringify_budget newBudget))
    by (subst disk; cbn; apply lookup_insert_eq).
  unfold loadStoredData, readBoth. rewrite !Hio.
  change (shouldSaveRef (initialState disk)) with false.
  change (storage (initialState disk)) with disk. cbv iota. rewrite Hdisk.
  destruct (loadExpenses_budget io' (disk !! STORAGE_KEY)
              (setError None (initialState disk)) Hio) as [H1 H2].
  destruct (loadExpenses io' (disk !! STORAGE_KEY)
              (setError None (initialState disk))) as [st1 r1].
  cbn [fst snd] in H1, H2. subst r1.
  unfold loadBudget, truthyS.
  destruct (String.eqb_spec (JSON_stringify_budget newBudget) ""); [contradiction|].
  cbn [negb]. rewrite Hparse. unfold asStoredBudget. cbn [sb_amount sb_period mbind option_bind].
  assert (Hp : periodOfString (periodName (Budget.period newBudget))
               = Some (Budget.period newBudget))
    by (destruct (Budget.period newBudget); reflexivity).
  rewrite Hp. cbn. destruct newBudget; reflexivity.
Qed.

(** Neither add nor what follows it touches the budget. *)
Lemma addExpense_budget st expense now answer io :
  budget (snd (addExpense st expense now answer io)) = budget st.
Proof.
  rewrite addExpense_unfold. unfold settle, confirmThen, commit, writeExpenses.
  destruct (addPrompt st expense now) as [w|], answer,
    (io (setItem STORAGE_KEY)) as [reason|]; cbn [fst snd];
    try destruct (isCancellation "Expense cancelled" _); reflexivity.
Qed.

(** A record that was added counts.  For a reading [now] of the clock
    and for records, an input and a budget with amounts of ordinary size
    and with category names that are not those of members of
    [Object.prototype]: after a successful add the budget is what it was,
    and the period total of the budget status is the double nearest to
    the total before plus the record's amount, and likewise the total of
    its category; when the amounts are whole numbers they are those sums
    themselves. *)
Theorem added_amount_enters_the_status (st : State) (expense : Input.t) (now : Z)
    (answer : bool) (io : StorageOp -> option Thrown) (b : Budget.t) :
  budget st = Some b -> clockReading now ->
  Forall plainRecord (expenses st) -> plainInput expense -> plainBudget b ->
  fst (addExpense st expense now answer io) = Resolved ->
  let st' := snd (addExpense st expense now answer io) in
  let before := getBudgetStatus (budget st) (expenses st) now in
  let after := getBudgetStatus (budget st') (expenses st') now in
  budget st' = budget st
  /\ BudgetStatus.total after
     == fl (BudgetStatus.total before + Input.amount expense)
  /\ orZero (BudgetStatus.categoryTotals after !! Input.category expense)
     == fl (orZero (BudgetStatus.categoryTotals before !! Input.category expense)
            + Input.amount expense)
  /\ (wholeAmounts (expenses st ++ [recordAdded expense now]) ->
      BudgetStatus.total after == BudgetStatus.total before + Input.amount expense
      /\ orZero (BudgetStatus.categoryTotals after !! Input.category expense)
         == orZero (BudgetStatus.categoryTotals before !! Input.category expense)
            + Input.amount expense).
Proof.
  intros Hb Hnow _ _ _ Hres st' before after.
  destruct (addExpense_resolved _ _ _ _ _ Hres) as [Hlist Hio].
  assert (Hbudget : budget st' = budget st) by apply addExpense_budget.
  split; [exact Hbudget|].
  subst before after. rewrite Hbudget, Hb. subst st'. rewrite Hlist.
  destruct (status_after_add b (expenses st) (recordAdded expense now) now Hnow eq_refl)
    as [Htotal Hcat].
  cbn [recordAdded Expense.amount Expense.category] in Htotal, Hcat.
  split; [exact Htotal|]. split; [exact Hcat|].
  intros Hw.
  assert (Hw0 : wholeAmounts (expenses st)).
  { destruct Hw as [Hall Hsum]. apply Forall_app in Hall as [Hall _].
    rewrite sumAbs_app in Hsum. pose proof (sumAbs_nonneg [recordAdded expense now]).
    split; [exact Hall|lra]. }
  pose proof (inPeriod_stamped (Budget.period b) (recordAdded expense now) now Hnow eq_refl)
    as Hin.
  rewrite !(getBudgetStatus_total_whole b _ now),
    !(getBudgetStatus_category_whole b _ now) by assumption.
  unfold ofCategory. rewrite !List.filter_app. cbn [List.filter]. rewrite Hin.
  cbn [List.filter recordAdded Expense.category]. rewrite String.eqb_refl.
  rewrite !sumAmounts_app, !sumAmounts_cons, !sumAmounts_nil.
  cbn [recordAdded Expense.amount]. split; ring.
Qed.

(** ** The budget settings form *)

Open Scope Q_scope.

Lemma validLimit_positive row q : validLimit row = Some q -> 0 < q.
Proof.
  unfold validLimit. destruct (parseFloat (cl_limit row)) as [x|]; [|discriminate].
  destruct (Qgtb x 0) eqn:E; [|discriminate]. intros [= <-]. apply Qgtb_true, E.
Qed.

(** One turn of the loop of lines 51-56. *)
Lemma collectLimits_snoc rows row :
  collectLimits (rows ++ [row])
  = match validLimit row with
    | Some q => <[cl_category row := q]> (collectLimits rows)
    | None => collectLimits rows
    end.
Proof.
  unfold collectLimits, validLimit. rewrite fold_left_app. cbn [fold_left].
  destruct (parseFloat (cl_limit row)) as [x|]; [|reflexivity].
  destruct (Qgtb x 0); reflexivity.
Qed.

(** The dictionary built from the rows holds, for each category, the
    limit of its last valid row. *)
Lemma collectLimits_lookup rows c : collectLimits rows !! c = limitFor c rows.
Proof.
  induction rows as [|row rows IH] using rev_ind; [reflexivity|].
  rewrite collectLimits_snoc. unfold limitFor in *. rewrite omap_app.
  cbn [omap list_omap].
  destruct (String.eqb_spec (cl_category row) c) as [Heq|Hne].
  - destruct (validLimit row) as [q|].
    + rewrite Heq, lookup_insert_eq. symmetry. apply last_snoc.
    + rewrite app_nil_r. exact IH.
  - rewrite app_nil_r.
    destruct (validLimit row) as [q|]; [rewrite lookup_insert_ne by exact Hne|]; exact IH.
Qed.

Lemma limitFor_positive c rows q : limitFor c rows = Some q -> 0 < q.
Proof.
  unfold limitFor. intros H. apply last_Some_elem_of, list_elem_of_omap in H.
  destruct H as (row & _ & H).
  destruct (String.eqb (cl_category row) c); [|discriminate].
  eapply validLimit_positive, H.
Qed.

(** What the form saves.  An amount that is no number or not above zero
    is turned away and nothing changes.  A budget that is saved has the
    amount of the form, above zero, and its period; it has category limits
    exactly when the switch is on and some row stands for a limit, and then
    each category has the limit of its last valid row, above zero.  When
    the write is rejected, budget and storage stay as they were. *)
Theorem budget_form_saves_positive_caps (st : State) (form : BudgetForm.t)
    (io : StorageOp -> option Thrown) :
  let r := handleSave st form io in
  match fst r with
  | InvalidBudgetAmount =>
      snd r = st
      /\ (parseFloat (BudgetForm.amount form) = None
          \/ exists a, parseFloat (BudgetForm.amount form) = Some a /\ a <= 0)
  | BudgetSettingsSaved =>
      exists b,
        budget (snd r) = Some b
        /\ storage (snd r) !! BUDGET_STORAGE_KEY = Some (JSON_stringify_budget b)
        /\ parseFloat (BudgetForm.amount form) = Some (Budget.amount b)
        /\ 0 < Budget.amount b
        /\ Budget.period b = BudgetForm.period form
        /\ match Budget.categoryLimits b with
           | Some limits =>
               BudgetForm.showCategoryLimits form = true
               /\ limits <> ∅
               /\ forall c,
                    limits !! c = limitFor c (BudgetForm.categoryLimits form)
                    /\ forall q, limits !! c = Some q -> 0 < q
           | None =>
               BudgetForm.showCategoryLimits form = false
               \/ forall c, limitFor c (BudgetForm.categoryLimits form) = None
           end
  | BudgetSaveFailed =>
      budget (snd r) = budget st /\ storage (snd r) = storage st
      /\ expenses (snd r) = expenses st
      /\ exists e, io (setItem BUDGET_STORAGE_KEY) = Some e
                   /\ error (snd r) = Some (messageOr "Error saving budget" e)
  end.
Proof.
  intros r. subst r. unfold handleSave, newBudgetOf.
  destruct (parseFloat (BudgetForm.amount form)) as [a|]; [|cbn; auto].
  destruct (Qle_bool a 0) eqn:Ea.
  { cbn. split; [reflexivity|]. right. exists a. split; [reflexivity|].
    apply Qle_bool_iff, Ea. }
  assert (Hpos : 0 < a).
  { apply Qnot_le_lt. rewrite <- Qle_bool_iff, Ea. discriminate. }
  unfold setBudget. destruct (io (setItem BUDGET_STORAGE_KEY)) as [e|] eqn:Hio.
  { cbn. repeat split. exists e. split; reflexivity. }
  cbn [fst snd]. eexists. split; [reflexivity|]. split; [cbn; apply lookup_insert_eq|].
  cbn [Budget.amount Budget.period Budget.categoryLimits].
  split; [reflexivity|]. split; [exact Hpos|]. split; [reflexivity|].
  destruct (BudgetForm.showCategoryLimits form); [|left; reflexivity].
  destruct (Nat.ltb_spec 0 (size (collectLimits (BudgetForm.categoryLimits form))))
    as [Hsize|Hsize].
  - split; [reflexivity|]. split.
    + intros Hempty. rewrite Hempty, map_size_empty in Hsize. lia.
    + intros c. split; [apply collectLimits_lookup|].
      intros q Hq. rewrite collectLimits_lookup in Hq. eapply limitFor_positive, Hq.
  - right. intros c. rewrite <- collectLimits_lookup.
    assert (Hempty : collectLimits (BudgetForm.categoryLimits form) = ∅)
      by (apply map_size_empty_iff; lia).
    rewrite Hempty. apply lookup_empty.
Qed.

(** *** The rows *)

Lemma filterIndex_delete {A} index (l : list A) : forall i,
  filterIndex (fun j => negb (j =? i + index)%nat) i l = delete index l.
Proof.
  revert index. induction l as [|x l IH]; intros index i; [reflexivity|].
  cbn [filterIndex]. destruct index as [|index].
  - rewrite Nat.add_0_r, Nat.eqb_refl. cbn [negb].
    assert (Hall : forall (r : list A) k, (i < k)%nat ->
              filterIndex (fun j => negb (j =? i)%nat) k r = r).
    { induction r as [|y r IHr]; intros k Hk; [reflexivity|].
      cbn [filterIndex]. destruct (Nat.eqb_spec k i); [lia|]. cbn [negb].
      f_equal. apply IHr. lia. }
    apply Hall. lia.
  - destruct (Nat.eqb_spec i (i + S index)); [lia|]. cbn [negb].
    replace (i + S index)%nat with (S i + index)%nat by lia.
    change (delete (S index) (x :: l)) with (x :: delete index l).
    f_equal. apply IH.
Qed.

(** The rows are edited one at a time.  Removing row [index] takes out
    that row and no other (none past the end); editing row [index] sets
    one field of that row and leaves the others; and removing the row
    that was just appended gives the rows back. *)
Theorem limit_rows_are_edited_one_at_a_time (prev : list CategoryLimit) (index : nat)
    (field : LimitField) (value : string) :
  removeCategoryLimit index prev = delete index prev
  /\ updateCategoryLimit index field value prev = alter (withField field value) index prev
  /\ removeCategoryLimit (length prev) (addCategoryLimit prev) = prev.
Proof.
  assert (Hremove : forall i l, removeCategoryLimit i l = delete i l).
  { intros i l. unfold removeCategoryLimit. apply (filterIndex_delete i l 0%nat). }
  split; [apply Hremove|]. split.
  - unfold updateCategoryLimit. apply list_eq. intros i.
    rewrite list_lookup_imap.
    destruct (Nat.eqb_spec i index) as [->|Hne].
    + rewrite list_lookup_alter_eq. destruct (prev !! index); reflexivity.
    + rewrite list_lookup_alter_ne by auto. destruct (prev !! i); reflexivity.
  - rewrite Hremove. unfold addCategoryLimit.
    rewrite delete_middle. apply app_nil_r.
Qed.

(** *** The progress bar *)

Lemma Math_min_le a b : Math_min a b <= a /\ Math_min a b <= b.
Proof.
  unfold Math_min. destruct (Qle_bool a b) eqn:E.
  - apply Qle_bool_iff in E. split; [apply Qle_refl|exact E].
  - assert (b < a) by (apply Qnot_le_lt; rewrite <- Qle_bool_iff, E; discriminate).
    split; [apply Qlt_le_weak; assumption|apply Qle_refl].
Qed.

Lemma Math_min_full b : Math_min 100 b == 100 <-> 100 <= b.
Proof.
  unfold Math_min. destruct (Qle_bool 100 b) eqn:E.
  - apply Qle_bool_iff in E. split; [intros _; exact E|reflexivity].
  - assert (H : b < 100) by (apply Qnot_le_lt; rewrite <- Qle_bool_iff, E; discriminate).
    split; intros H'; [rewrite H'; apply Qle_refl|].
    exfalso. apply (Qlt_irrefl b). eapply Qlt_le_trans; eassumption.
Qed.

(** Under a budget with an amount above zero, the progress bar never
    passes 100 percent, it is not negative when the total is not, and it
    is full exactly when nothing remains of the budget. *)
Theorem progress_bar_full_iff_nothing_remains (b : Budget.t) (expenses : list Expense.t)
    (now : Z) :
  0 < Budget.amount b ->
  let status := getBudgetStatus (Some b) expenses now in
  progressWidth (Some b) status <= 100
  /\ (0 <= BudgetStatus.total status -> 0 <= progressWidth (Some b) status)
  /\ (progressWidth (Some b) status == 100 <-> BudgetStatus.remaining status == 0).
Proof.
  intros Hpos status. unfold progressWidth.
  assert (Htruthy : truthyQ (Budget.amount b) = true).
  { apply truthyQ_true. intros H. rewrite H in Hpos. discriminate Hpos. }
  rewrite Htruthy.
  set (total := BudgetStatus.total status).
  assert (Hrem : BudgetStatus.remaining status == Qmax 0 (fl (Budget.amount b - total))).
  { subst total status. cbn [getBudgetStatus BudgetStatus.remaining BudgetStatus.total].
    apply Math_max0_Qmax. }
  set (a := Budget.amount b) in *.
  assert (Hsign : fl (a - total) <= 0 <-> a - total <= 0).
  { split; [|apply fl_nonpos]. intros H. apply Qnot_lt_le. intros Hlt.
    apply fl_pos in Hlt. lra. }
  assert (Hne : ~ a == 0) by (intros H; rewrite H in Hpos; discriminate Hpos).
  assert (Hscale : forall x, x / a * 100 - 100 == (x - a) * (100 / a))
    by (intros x; field; exact Hne).
  assert (Hk : 0 < 100 / a) by (apply Qlt_shift_div_l; [exact Hpos|reflexivity]).
  split; [apply Math_min_le|]. split.
  - intros Ht. unfold Math_min. destruct (Qle_bool 100 (total / a * 100)); [discriminate|].
    apply Qmult_le_0_compat; [|discriminate].
    apply Qle_shift_div_l; [exact Hpos|]. rewrite Qmult_0_l. exact Ht.
  - rewrite Math_min_full, Hrem. split.
    + intros H. apply Q.max_l, Hsign.
      assert (H' : 0 <= (total - a) * (100 / a)) by (rewrite <- Hscale; lra).
      assert (0 <= total - a); [|lra].
      apply (Qmult_le_r _ _ (100 / a)); [exact Hk|]. rewrite Qmult_0_l. exact H'.
    + intros H.
      assert (Hle : a - total <= 0) by (apply Hsign; rewrite <- H; apply Q.le_max_r).
      assert (0 <= (total - a) * (100 / a)); [|rewrite <- Hscale in *; lra].
      apply Qmult_le_0_compat; [lra|apply Qlt_le_weak, Hk].
Qed.

(** *** Opening the form on a budget, and saving it again *)

Lemma limitFor_absent c entries :
  c ∉ entries.*1 ->
  omap (fun row => if String.eqb (cl_category row) c then validLimit row else None)
       (map (fun entry : string * Q => mkLimit (fst entry) (Number_toString (snd entry)))
            entries)
  = [].
Proof.
  induction entries as [|[k v] entries IH]; [reflexivity|].
  rewrite fmap_cons, not_elem_of_cons. cbn [fst]. intros [Hne Hrest].
  cbn [map omap list_omap cl_category fst].
  destruct (String.eqb_spec k c) as [->|_]; [contradiction|]. apply IH, Hrest.
Qed.

(** Rows made of the entries of a dictionary of valid limits stand for
    that dictionary. *)
Lemma limitFor_entries c entries :
  Forall (fun entry : string * Q =>
            0 < snd entry /\ parseFloat (Number_toString (snd entry)) = Some (snd entry))
         entries ->
  NoDup entries.*1 ->
  limitFor c (map (fun entry => mkLimit (fst entry) (Number_toString (snd entry))) entries)
  = (list_to_map entries : gmap string Q) !! c.
Proof.
  unfold limitFor. induction 1 as [|[k v] entries [Hpos Hparse] _ IH]; [reflexivity|].
  rewrite fmap_cons, NoDup_cons. cbn [fst snd] in *. intros [Hk Hnodup].
  cbn [map omap list_omap cl_category cl_limit fst snd list_to_map foldr].
  assert (Hvalid : validLimit (mkLimit k (Number_toString v)) = Some v).
  { unfold validLimit. cbn [cl_limit]. rewrite Hparse.
    rewrite (proj2 (Qgtb_true v 0) Hpos). reflexivity. }
  destruct (String.eqb_spec k c) as [->|Hne].
  - rewrite Hvalid, (limitFor_absent c entries Hk), lookup_insert_eq. reflexivity.
  - rewrite lookup_insert_ne by exact Hne. apply IH, Hnodup.
Qed.

(** The form opened on a budget and saved as it is saves that budget:
    when the amount is above zero, the limits, if any, are some and all
    above zero, and each number parses back from its text. *)
Theorem settings_saved_again_are_the_same (st : State) (b : Budget.t)
    (io : StorageOp -> option Thrown) :
  0 < Budget.amount b ->
  parseFloat (Number_toString (Budget.amount b)) = Some (Budget.amount b) ->
  (forall limits, Budget.categoryLimits b = Some limits ->
     limits <> ∅
     /\ Object_entries limits ≡ₚ map_to_list limits
     /\ forall c q, limits !! c = Some q ->
                    0 < q /\ parseFloat (Number_toString q) = Some q) ->
  newBudgetOf (initialBudgetForm (Some b)) = Some b
  /\ (io (setItem BUDGET_STORAGE_KEY) = None ->
      fst (handleSave st (initialBudgetForm (Some b)) io) = BudgetSettingsSaved
      /\ budget (snd (handleSave st (initialBudgetForm (Some b)) io)) = Some b).
Proof.
  intros Hpos Hparse Hlimits.
  assert (Hnew : newBudgetOf (initialBudgetForm (Some b)) = Some b).
  { unfold newBudgetOf, initialBudgetForm.
    cbn [BudgetForm.amount BudgetForm.period BudgetForm.showCategoryLimits
         BudgetForm.categoryLimits mbind option_bind].
    rewrite Hparse.
    destruct (Qle_bool (Budget.amount b) 0) eqn:E.
    { apply Qle_bool_iff in E. exfalso. apply (Qlt_irrefl 0).
      eapply Qlt_le_trans; eassumption. }
    destruct b as [a p [limits|]]; cbn [Budget.amount Budget.period Budget.categoryLimits] in *;
      [|reflexivity].
    destruct (Hlimits limits eq_refl) as (Hne & Hperm & Hvalid).
    rewrite bool_decide_eq_true_2 by eauto.
    assert (Hnodup : NoDup (Object_entries limits).*1).
    { rewrite Hperm. apply NoDup_fst_map_to_list. }
    assert (Hsame : collectLimits
                      (map (fun entry => mkLimit (fst entry) (Number_toString (snd entry)))
                           (Object_entries limits)) = limits).
    { apply map_eq. intros c. rewrite collectLimits_lookup, limitFor_entries.
      - rewrite (list_to_map_proper _ _ Hnodup Hperm), list_to_map_to_list. reflexivity.
      - apply List.Forall_forall. intros [k v] Hin. apply (Hvalid k v).
        apply elem_of_map_to_list. rewrite <- Hperm. apply list_elem_of_In, Hin.
      - exact Hnodup. }
    rewrite Hsame.
    destruct (Nat.ltb_spec 0 (size limits)) as [_|Hsize]; [reflexivity|].
    exfalso. apply Hne, map_size_empty_iff. lia. }
  split; [exact Hnew|]. intros Hio. unfold handleSave, setBudget. rewrite Hnew, Hio.
  split; reflexivity.
Qed.

(** ** The amount field *)

Lemma digit_is_no_dot c : isDigit c = true -> isDot c = false.
Proof.
  unfold isDigit, isDot. rewrite andb_true_iff, !Nat.leb_le, Nat.eqb_neq. lia.
Qed.

(** A text of digits only. *)
Lemma skipDigits_empty_keep s :
  skipDigits s = EmptyString ->
  keepDigitsAndDots s = s /\ beforeDot s = s /\ cutAtSecondDot s = s.
Proof.
  induction s as [|c r IH]; [auto|]. cbn [skipDigits].
  destruct (isDigit c) eqn:Ed; [|discriminate]. intros H.
  destruct (IH H) as (H1 & H2 & H3).
  cbn [keepDigitsAndDots beforeDot cutAtSecondDot].
  rewrite Ed, (digit_is_no_dot c Ed), H1, H2, H3. auto.
Qed.

(** After the first replacement, what comes before a dot is digits. *)
Lemma beforeDot_digits s : skipDigits (beforeDot (keepDigitsAndDots s)) = EmptyString.
Proof.
  induction s as [|c r IH]; [reflexivity|]. cbn [keepDigitsAndDots].
  destruct (isDigit c) eqn:Ed; cbn [orb].
  - cbn [beforeDot]. rewrite (digit_is_no_dot c Ed). cbn [skipDigits]. rewrite Ed. exact IH.
  - destruct (isDot c) eqn:Et; [|exact IH]. cbn [beforeDot]. rewrite Et. reflexivity.
Qed.

Lemma sanitize_shape text : digitsDotDigits (sanitize text) = true.
Proof.
  unfold sanitize. induction text as [|c r IH]; [reflexivity|].
  cbn [keepDigitsAndDots]. destruct (isDigit c) eqn:Ed; cbn [orb].
  - cbn [cutAtSecondDot]. rewrite (digit_is_no_dot c Ed).
    unfold digitsDotDigits in *. cbn [skipDigits]. rewrite Ed. exact IH.
  - destruct (isDot c) eqn:Et; [|exact IH].
    cbn [cutAtSecondDot]. rewrite Et. unfold digitsDotDigits. cbn [skipDigits].
    rewrite Ed, Et, beforeDot_digits. reflexivity.
Qed.

Lemma sanitize_fixes_shape text : digitsDotDigits text = true -> sanitize text = text.
Proof.
  unfold sanitize. induction text as [|c r IH]; [reflexivity|].
  unfold digitsDotDigits in *. cbn [skipDigits keepDigitsAndDots].
  destruct (isDigit c) eqn:Ed; cbn [orb].
  - intros H. cbn [cutAtSecondDot]. rewrite (digit_is_no_dot c Ed), (IH H). reflexivity.
  - destruct (isDot c) eqn:Et.
    + intros H. apply String.eqb_eq, skipDigits_empty_keep in H as (H1 & H2 & _).
      cbn [cutAtSecondDot]. rewrite Et, H1, H2. reflexivity.
    + cbn [skipDigits]. rewrite Ed. discriminate.
Qed.

(** Whatever is typed or pasted, the amount field is set, and to a text
    of digits with at most one dot: the guard of line 438 never turns the
    cleaned text away.  Cleaning a cleaned text changes nothing, and a
    text that has the shape already is taken as it is. *)
Theorem amount_field_keeps_a_decimal_shape (text : string) (form : Form) :
  handleAmountChange text form
  = mkForm (f_description form) (sanitize text) (f_selectedCategory form)
           (f_editingExpense form)
  /\ digitsDotDigits (sanitize text) = true
  /\ sanitize (sanitize text) = sanitize text
  /\ (digitsDotDigits text = true -> sanitize text = text).
Proof.
  pose proof (sanitize_shape text) as Hshape.
  split; [unfold handleAmountChange; rewrite Hshape, orb_true_r; reflexivity|].
  split; [exact Hshape|].
  split; [apply sanitize_fixes_shape, Hshape|apply sanitize_fixes_shape].
Qed.

(** ** The categories of the expense screen *)

Lemma dashRuns_spaceFree s : forall inRun, spaceFree (dashRuns inRun s) = true.
Proof.
  induction s as [|c r IH]; intros inRun; [reflexivity|]. cbn [dashRuns].
  destruct (isSpace c) eqn:Ec.
  - destruct inRun; [apply IH|]. cbn [spaceFree]. rewrite IH. reflexivity.
  - cbn [spaceFree]. rewrite Ec, IH. reflexivity.
Qed.

Lemma formStep_keeps_categories s ev :
  categoriesInOrder s /\ selectionListed s ->
  exists s', formStep s ev = Some s' /\ categoriesInOrder s' /\ selectionListed s'.
Proof.
  intros [Hcats Hsel]. unfold categoriesInOrder, selectionListed in *.
  destruct ev as [text|text|index| |text|icon| | |expense]; cbn [formStep];
    try (eexists; split; [reflexivity|]; split; [exact Hcats|exact Hsel]).
  - destruct (ExpensesScreen.categories s !! index) as [cat|] eqn:Hcat.
    + eexists. split; [reflexivity|]. split; [exact Hcats|].
      cbn [ExpensesScreen.selectedCategory ExpensesScreen.categories].
      eapply list_elem_of_lookup_2, Hcat.
    + eexists. split; [reflexivity|]. split; [exact Hcats|exact Hsel].
  - eexists. split; [reflexivity|]. unfold handleSaveCategory.
    destruct (truthyS (trim (ExpensesScreen.newCategoryName s))) eqn:Hname; cbn [negb fst].
    + cbn [ExpensesScreen.selectedCategory ExpensesScreen.categories]. split.
      * destruct Hcats as (added & -> & Hadded). eexists. rewrite <- app_assoc.
        split; [reflexivity|]. apply Forall_app. split; [exact Hadded|].
        constructor; [|constructor]. cbn [fc_id fc_name].
        split; [apply dashRuns_spaceFree|].
        unfold truthyS in Hname. apply negb_true_iff, String.eqb_neq in Hname. exact Hname.
      * apply elem_of_app. left. exact Hsel.
    + split; [exact Hcats|exact Hsel].
  - unfold handleEdit.
    destruct (find _ (ExpensesScreen.categories s)) as [cat|] eqn:Hfind.
    + eexists. split; [reflexivity|]. split; [exact Hcats|].
      cbn [ExpensesScreen.selectedCategory ExpensesScreen.categories].
      apply find_some in Hfind as [Hin _]. apply list_elem_of_In, Hin.
    + destruct Hcats as (added & Hcats & Hadded). rewrite Hcats.
      eexists. split; [reflexivity|]. split; [eauto|].
      cbn [ExpensesScreen.selectedCategory ExpensesScreen.categories].
      apply elem_of_app. left. apply list_elem_of_here.
Qed.

(** Whatever is typed and pressed, in whatever order, the screen keeps
    a state: its categories are the six it starts with, in their order,
    followed by the added ones, whose ids are free of white space and
    whose names are not empty; and the selected category is one of
    them. *)
Theorem selected_category_is_always_listed (events : list FormEvent) :
  exists s, formAfter events = Some s /\ categoriesInOrder s /\ selectionListed s.
Proof.
  unfold formAfter.
  assert (Hinit : categoriesInOrder initialExpensesScreen
                  /\ selectionListed initialExpensesScreen).
  { split.
    - exists []. split; [reflexivity|constructor].
    - apply list_elem_of_here. }
  revert Hinit. generalize initialExpensesScreen as s.
  induction events as [|ev events IH]; intros s Hs; [eauto|].
  cbn [fold_left mbind option_bind].
  destruct (formStep_keeps_categories s ev Hs) as (s' & -> & Hs'). apply IH, Hs'.
Qed.

(** A record whose category is not one of the form's is edited as
    food: pressing edit fills the form with the record's description and
    amount and selects the first category, and when the form is then
    submitted and the save goes through, a record of that id is in the
    list, and every record of that id in the list has the category
    food. *)
Theorem unlisted_category_is_edited_as_food (s : ExpensesScreen.t) (e : Expense.t)
    (st : State) (now : Z) (answer : bool) (io : StorageOp -> option Thrown) :
  categoriesInOrder s ->
  existsb (fun cat => String.eqb (fc_id cat) (Expense.category e))
          (ExpensesScreen.categories s) = false ->
  exists s',
    handleEdit e s = Some s'
    /\ formOf s'
       = mkForm (Expense.description e) (Number_toString (Expense.amount e)) "food" (Some e)
    /\ (fst (handleSubmit st (formOf s') now answer io) = Saved ->
        let saved := expenses (snd (handleSubmit st (formOf s') now answer io)) in
        (exists r, In r saved /\ Expense.id r = Expense.id e)
        /\ (forall r, In r saved -> Expense.id r = Expense.id e ->
                      Expense.category r = "food")).
Proof.
  intros (added & Hcats & _) Hnone. unfold handleEdit.
  assert (Hfind : find (fun cat => String.eqb (fc_id cat) (Expense.category e))
                       (ExpensesScreen.categories s) = None).
  { destruct (find _ (ExpensesScreen.categories s)) as [cat|] eqn:Hfind; [|reflexivity].
    apply find_some in Hfind as [Hin Heq].
    assert (Hex : existsb (fun cat => String.eqb (fc_id cat) (Expense.category e))
                          (ExpensesScreen.categories s) = true)
      by (apply existsb_exists; eauto).
    congruence. }
  rewrite Hfind, Hcats. eexists. split; [reflexivity|]. split; [reflexivity|].
  unfold formOf, handleSubmit.
  cbn [ExpensesScreen.description ExpensesScreen.amount ExpensesScreen.selectedCategory
       ExpensesScreen.editingExpense f_description f_amount f_selectedCategory
       f_editingExpense fc_id].
  destruct (negb (truthyS (trim (Expense.description e)))); [discriminate|].
  destruct (parseFloat (Number_toString (Expense.amount e))) as [a|]; [|discriminate].
  destruct (Qle_bool a 0); [discriminate|].
  set (input := Input.mk _ _ _ _).
  destruct (fst (updateExpense st (Expense.id e) input now answer io)) eqn:Hres;
    [|discriminate].
  intros _. cbn [snd].
  destruct (updateExpense_resolved _ _ _ _ _ _ Hres) as [-> (old & Hold)].
  cbv zeta. split.
  - exists (recordUpdated (Expense.id e) input now). split; [|reflexivity].
    eapply In_afterUpdate, Hold.
  - intros r Hr Hid. unfold afterUpdate in Hr. apply in_map_iff in Hr as (x & Hx & _).
    destruct (hasId (Expense.id e) x) eqn:Hhas.
    + subst r. reflexivity.
    + subst r. unfold hasId in Hhas. apply String.eqb_neq in Hhas. contradiction.
Qed.

(** ** What the bars of the chart add up to *)

Open Scope Z_scope.

Lemma setHoursEnd_eq x : setHoursEnd tz x = localDay x * msPerDay + (msPerDay - 1) - tz.
Proof. unfold setHoursEnd, localDay, UTC, MakeDate. lia. Qed.

(** An instant lies between the first and the last millisecond of a day
    exactly when it falls on that day. *)
Lemma within_day t day :
  setHours0 tz day <= t <= setHoursEnd tz day <-> localDay t = localDay day.
Proof.
  rewrite setHours0_eq, setHoursEnd_eq.
  pose proof (Day_TimeWithinDay (LocalTime tz t)) as [H1 H2].
  unfold localDay, LocalTime, msPerDay in *. split; intros H; nia.
Qed.

(** A local midnight is its day number, scaled. *)
Lemma startOfDay_eq s : startOfDay s -> s = localDay s * msPerDay - tz.
Proof.
  unfold startOfDay, localDay. intros H.
  pose proof (Day_TimeWithinDay (LocalTime tz s)) as [H1 _].
  unfold LocalTime in *. lia.
Qed.

(** The bucket of [day] holds the dated records that fall on it. *)
Lemma bucket_onDay day e :
  dateGeb (expenseDate e) (setHours0 tz day) && dateLeb (expenseDate e) (setHoursEnd tz day)
  = onDay (localDay day) e.
Proof.
  unfold onDay, dateGeb, dateLeb. destruct (expenseDate e) as [t|]; [|reflexivity].
  pose proof (within_day t day) as H.
  destruct (Z.leb_spec (setHours0 tz day) t), (Z.leb_spec t (setHoursEnd tz day)),
    (Z.eqb_spec (localDay t) (localDay day)); cbn [andb]; try reflexivity; lia.
Qed.

Lemma daysFrom_shift from n :
  daysFrom from n = map (fun i => from + Z.of_nat i * msPerDay) (seq 0 n).
Proof.
  unfold daysFrom. apply map_ext. intros i. rewrite setDate_shift. lia.
Qed.

Open Scope Q_scope.

Lemma sumQ_app l1 l2 : sumQ (l1 ++ l2) == sumQ l1 + sumQ l2.
Proof.
  unfold sumQ. induction l1 as [|x l1 IH]; cbn [app fold_right]; [ring|].
  rewrite IH. ring.
Qed.

(** The conditional sum of lines 81-90 is the sum of the records of
    the bucket. *)
Lemma dayTotal_sum l day :
  dayTotal l day == round2 (sumAmounts (List.filter (onDay (localDay day)) l)).
Proof.
  unfold dayTotal. apply round2_comp.
  assert (H : forall s,
            fold_left
              (fun sum expense =>
                 if dateGeb (expenseDate expense) (setHours0 tz day)
                    && dateLeb (expenseDate expense) (setHoursEnd tz day)
                 then sum + Expense.amount expense else sum) l s
            == s + sumAmounts (List.filter (onDay (localDay day)) l)).
  { induction l as [|e l IH]; intros s; cbn [fold_left List.filter].
    - rewrite sumAmounts_nil. ring.
    - rewrite IH, bucket_onDay. destruct (onDay (localDay day) e).
      + rewrite sumAmounts_cons. ring.
      + reflexivity. }
  rewrite H. ring.
Qed.

(** The bars of [n] consecutive days from [from] on add up to what the
    records dated on those days add up to. *)
Lemma bars_add_up l from n :
  Forall (fun e => centPrecise (Expense.amount e)) l ->
  sumQ (map (dayTotal l) (daysFrom from n))
  == sumAmounts (List.filter (onDays (localDay from) n) l).
Proof.
  intros Hcent. rewrite daysFrom_shift. induction n as [|n IH].
  - cbn [seq map sumQ fold_right]. symmetry. apply sumAmounts_filter_false.
    intros e. unfold onDays. destruct (expenseDate e) as [t|]; [|reflexivity].
    destruct (Z.leb_spec (localDay from) (localDay t)),
      (Z.ltb_spec (localDay t) (localDay from + Z.of_nat 0)); cbn [andb];
      try reflexivity; lia.
  - rewrite seq_S, map_app, map_app, sumQ_app, IH. cbn [map sumQ fold_right plus].
    rewrite dayTotal_sum, localDay_shift, Qplus_0_r.
    rewrite round2_centPrecise
      by (apply centPrecise_sumAmounts, Forall_filter_bool, Hcent).
    rewrite sumAmounts_filter_disjoint.
    + erewrite sumAmounts_filter_ext; [reflexivity|].
      intros e. unfold onDays, onDay. destruct (expenseDate e) as [t|]; [|reflexivity].
      destruct (Z.leb_spec (localDay from) (localDay t)),
        (Z.ltb_spec (localDay t) (localDay from + Z.of_nat n)),
        (Z.eqb_spec (localDay t) (localDay from + Z.of_nat n)),
        (Z.ltb_spec (localDay t) (localDay from + Z.of_nat (S n))); cbn [andb orb];
        try reflexivity; lia.
    + intros e. unfold onDays, onDay. destruct (expenseDate e) as [t|]; [|discriminate].
      rewrite andb_true_iff, Z.leb_le, Z.ltb_lt, Z.eqb_eq. lia.
Qed.

(** What the custom filter selects, between two midnights. *)
Lemma custom_filter_window s e today x :
  startOfDay s -> startOfDay e ->
  selects f_custom (Some s) (Some e) today x = true <->
  exists t, expenseDate x = Some t /\ (localDay s <= localDay t <= localDay e)%Z.
Proof.
  intros Hs He. unfold selects.
  destruct (expenseDate x) as [t|]; cbn [fmap option_fmap option_map dateGeb dateLeb].
  - rewrite andb_true_iff, !Z.leb_le, setHours0_eq.
    pose proof (startOfDay_eq s Hs) as Es. pose proof (startOfDay_eq e He) as Ee.
    unfold msPerDay in *. split.
    + intros [H1 H2]. exists t. split; [reflexivity|]. lia.
    + intros (t' & [= <-] & H). lia.
  - split; [discriminate|]. intros (t' & [=] & _).
Qed.

Lemma Qceiling_days k :
  Qceiling (inject_Z (k * msPerDay) / inject_Z msPerDay) = k.
Proof.
  rewrite (Qceiling_comp _ (inject_Z k)); [apply Qceiling_Z|].
  rewrite inject_Z_mult. change (inject_Z msPerDay) with (86400000 # 1).
  field.
Qed.

Lemma filterExpenses_filter dateFilter startDate endDate now l :
  filterExpenses dateFilter startDate endDate now l
  = List.filter (selects dateFilter startDate endDate (setHours0 tz now)) l.
Proof. destruct l; reflexivity. Qed.


Open Scope Z_scope.

(** A day number has one civil date, and a civil date one day number. *)
Lemma civil_from_days_inj z1 z2 :
  civil_from_days z1 = civil_from_days z2 -> z1 = z2.
Proof. tidy.
  intros H. pose proof (civil_first_of_month z1) as H1.
  pose proof (civil_first_of_month z2) as H2. rewrite H in H1.
  destruct (civil_from_days z2) as [[y m] d].
  destruct H1 as (_ & _ & _ & E1), H2 as (_ & _ & _ & E2). lia.
Qed.

Lemma toDateString_localDay a b :
  toDateString tz a = toDateString tz b -> localDay a = localDay b.
Proof.
  unfold toDateString. rewrite !getMonth_localDay, !getDate_localDay, !getFullYear_localDay.
  generalize (civil_from_days_inj (localDay a) (localDay b)).
  destruct (civil_from_days (localDay a)) as [[y1 m1] d1],
    (civil_from_days (localDay b)) as [[y2 m2] d2]. cbn [fst snd].
  intros Hinj H. apply Hinj. injection H as _ Hm Hd Hy.
  f_equal; [f_equal|]; lia.
Qed.

Open Scope Q_scope.

(** Under the today filter the chart has one bar, and it shows the total:
    the filter keeps the dated records that fall on today's local day,
    which are the records the bar counts. *)
Theorem today_bar_is_the_total (allExpenses : list Expense.t) (now : Z) :
  let filtered := filterExpenses f_today None None now allExpenses in
  (forall x, In x filtered <->
             In x allExpenses
             /\ exists t, expenseDate x = Some t /\ localDay t = localDay now)
  /\ exists bar, getChartData filtered f_today None None now = [bar]
                 /\ bar == getTotalSpent filtered.
Proof.
  intros filtered.
  assert (Hsel : forall x, selects f_today None None (setHours0 tz now) x = true <->
                           exists t, expenseDate x = Some t /\ localDay t = localDay now).
  { intros x. unfold selects.
    destruct (expenseDate x) as [t|]; cbn [fmap option_fmap option_map].
    - rewrite bool_decide_eq_true. split.
      + intros H. apply toDateString_localDay in H.
        rewrite !setHours0_localDay in H. eauto.
      + intros (t' & [= <-] & H). unfold toDateString.
        rewrite !getDay_localDay, !getMonth_localDay, !getDate_localDay,
          !getFullYear_localDay, !setHours0_localDay, H. reflexivity.
    - split; [discriminate|]. intros (t' & [=] & _). }
  split.
  - intros x. subst filtered. rewrite filterExpenses_filter, filter_In, Hsel. reflexivity.
  - eexists. split; [reflexivity|].
    rewrite dayTotal_sum, getTotalSpent_sum. apply round2_comp.
    rewrite filter_all_true; [reflexivity|].
    subst filtered. rewrite filterExpenses_filter.
    apply List.Forall_forall. intros x Hx. apply filter_In in Hx as [_ Hx].
    apply Hsel in Hx as (t & Ht & Hday). unfold onDay. rewrite Ht, setHours0_localDay.
    apply Z.eqb_eq, Hday.
Qed.

(** ** The storage mirrors the list *)

Lemma settle_keeps cancelText fallback failure r :
  expenses (snd (settle cancelText fallback failure r)) = expenses (fst r)
  /\ storage (snd (settle cancelText fallback failure r)) = storage (fst r).
Proof.
  unfold settle. destruct (snd r) as [e|]; [|auto].
  destruct (isCancellation cancelText e); auto.
Qed.

Lemma settled_commit_mirrors w answer cancelText fallback failure io data st0 st :
  expenses st0 = expenses st -> storage st0 = storage st ->
  let r := settle cancelText fallback failure
             (confirmThen w answer cancelText (commit io data) st0) in
  (fst r = Resolved -> mirrored (snd r)) /\ (mirrored st -> mirrored (snd r)).
Proof.
  intros He Hs r. subst r. unfold mirrored.
  destruct (settle_keeps cancelText fallback failure
              (confirmThen w answer cancelText (commit io data) st0)) as [-> ->].
  destruct (confirmThen_commit_cases w answer cancelText io data st0)
    as [(Hnone & Hdata & Hdisk & _)|(reason & Hsome & Hdata & Hdisk & _)].
  - rewrite Hdata, Hdisk, lookup_insert_eq. auto.
  - rewrite Hdata, Hdisk, He, Hs. split; [|auto].
    intros Hres. apply settle_resolved in Hres as [Hnone _]. congruence.
Qed.

(** After an add, an update or a delete that resolves, the storage holds
    the text of the list the provider holds; and when it did before, it
    does after, however the operation ends. *)
Theorem storage_mirrors_the_list (st : State) (id : string) (expense : Input.t)
    (now : Z) (answer : bool) (io : StorageOp -> option Thrown) :
  Forall (fun r : Outcome * State =>
            (fst r = Resolved -> mirrored (snd r)) /\ (mirrored st -> mirrored (snd r)))
         [addExpense st expense now answer io;
          updateExpense st id expense now answer io;
          deleteExpense st id io].
Proof.
  constructor; [|constructor; [|constructor; [|constructor]]].
  - rewrite addExpense_unfold. apply settled_commit_mirrors; reflexivity.
  - rewrite updateExpense_unfold.
    destruct (find (hasId id) (expenses st)) as [old|].
    + apply settled_commit_mirrors; reflexivity.
    + split; [discriminate|]. intros H. exact H.
  - unfold deleteExpense, deleteExpense_optimistic, writeExpenses, mirrored.
    destruct (find (hasId id) (expenses st)) as [e|].
    + destruct (io (setItem STORAGE_KEY)); cbn.
      * split; [discriminate|]. intros H. exact H.
      * split; intros _; apply lookup_insert_eq.
    + split; [discriminate|]. intros H. exact H.
Qed.

(** ** The percentages of the breakdown *)

Open Scope Q_scope.

(** Over records whose amounts are whole numbers that are not negative
    (and add up to [10^13] at most), and whose category names are not
    those of members of [Object.prototype], every percentage of the
    breakdown is a whole number from 0 to 100. *)
Theorem percentages_are_between_0_and_100 (expenses : list Expense.t) :
  Forall plainRecord expenses -> wholeAmounts expenses ->
  Forall (fun e => 0 <= Expense.amount e) expenses ->
  Forall (fun d => exists p, CategoryDatum.percentage d = Fin p /\ (0 <= p <= 100)%Z)
         (getCategoryData expenses).
Proof.
  intros _ _ Hpos. unfold getCategoryData. apply Forall_map, Forall_true. intros cat.
  cbn [CategoryDatum.percentage].
  pose proof (tallyCategory_category expenses (cat_id cat) ∅) as Hc.
  pose proof (tallyCategory_sumValues expenses ∅) as Hs.
  rewrite lookup_empty in Hc. rewrite sumValues_empty in Hs.
  pose proof (sumAmounts_filter_bounds (categoryAmong [cat_id cat]) expenses Hpos) as [Hlo Hhi].
  set (totals := fold_left tallyCategory expenses ∅) in *.
  destruct (totals !! cat_id cat) as [v|]; [|exists 0%Z; split; [reflexivity|lia]].
  rewrite orZero_Some in Hc. cbn [orZero] in Hc.
  destruct (truthyQ v) eqn:Ev; [|exists 0%Z; split; [reflexivity|lia]].
  apply truthyQ_true in Ev.
  assert (Hv : 0 < v <= sumValues totals) by (split; lra).
  set (s := sumValues totals) in *.
  assert (Hsne : ~ s == 0) by lra.
  unfold percentOf. destruct (Qeq_bool s 0) eqn:Es; [apply Qeq_bool_iff in Es; contradiction|].
  eexists. split; [reflexivity|]. apply Math_round_bounds.
  assert (Hq : 0 <= v / s <= 1).
  { split.
    - apply Qle_shift_div_l; lra.
    - apply Qle_shift_div_r; lra. }
  assert (Hf : 0 <= fl (v / s) <= 1).
  { split; [apply fl_nonneg, Hq|]. change 1 with (fl 1). apply fl_mono, Hq. }
  split; [apply fl_nonneg; lra|].
  apply Qle_trans with (fl 100); [apply fl_mono; lra|].
  vm_compute. discriminate.
Qed.

(** ** The custom date range *)

Open Scope Z_scope.

Lemma screenStep_keeps_range sc ev :
  rangeInOrder sc /\ boundsAtMidnight sc ->
  rangeInOrder (screenStep sc ev) /\ boundsAtMidnight (screenStep sc ev).
Proof.
  intros [Hord [Hs He]]. destruct sc as [f s e shown mode].
  unfold rangeInOrder, boundsAtMidnight in *. cbn [Screen.startDate Screen.endDate] in *.
  destruct ev as [p|os date now|]; cbn [screenStep].
  - destruct p; cbn; repeat split; auto; discriminate.
  - unfold handleDateSelect.
    destruct date as [date|]; [|destruct os; cbn; auto].
    assert (Hmid : startOfDay (setHours0 tz date)) by apply setHours0_startOfDay.
    destruct mode;
      cbn [Screen.datePickerMode Screen.startDate Screen.endDate Screen.dateFilter
           Screen.showDatePicker];
      [destruct (afterBound (setHours0 tz date) _) eqn:Hb
      |destruct (beforeBound (setHours0 tz date) _) eqn:Hb];
      try (destruct os; cbn; auto; fail);
      destruct (now <? setHours0 tz date); try (destruct os; cbn; auto; fail).
    + assert (Hle : match e with Some e => setHours0 tz date <= e | None => True end).
      { destruct os, e as [e|]; cbn in Hb; try exact I; apply Z.ltb_ge in Hb; exact Hb. }
      destruct os; cbn; (split; [exact Hle|]); (split; [|exact He]);
        intros s' [= <-]; exact Hmid.
    + assert (Hle : match s with Some s => s <= setHours0 tz date | None => True end).
      { destruct os, s as [s|]; cbn in Hb; try exact I; apply Z.ltb_ge in Hb; exact Hb. }
      destruct os; cbn; (split; [destruct s; exact Hle|]); (split; [exact Hs|]);
        intros e' [= <-]; exact Hmid.
  - cbn. auto.
Qed.

(** Whatever is pressed and picked, in whatever order, the bounds of the
    custom range are local midnights and, once both are set, the start
    is not after the end. *)
Theorem custom_range_is_never_inverted (events : list ScreenEvent) :
  rangeInOrder (screenAfter events) /\ boundsAtMidnight (screenAfter events).
Proof.
  unfold screenAfter.
  assert (Hinit : rangeInOrder initialScreen /\ boundsAtMidnight initialScreen).
  { cbn. repeat split; discriminate. }
  revert Hinit. generalize initialScreen as sc.
  induction events as [|ev events IH]; intros sc Hsc; [exact Hsc|].
  cbn [fold_left]. apply IH, screenStep_keeps_range, Hsc.
Qed.

(** ** The debounced save *)

Lemma saveToStorage_all sv earlier data :
  let scheduled := fold_left (fun s d => saveToStorage d s) (earlier ++ [data]) sv in
  pendingSaveRef scheduled = Some data
  /\ provider scheduled = setShouldSave true (provider sv).
Proof.
  cbn zeta. rewrite fold_left_app. cbn [fold_left].
  split; [reflexivity|]. cbn [saveToStorage provider clearPending].
  generalize sv. induction earlier as [|d earlier IH]; intros sv0; [reflexivity|].
  cbn [fold_left]. destruct earlier as [|d' earlier'].
  - reflexivity.
  - rewrite IH. reflexivity.
Qed.

Lemma timerFires_failing f sv data :
  f (setItem STORAGE_KEY) <> None -> pendingSaveRef sv = Some data ->
  timerFires f sv = sv.
Proof.
  intros Hf Hp. unfold timerFires, save, writeExpenses. rewrite Hp.
  cbn [provider clearPending].
  destruct (f (setItem STORAGE_KEY)); [|contradiction].
  destruct sv as [st p]. cbn in *. rewrite Hp. reflexivity.
Qed.

(** However many lists are handed to [saveToStorage] before the timer
    fires, one timer is left, holding the last of them.  While the writes
    are rejected the timer is started again with the same list, the flag
    stays up, and a load does nothing.  The first write that goes through
    stores the last list, lowers the flag and leaves no timer; nothing
    but the storage and the flag has changed. *)
Theorem debounced_save_writes_the_latest_list (sv : Saver)
    (earlier : list (list Expense.t)) (data : list Expense.t)
    (failing : list (StorageOp -> option Thrown)) (io : StorageOp -> option Thrown) :
  Forall (fun f => f (setItem STORAGE_KEY) <> None) failing ->
  io (setItem STORAGE_KEY) = None ->
  let scheduled := fold_left (fun s d => saveToStorage d s) (earlier ++ [data]) sv in
  let retried := fold_left (fun s f => timerFires f s) failing scheduled in
  let written := timerFires io retried in
  (pendingSaveRef retried = Some data
   /\ provider retried = setShouldSave true (provider sv)
   /\ forall io', loadStoredData (provider retried) io' = provider retried)
  /\ (pendingSaveRef written = None
      /\ provider written
         = setShouldSave false
             (setStorage (<[STORAGE_KEY := JSON_stringify data]> (storage (provider sv)))
                         (provider sv))
      /\ timerFires io written = written).
Proof.
  intros Hfail Hio scheduled retried written.
  destruct (saveToStorage_all sv earlier data) as [Hp Hst]. fold scheduled in Hp, Hst.
  assert (Hretried : retried = scheduled).
  { subst retried. clearbody scheduled. induction Hfail as [|f l Hf _ IH]; [reflexivity|].
    cbn [fold_left]. rewrite (timerFires_failing f scheduled data Hf Hp). exact IH. }
  assert (Hwritten : written
                     = mkSaver (setShouldSave false
                                  (setStorage
                                     (<[STORAGE_KEY := JSON_stringify data]>
                                        (storage (provider sv))) (provider sv))) None).
  { subst written. rewrite Hretried. unfold timerFires, save, writeExpenses.
    rewrite Hp, Hio. cbn [provider clearPending pendingSaveRef]. rewrite Hst. reflexivity. }
  rewrite Hretried. split; [|rewrite Hwritten; repeat split].
  split; [exact Hp|]. split; [exact Hst|].
  intros io'. rewrite Hst. reflexivity.
Qed.

(** When the list is emptied while a write is pending, the effect only
    stops the timer: the pending list is never written, the flag stays
    up, and from then on a load does nothing. *)
Theorem emptied_list_cancels_the_pending_save (sv : Saver) (data : list Expense.t)
    (io : StorageOp -> option Thrown) :
  loading (provider sv) = false ->
  let pending := saveToStorage data sv in
  let emptied := mkSaver (setExpenses [] (provider pending)) (pendingSaveRef pending) in
  let after := saveEffect emptied in
  pendingSaveRef after = None
  /\ timerFires io after = after
  /\ storage (provider after) = storage (provider sv)
  /\ shouldSaveRef (provider after) = true
  /\ forall io', loadStoredData (provider after) io' = provider after.
Proof.
  intros Hloaded pending emptied after. subst after emptied pending.
  unfold saveEffect. cbn [provider clearPending saveToStorage setExpenses expenses
                          setShouldSave loading length].
  rewrite Hloaded. cbn. repeat split.
Qed.

(** ** What the form and the store hand to the storage, and get back *)

Open Scope Q_scope.

Lemma trimStart_fixed c r : isSpace c = false -> trimStart (String c r) = String c r.
Proof. intros H. cbn [trimStart]. rewrite H. reflexivity. Qed.

(** Trimming the end keeps the first character of a text that does not
    start with white space. *)
Lemma trimEnd_head c r :
  isSpace c = false -> exists r', trimEnd (String c r) = String c r'.
Proof.
  intros H. cbn [trimEnd]. destruct (trimEnd r) as [|c' r'].
  - rewrite H. eauto.
  - eauto.
Qed.

Lemma trimEnd_idempotent s : trimEnd (trimEnd s) = trimEnd s.
Proof.
  induction s as [|c r IH]; [reflexivity|]. cbn [trimEnd].
  destruct (trimEnd r) as [|c' r'] eqn:E.
  - destruct (isSpace c) eqn:Ec; [reflexivity|]. cbn [trimEnd]. rewrite Ec. reflexivity.
  - cbn [trimEnd] in IH |- *. cbn [trimEnd]. rewrite IH. reflexivity.
Qed.

Lemma trimStart_cases s :
  trimStart s = EmptyString \/ exists c r, trimStart s = String c r /\ isSpace c = false.
Proof.
  induction s as [|c r IH]; [left; reflexivity|]. cbn [trimStart].
  destruct (isSpace c) eqn:Ec; [exact IH|]. right. eauto.
Qed.

Lemma trim_idempotent s : trim (trim s) = trim s.
Proof.
  unfold trim. destruct (trimStart_cases s) as [->|(c & r & -> & Hc)]; [reflexivity|].
  destruct (trimEnd_head c r Hc) as [r' E].
  rewrite E, (trimStart_fixed c r' Hc), <- E. apply trimEnd_idempotent.
Qed.

Lemma addExpense_resolved_storage st expense now answer io :
  fst (addExpense st expense now answer io) = Resolved ->
  storage (snd (addExpense st expense now answer io))
  = <[STORAGE_KEY := JSON_stringify (expenses st ++ [recordAdded expense now])]> (storage st).
Proof.
  rewrite addExpense_unfold. intros H. apply settle_resolved in H as [Hnone ->].
  destruct (confirmThen_commit_cases (addPrompt st expense now) answer "Expense cancelled"
              io (expenses st ++ [recordAdded expense now]) (setError None st))
    as [(_ & _ & Hs & _)|(reason & Hsome & _)]; [exact Hs|congruence].
Qed.


Lemma normalise_asStored e :
  wellFormed e -> exists r, normalise (asStored e) = Some r /\ sameRecord r e.
Proof.
  intros (Hid & Hdesc & Htrim & Hdate & Hcat & Hcent & t & Ht & Hnz).
  unfold normalise, asStored. cbn [s_description]. eexists. split; [reflexivity|].
  unfold sameRecord.
  cbn [s_id s_description s_amount s_date s_category s_timestamp default
       Expense.id Expense.description Expense.amount Expense.date Expense.category
       Expense.timestamp truthyO].
  split; [reflexivity|]. split; [exact Htrim|].
  split; [apply round2_centPrecise, Hcent|]. split; [reflexivity|]. split.
  - unfold truthyS. destruct (String.eqb_spec (Expense.category e) ""); [contradiction|].
    reflexivity.
  - rewrite Ht. unfold truthyZ. destruct (Z.eqb_spec t 0); [contradiction|]. reflexivity.
Qed.

Lemma keepStored_asStored e : wellFormed e -> keepStored (asStored e) = true.
Proof. tidy.
  intros (Hid & Hdesc & _ & Hdate & _). apply keepStored_iff.
  unfold asStored. cbn [s_id s_description s_amount s_date].
  repeat split; eauto.
Qed.

Lemma validated_asStored l :
  Forall wellFormed l ->
  exists validated,
    mapM normalise (List.filter keepStored (map asStored l)) = Some validated
    /\ Forall2 sameRecord validated l.
Proof.
  induction 1 as [|e l He _ (validated & Hvalid & Hsame)].
  - exists []. split; [reflexivity|constructor].
  - destruct (normalise_asStored e He) as (r & Hr & Hre).
    exists (r :: validated). cbn [map List.filter]. rewrite (keepStored_asStored e He).
    split; [|constructor; assumption].
    apply mapM_Some. constructor; [exact Hr|apply mapM_Some, Hvalid].
Qed.


(** ** The week, again: what the bars leave out *)

Open Scope Q_scope.



End App.

(** * Worked examples

    The theorems above at the sample data, and the inputs on which the
    code departs from the specification. *)

(** ** The calendar *)

Example epoch_is_1970_01_01 : JSDate.civil_from_days 0 = (1970, 1, 1)%Z.
Proof. reflexivity. Qed.
Example leap_day_2024 : JSDate.civil_from_days 19782 = (2024, 2, 29)%Z.
Proof. reflexivity. Qed.
Example day_19782 : JSDate.days_from_civil 2024 2 29 = 19782%Z.
Proof. reflexivity. Qed.
(* 25 November 2026 is a Wednesday. *)
Example weekday_2026_11_25 :
  JSDate.civil_from_days 20782 = (2026, 11, 25)%Z
  /\ JSDate.WeekDay (20782 * 86400000) = 3%Z
  /\ JSDate.toDateString IST nov25 = (3, 10, 25, 2026)%Z.
Proof. repeat split. Qed.

(** On Wednesday 2 December 2026 the week began on Sunday 29 November
    ([setDate] with day -1 goes back into November) and the month on
    Tuesday 1 December. *)
Example period_starts_2026_12_02 :
  let now := (nov25 + 7 * oneDay)%Z in
  JSDate.toDateString IST (startOfPeriod IST weekly now) = (0, 10, 29, 2026)%Z
  /\ JSDate.toDateString IST (startOfPeriod IST monthly now) = (2, 11, 1, 2026)%Z
  /\ startOfPeriod IST daily now = (now - 36000000)%Z.
Proof. vm_compute. repeat split. Qed.

(** ** The budget status *)

(** The example of the specification: 4500 spent under a monthly budget
    of 5000. *)
Example status_4500_of_5000 :
  let status := getBudgetStatus IST noDate (Some monthlyCap) [rent] nov25 in
  BudgetStatus.total status == 4500 /\ BudgetStatus.remaining status == 500
  /\ BudgetStatus.isOverBudget status = false.
Proof. vm_compute. repeat split. Qed.

(** The rent, stamped an hour ago, is counted in the month: the total is
    the rent. *)
Lemma rent_is_the_total :
  In rent (List.filter (inPeriod noDate (startOfPeriod IST monthly nov25)) [rent])
  /\ BudgetStatus.total (getBudgetStatus IST noDate (Some monthlyCap) [rent] nov25)
     == sumAmounts [rent].
Proof.
  destruct (budget_status_evaluation IST noDate [rent] monthlyCap nov25)
    as (_ & _ & Hstamped & _ & Hwhole & _).
  - split; [reflexivity|discriminate].
  - constructor; [split; [reflexivity|vm_compute; discriminate]|constructor].
  - split; [vm_compute; discriminate|]. intros c limit Hlimit. discriminate Hlimit.
  - split.
    + apply (Hstamped rent (nov25 - 3600000)%Z);
        [reflexivity|vm_compute; discriminate|vm_compute; discriminate|].
      split; [left; reflexivity|vm_compute; discriminate].
    + apply Hwhole.
      replace (List.filter (inPeriod noDate (startOfPeriod IST (Budget.period monthlyCap) nov25))
                 [rent])
        with [rent] by (vm_compute; reflexivity).
      split; [|vm_compute; discriminate].
      constructor; [exists 4500%Z; reflexivity|constructor].
Defined.

(** A record whose timestamp is past the range of [Date] is after the
    period start and is not counted: the total is 0, not its 50.  C1 does
    not hold as stated. *)
Lemma record_stamped_out_of_range_is_not_counted :
  let start := startOfPeriod IST monthly nov25 in
  let status := getBudgetStatus IST noDate (Some monthlyCap) [farFuture] nov25 in
  ~ BudgetStatus.total status
    == sumAmounts
         (List.filter
            (fun e => match Expense.timestamp e with
                      | Some t => (start <=? t)%Z
                      | None => false
                      end)
            [farFuture]).
Proof. vm_compute. discriminate. Qed.

(** The doubles 0.1 and 0.2 add up to more than the double 0.3: under a
    budget of 0.3 the status is over budget. *)
Example tenths_are_over_three_tenths :
  let status := getBudgetStatus IST noDate (Some threeTenthsCap) tenths nov25 in
  BudgetStatus.total status = 1351079888211149 # 4503599627370496
  /\ BudgetStatus.isOverBudget status = true
  /\ BudgetStatus.remaining status = 0.
Proof. vm_compute. repeat split. Qed.

(** Another 600 would make 5100: the prompt is shown, and declining it
    leaves the 4500. *)
Lemma declined_600_leaves_4500 :
  let r := addExpense IST noDate idsOf nearTheCap sixHundred nov25 false storageOk in
  fst r = Rejected (JsError "Expense cancelled")
  /\ expenses (snd r) = expenses nearTheCap
  /\ storage (snd r) = storage nearTheCap
  /\ error (snd r) = None.
Proof.
  destruct (declined_confirmation_changes_nothing IST noDate idsOf nearTheCap "2"
              sixHundred nov25 storageOk) as [Hadd _].
  destruct (Hadd (OverPeriod monthly 100)) as (H1 & H2 & H3 & H4 & _).
  - vm_compute. reflexivity.
  - repeat split; assumption.
Defined.

(** ** Confirmation *)

(** Moving the 50 of food to transport, whose limit is 40, keeps the
    amount: no prompt is shown, although the recomputed status has
    transport over its limit.  C2 does not hold as stated. *)
Lemma recategorised_over_limit_unprompted :
  ~ (prompted oneMeal (snd (updateExpense IST noDate idsOf oneMeal "1" taxi nov25 true storageOk))
     <-> exists b, budget oneMeal = Some b
           /\ overSomeCap b
                (getBudgetStatus IST noDate (Some b)
                   (afterUpdate "1" taxi nov25 (expenses oneMeal)) nov25)).
Proof.
  intros [_ Hprompt].
  assert (Hshown : prompted oneMeal
            (snd (updateExpense IST noDate idsOf oneMeal "1" taxi nov25 true storageOk))).
  { apply Hprompt. exists transportCap. split; [reflexivity|].
    right. exists "transport", 40. split; vm_compute; reflexivity. }
  destruct Hshown as (w & rest & Halerts). vm_compute in Halerts. discriminate Halerts.
Qed.

(** A taxi ride of 60 is prompted for, whether it is added to the meal
    or replaces it: transport would be at 60, over its limit of 40. *)
Lemma taxi_ride_is_prompted :
  prompted oneMeal (snd (addExpense IST noDate idsOf oneMeal taxi60 nov25 true storageOk))
  /\ prompted oneMeal
       (snd (updateExpense IST noDate idsOf oneMeal "1" taxi60 nov25 true storageOk)).
Proof.
  destruct (confirmation_requested_iff IST noDate idsOf oneMeal "1" taxi60 nov25 true
              storageOk) as (Hadd & _ & Hupdate).
  - split; [reflexivity|discriminate].
  - constructor; [split; [reflexivity|vm_compute; discriminate]|constructor].
  - split; [reflexivity|vm_compute; discriminate].
  - intros b [= <-]. split; [vm_compute; discriminate|].
    intros c limit Hlimit. unfold limitOf, transportCap in Hlimit.
    cbn [Budget.categoryLimits] in Hlimit.
    apply lookup_singleton_Some in Hlimit as [<- <-].
    split; [reflexivity|vm_compute; discriminate].
  - split.
    + apply Hadd. exists transportCap. split; [reflexivity|]. right. exists 40.
      split; [reflexivity|]. split; [vm_compute; discriminate|vm_compute; reflexivity].
    + apply (Hupdate groceries).
      * reflexivity.
      * repeat constructor. intros [].
      * intros b [= <-]. exists (nov25 - 3600000)%Z.
        split; [left; split; [reflexivity|vm_compute; discriminate]|].
        split; vm_compute; discriminate.
      * split; [|vm_compute; discriminate].
        constructor; [exists 60%Z; reflexivity|].
        constructor; [exists 50%Z; reflexivity|constructor].
      * exists transportCap. split; [reflexivity|]. split; [reflexivity|]. right. exists 40.
        split; [reflexivity|]. split; [vm_compute; discriminate|vm_compute; reflexivity].
Defined.

(** ** Validation and load *)



(** An amount of 0.001 passes the form and is saved as 0. *)
Example thousandth_is_saved_as_zero :
  let r := handleSubmit IST noDate idsOf parseAmount printDate oneMeal
             (mkForm "tea" "0.001" "food" None) nov25 true storageOk in
  fst r = Saved
  /\ map (fun e => Qred (Expense.amount e)) (expenses (snd r)) = [50; 0].
Proof. vm_compute. split; reflexivity. Qed.

(** A payload of two records, the second with a number for description:
    both pass the filter, and nothing is loaded; the key is removed. *)
Example numeric_description_drops_the_payload :
  let st := loadStoredData noDate parseTwo parseNoBudget
              (initialState {[ STORAGE_KEY := "[2]" ]}) storageOk in
  expenses st = [] /\ storage st !! STORAGE_KEY = None /\ error st = None.
Proof. vm_compute. repeat split. Qed.

(** C8, where the code departs from it.  A stored JSON string loads as no
    records, without an error, but its key keeps it; whereas text that does
    not parse is removed from the storage. *)
Theorem payload_that_is_no_array_stays :
  let kept := loadStoredData noDate parseSample parseNoBudget
                (initialState {[ STORAGE_KEY := payloadText ]}) storageOk in
  let dropped := loadStoredData noDate parseSample parseNoBudget
                   (initialState {[ STORAGE_KEY := payloadBroken ]}) storageOk in
  (expenses kept = [] /\ error kept = None
   /\ storage kept !! STORAGE_KEY = Some payloadText)
  /\ (expenses dropped = [] /\ error dropped = None
      /\ storage dropped !! STORAGE_KEY = None).
Proof. vm_compute. repeat split. Qed.

(** ** Analytics *)

(** A record of an unknown category is in the total and in no entry of
    the breakdown.  C5 does not hold as stated. *)
Lemma breakdown_misses_unknown_category :
  ~ breakdownTotal (getCategoryData [gym]) == getTotalSpent [gym].
Proof. vm_compute. discriminate. Qed.

(** With known categories the breakdown adds up to the total, as the
    category totals of the budget status do. *)
Lemma even_split_adds_up :
  breakdownTotal (getCategoryData evenSplit) == getTotalSpent evenSplit
  /\ let status := getBudgetStatus IST noDate (Some transportCap) evenSplit nov25 in
     sumValues (BudgetStatus.categoryTotals status) == BudgetStatus.total status.
Proof.
  destruct (category_totals_sum_to_total IST noDate) as [Hstatus Hbreakdown].
  assert (Hplain : Forall plainRecord evenSplit).
  { repeat (constructor; [split; [reflexivity|vm_compute; discriminate]|]). constructor. }
  assert (Hwhole : wholeAmounts evenSplit).
  { split; [|vm_compute; discriminate].
    repeat (constructor; [exists 50%Z; reflexivity|]). constructor. }
  split.
  - destruct (Hbreakdown evenSplit Hplain Hwhole) as (_ & _ & Hknown).
    apply Hknown. repeat constructor.
  - apply Hstatus; [split; [reflexivity|discriminate]|exact Hplain|exact Hwhole].
Defined.

(** A record dated seven days back passes the week filter and is in no
    bucket of the week chart. *)
Lemma seven_days_back_is_filtered_in_and_charted_out :
  let selected := filterExpenses IST noDate f_week None None nov25 [daysBack 7 "4" 7] in
  selected = [daysBack 7 "4" 7]
  /\ length (getChartData IST noDate selected f_week None None nov25) = 7%nat
  /\ Forall (fun q => q == 0) (getChartData IST noDate selected f_week None None nov25).
Proof.
  apply (week_filter_outruns_week_chart IST noDate nov25 (nov25 - 7 * oneDay)%Z).
  - reflexivity.
  - vm_compute. reflexivity.
Defined.

(** The example of the specification: of the records one, three and ten
    days back the first two are in the chart, the third is filtered out. *)
Example week_of_three_records :
  let records := [daysBack 1 "1" 50; daysBack 3 "2" 30; daysBack 10 "3" 20] in
  let selected := filterExpenses IST noDate f_week None None nov25 records in
  map Expense.id selected = ["1"; "2"]
  /\ map Qred (getChartData IST noDate selected f_week None None nov25)
     = [0; 0; 0; 30; 0; 50; 0].
Proof. vm_compute. split; reflexivity. Qed.



(** 536.31 of 1062 is a share of 50.5 percent; the doubles make it
    50.49999999999999, which rounds to 50. *)
Example share_of_50_5_percent_rounds_to_50 :
  (53631 # 100) / 1062 == 101 # 200
  /\ percentOf (fl (53631 # 100)) 1062 = Fin 50.
Proof. vm_compute. split; reflexivity. Qed.

(** The example of the specification: 800 of food and 200 of transport
    are 80 and 20 percent of 1000. *)
Example breakdown_800_200 :
  map (fun d => (CategoryDatum.name d, Qred (CategoryDatum.amount d),
                 CategoryDatum.percentage d))
      (pieData mostlyFood)
  = [("Food", 800, Fin 80); ("Transport", 200, Fin 20)].
Proof. vm_compute. reflexivity. Qed.

(** ** The store *)

(** With a storage whose writes fail, deleting the meal is rejected and
    the meal is back in the list; adding a ride records the error. *)
Example failed_writes_change_nothing :
  let deleted := deleteExpense idsOf oneMeal "1" writesFail in
  let added := addExpense IST noDate idsOf nearTheCap sixHundred nov25 true writesFail in
  fst deleted = Rejected (JsError "Failed to save changes")
  /\ expenses (snd deleted) = [groceries]
  /\ fst added = Rejected (JsError "disk full")
  /\ expenses (snd added) = [rent]
  /\ error (snd added) = Some "disk full".
Proof. vm_compute. repeat split. Qed.

(** Text that does not parse is dropped at load. *)
Lemma broken_payload_is_dropped :
  let st := loadStoredData noDate parseSample parseNoBudget
              (initialState {[ STORAGE_KEY := payloadBroken ]}) storageOk in
  expenses st = [] /\ storage st !! STORAGE_KEY = None.
Proof.
  apply (unparseable_payload_is_dropped noDate parseSample parseNoBudget
           (initialState {[ STORAGE_KEY := payloadBroken ]}) storageOk payloadBroken);
    try reflexivity.
  discriminate.
Defined.

(** A ride added to the one meal and deleted again leaves the one meal. *)
Lemma ride_added_and_deleted :
  let r := deleteExpense idsOf
             (snd (addExpense IST noDate idsOf oneMeal taxi nov25 true storageOk))
             (pretty nov25) storageOk in
  fst r = Resolved /\ expenses (snd r) = expenses oneMeal.
Proof.
  apply (create_then_delete_restores IST noDate idsOf oneMeal taxi nov25 true storageOk).
  - intros e [<-|[]]. vm_compute. discriminate.
  - vm_compute. reflexivity.
Defined.

(** The meal re-entered as a ride of 45 keeps its id and its place. *)
Lemma meal_updated_in_place :
  let after := expenses (snd (updateExpense IST noDate idsOf oneMeal "1" taxi45 nov25
                                true storageOk)) in
  map Expense.id after = map Expense.id (expenses oneMeal)
  /\ exists e, In e after /\ Expense.id e = "1" /\ Expense.timestamp e = Some nov25.
Proof.
  destruct (update_replaces_in_place IST noDate idsOf oneMeal "1" taxi45 nov25 true storageOk)
    as (H1 & _ & H3).
  - vm_compute. reflexivity.
  - split; [exact H1|exact H3].
Defined.

(** ** The settings, the form and the storage *)

(** The budget of 5000 a month, saved, is the budget a provider loads
    after a restart. *)
Lemma budget_of_5000_survives_restart :
  budget (loadStoredData noDate parseSample parseBudgetSample
            (initialState (storage (snd (setBudget budgetText nearTheCap monthlyCap storageOk))))
            storageOk)
  = Some monthlyCap.
Proof.
  destruct (saved_budget_survives_restart noDate parseSample parseBudgetSample budgetText
              nearTheCap monthlyCap storageOk storageOk) as [_ H].
  - reflexivity.
  - intros op. reflexivity.
  - discriminate.
  - reflexivity.
  - exact H.
Defined.

(** The settings form with two rows for food saves the limit of the
    later one, and no limit for the row that is no number. *)
Example settings_keep_the_last_row_of_a_category :
  let r := handleSave parseSettings budgetText (initialState ∅) settings storageOk in
  fst r = BudgetSettingsSaved
  /\ budget (snd r) = Some (Budget.mk 5000 monthly (Some {[ "food" := (250 : Q) ]})).
Proof. vm_compute. split; reflexivity. Qed.

(** With the records cleared, nothing is left under the expenses key. *)
Example cleared_storage_has_no_payload :
  let r := clearAllExpenses
             (mkState [groceries] None false None false {[ STORAGE_KEY := "[1]" ]} [])
             storageOk in
  fst r = Resolved /\ expenses (snd r) = [] /\ storage (snd r) !! STORAGE_KEY = None.
Proof. vm_compute. repeat split. Qed.

(** The ride of 45 added to the meal of 50 makes a total of 95, under
    the budget there was. *)
Lemma ride_enters_the_status :
  let st' := snd (addExpense IST noDate idsOf oneMeal taxi45 nov25 true storageOk) in
  budget st' = budget oneMeal
  /\ BudgetStatus.total (getBudgetStatus IST noDate (budget st') (expenses st') nov25)
     == BudgetStatus.total (getBudgetStatus IST noDate (budget oneMeal) (expenses oneMeal) nov25)
        + 45.
Proof.
  destruct (added_amount_enters_the_status IST noDate idsOf oneMeal taxi45 nov25 true
              storageOk transportCap) as (Hbudget & _ & _ & Hwhole).
  - reflexivity.
  - split; [reflexivity|discriminate].
  - constructor; [split; [reflexivity|vm_compute; discriminate]|constructor].
  - split; [reflexivity|vm_compute; discriminate].
  - split; [vm_compute; discriminate|].
    intros c limit Hlimit. unfold limitOf, transportCap in Hlimit.
    cbn [Budget.categoryLimits] in Hlimit.
    apply lookup_singleton_Some in Hlimit as [<- <-].
    split; [reflexivity|vm_compute; discriminate].
  - vm_compute. reflexivity.
  - split; [exact Hbudget|]. apply Hwhole.
    split; [|vm_compute; discriminate].
    constructor; [exists 50%Z; reflexivity|].
    constructor; [exists 45%Z; reflexivity|constructor].
Defined.

(** With 4500 spent of 5000 the progress bar is not full. *)
Lemma progress_at_4500_of_5000 :
  progressWidth (Some monthlyCap) (getBudgetStatus IST noDate (Some monthlyCap) [rent] nov25)
  <= 100.
Proof.
  destruct (progress_bar_full_iff_nothing_remains IST noDate monthlyCap [rent] nov25)
    as [H _]; [reflexivity|exact H].
Defined.

(** What is typed into the amount field, and what the field holds. *)
Example amount_field_samples :
  sanitize "1a2.3.4" = "12.3"%string /\ sanitize "..5" = "."%string
  /\ sanitize "-7,50" = "750"%string /\ sanitize "12.50" = "12.50"%string.
Proof. repeat split. Qed.



(** Two lists handed over in a row, a write that fails and one that goes
    through: the second list is what is stored, and no timer is left. *)
Lemma second_list_is_written_once :
  let scheduled :=
    fold_left (fun s d => saveToStorage d s) ([[groceries]] ++ [[groceries; ride45]])
              (mkSaver oneMeal None) in
  let retried := fold_left (fun s f => timerFires idsOf f s) [writesFail] scheduled in
  let written := timerFires idsOf storageOk retried in
  pendingSaveRef written = None
  /\ provider written
     = setShouldSave false
         (setStorage (<[STORAGE_KEY := idsOf [groceries; ride45]]> (storage oneMeal)) oneMeal)
  /\ timerFires idsOf storageOk written = written.
Proof.
  apply (debounced_save_writes_the_latest_list noDate parseSample parseNoBudget idsOf
           (mkSaver oneMeal None) [[groceries]] [groceries; ride45] [writesFail] storageOk).
  - constructor; [discriminate|constructor].
  - reflexivity.
Defined.

(** The meal is pending when the list is emptied: it is never written. *)
Lemma pending_meal_is_never_written :
  let pending := saveToStorage [groceries] (mkSaver oneMeal None) in
  let emptied := mkSaver (setExpenses [] (provider pending)) (pendingSaveRef pending) in
  pendingSaveRef (saveEffect emptied) = None
  /\ timerFires idsOf storageOk (saveEffect emptied) = saveEffect emptied.
Proof.
  destruct (emptied_list_cancels_the_pending_save noDate parseSample parseNoBudget idsOf
              (mkSaver oneMeal None) [groceries] storageOk) as (H1 & H2 & _).
  - reflexivity.
  - split; [exact H1|exact H2].
Defined.

(** ** The charts *)


Example three_days_of_november :
  let records := [daysBack 1 "1" 50; daysBack 3 "2" 30; daysBack 10 "3" 20] in
  let filtered :=
    filterExpenses IST noDate f_custom (Some nov23_0h) (Some nov25_0h) nov25 records in
  map Expense.id filtered = ["1"]
  /\ map Qred (getChartData IST noDate filtered f_custom (Some nov23_0h) (Some nov25_0h) nov25)
     = [0; 50; 0].
Proof. vm_compute. split; reflexivity. Qed.



(** The percentages of the even split. *)
Lemma even_split_percentages :
  Forall (fun d => exists p, CategoryDatum.percentage d = Fin p /\ (0 <= p <= 100)%Z)
         (getCategoryData evenSplit).
Proof.
  apply (percentages_are_between_0_and_100 evenSplit).
  - repeat (constructor; [split; [reflexivity|vm_compute; discriminate]|]). constructor.
  - split; [|vm_compute; discriminate].
    repeat (constructor; [exists 50%Z; reflexivity|]). constructor.
  - repeat constructor; discriminate.
Defined.

(** On an iPhone, with the custom range opened: the 25th is picked as
    the start, and the 22nd is turned away as the end. *)
Example end_before_start_is_turned_away :
  let picked :=
    screenAfter IST [Pressed pressCustom; DateSelected ios (Some nov25) nov25] in
  Screen.startDate picked = Some nov25_0h
  /\ Screen.datePickerMode picked = pickEnd
  /\ handleDateSelect IST ios (Some (nov25 - 3 * oneDay)%Z) nov25 picked
     = (picked, Some (Alerted "End date cannot be before start date")).
Proof. vm_compute. repeat split. Qed.

(** ** The settings opened again, and the categories of the form *)

(** The budget of 5000 a month with 250 for food, opened in the form
    and saved as it is. *)
Lemma food_cap_saved_again :
  newBudgetOf parseSettings (initialBudgetForm printNumber map_to_list (Some foodCap))
  = Some foodCap.
Proof.
  destruct (settings_saved_again_are_the_same parseSettings budgetText printNumber
              map_to_list (initialState ∅) foodCap storageOk) as [H _].
  - reflexivity.
  - reflexivity.
  - intros limits [= <-]. split; [apply insert_non_empty|]. split; [reflexivity|].
    intros c q Hq. apply lookup_singleton_Some in Hq as [_ <-]. split; reflexivity.
  - exact H.
Defined.

(** "Pet  Care" becomes the seventh category, with the id "pet-care". *)
Example pet_care_is_added :
  (fun s => (map fc_id (ExpensesScreen.categories s), ExpensesScreen.showNewCategoryModal s))
  <$> formAfter printNumber lowerSample
        [AddCategoryPressed; NameTyped "Pet  Care"; SaveCategoryPressed]
  = Some (["food"; "transport"; "shopping"; "bills"; "entertainment"; "other"; "pet-care"],
          false).
Proof. reflexivity. Qed.

(** The gym record, whose category the form does not list, is edited
    as food: the form opened on it and submitted as it is saves it under
    food. *)
Lemma gym_is_edited_as_food :
  exists s',
    handleEdit printNumber gym initialExpensesScreen = Some s'
    /\ formOf s' = mkForm "spent" "100" "food" (Some gym)
    /\ let r := handleSubmit IST noDate idsOf parseAmount printDate
                  (mkState [gym] None false None false ∅ []) (formOf s') nov25 true
                  storageOk in
       fst r = Saved
       /\ forall e, In e (expenses (snd r)) -> Expense.id e = "9" ->
                    Expense.category e = "food".
Proof.
  destruct (unlisted_category_is_edited_as_food IST noDate idsOf parseAmount printDate
              printNumber initialExpensesScreen gym
              (mkState [gym] None false None false ∅ []) nov25 true storageOk)
    as (s' & Hs & Hf & Hsubmit).
  - exists []. split; [reflexivity|constructor].
  - reflexivity.
  - exists s'. split; [exact Hs|]. split; [exact Hf|]. cbv zeta.
    assert (Hsaved : fst (handleSubmit IST noDate idsOf parseAmount printDate
                            (mkState [gym] None false None false ∅ []) (formOf s') nov25 true
                            storageOk) = Saved)
      by (rewrite Hf; vm_compute; reflexivity).
    split; [exact Hsaved|]. exact (proj2 (Hsubmit Hsaved)).
Defined.
